(** * Traffic congestion dashboard: a shallow embedding of [static/diagram.js]

    The dashboard script is modelled function by function.  JavaScript
    numbers are IEEE 754 binary64 values, which is what [PrimFloat.float]
    is, so every arithmetic step and every comparison of the script is
    the corresponding primitive operation.  Strings that the script
    assembles from literals and formatted numbers are kept as token lists
    ([tokens]); the page is a store of element properties; [Chart]
    instances live in a heap indexed by their creation order; an [async]
    function is cut at its [await] into the part that runs on the click
    and the part that runs when the response settles.  What the script
    leaves to the browser (how many arguments a spread call may pass,
    which texts are a width) is a parameter of the page.  The longer copy
    of the script that adds export, history and network features has the
    functions modelled here word for word. *)

From Stdlib Require Import Floats List ZArith Lia String Ascii Bool Arith.
Import ListNotations.

Set Warnings "-inexact-float".

Open Scope string_scope.
Open Scope float_scope.
Open Scope list_scope.

(** ** JavaScript numbers *)

Module JS.

Definition is_nan (x : float) : bool := negb (x =? x).

Definition is_neg_zero (x : float) : bool :=
  match classify x with NZero => true | _ => false end.

Definition is_pos_zero (x : float) : bool :=
  match classify x with PZero => true | _ => false end.

(** One round of the loop of [Math.min]: a NaN argument makes the result
    NaN, [-0] is below [+0], otherwise the smaller value is kept. *)
Definition min_step (lowest number : float) : float :=
  if is_nan number then nan
  else if is_neg_zero number && is_pos_zero lowest then number
  else if number <? lowest then number
  else lowest.

Definition max_step (highest number : float) : float :=
  if is_nan number then nan
  else if is_pos_zero number && is_neg_zero highest then number
  else if highest <? number then number
  else highest.

(** [Math.min] and [Math.max] of the arguments a call has passed them.
    Whether a call that spreads an array passes its arguments at all is
    decided where the call is made ([spread_call] below). *)
Definition Math_min (arguments : list float) : float :=
  fold_left min_step arguments infinity.

Definition Math_max (arguments : list float) : float :=
  fold_left max_step arguments neg_infinity.

(** The value of a loop counter that started at [0] and was incremented
    [n] times by [i++]. *)
Fixpoint counter (n : nat) : float :=
  match n with
  | O => 0
  | S k => counter k + 1
  end.

(** [ToNumber] of a property that may be missing: [undefined] is NaN. *)
Definition to_number (v : option float) : float :=
  match v with
  | Some x => x
  | None => nan
  end.

End JS.

(** ** Text assembled by the script

    [Number.prototype.toFixed] and [String.prototype.toUpperCase] are kept
    as tokens: the script only concatenates their results. *)

Inductive frag : Type :=
| Lit (s : string)                 (* a string literal of the script *)
| Str (s : string)                 (* a string value taken from the input *)
| OptStr (s : option string)       (* a property assigned as it is, possibly undefined *)
| Upper (s : string)               (* s.toUpperCase() *)
| Fixed (x : float) (digits : nat) (* x.toFixed(digits) *)
| NumStr (x : float).              (* a number converted by string concatenation *)

Definition tokens : Type := list frag.

Definition dquote : string := String "034"%char EmptyString.

(** ** The binning loop of [createHistogram] *)

Definition bins : nat := 20.

(** [histogram[i] = v] on an array that already has an index [i]. *)
Fixpoint array_set {A : Type} (i : nat) (v : A) (a : list A) : list A :=
  match a, i with
  | [], _ => []
  | _ :: rest, O => v :: rest
  | x :: rest, S j => x :: array_set j v rest
  end.

(** [data.filter(x => x >= binStart && x < binEnd).length] *)
Definition bin_count (data : list float) (binStart binEnd : float) : nat :=
  List.length (filter (fun x => (binStart <=? x) && (x <? binEnd)) data).

Record binning_state : Type := {
  labels : list tokens;
  histogram : list nat
}.

Definition binning_body (data : list float) (min binWidth : float)
    (st : binning_state) (i : nat) : binning_state :=
  let binStart := min + JS.counter i * binWidth in
  let binEnd := binStart + binWidth in
  {| labels := labels st ++ [[Fixed binStart 0; Lit "-"; Fixed binEnd 0]];
     histogram := array_set i (bin_count data binStart binEnd) (histogram st) |}.

(** The loop, entered with the values of [min] and [max]. *)
Definition binning (data : list float) (min max : float) : binning_state :=
  let binWidth := (max - min) / JS.counter bins in
  fold_left (binning_body data min binWidth) (seq 0 bins)
    {| labels := []; histogram := repeat 0%nat bins |}.

(** The bins of samples that [Math.min] and [Math.max] were passed. *)
Definition create_bins (data : list float) : binning_state :=
  binning data (JS.Math_min data) (JS.Math_max data).

Definition sum_counts (h : list nat) : nat := fold_right Nat.add 0%nat h.


(** ** The browser

    Two things the script relies on are settled by the browser it runs in
    and not by the script.  A call that spreads an array, [f(...data)],
    passes at most so many arguments; with a longer array the call is not
    made and a [RangeError] is thrown.  And an assignment to
    [element.style.width] takes effect only when the CSS parser takes the
    text as a width; otherwise the assignment is dropped and the property
    stays as it was. *)

Record browser : Type := {
  max_arguments : nat;
  takes_percentage : float -> bool   (* is [y.toFixed(1) + '%'], y finite, a width? *)
}.

(** [y.toFixed(1)] is [NaN] for NaN and [Infinity] or [-Infinity] for an
    infinity; followed by [%] these are no percentage for any parser.
    Which finite percentages are widths (a negative one is outside the
    range of the property) is left to the browser. *)
Definition width_taken (b : browser) (y : float) : bool :=
  is_finite y && takes_percentage b y.

(** ** The page

    Element properties that hold text are addressed as the script
    addresses them: by the element's id and the property written. *)

Inductive key : Type :=
| TextContent (id : string)
| InnerHTML (id : string)
| Display (id : string)       (* element.style.display *)
| Width (id : string)         (* element.style.width *)
| ClassName (id : string).

Definition key_eqb (a b : key) : bool :=
  match a, b with
  | TextContent x, TextContent y
  | InnerHTML x, InnerHTML y
  | Display x, Display y
  | Width x, Width y
  | ClassName x, ClassName y => String.eqb x y
  | _, _ => false
  end.

(** Children of the [recommendationsList] container. *)
Inductive node : Type :=
| RawHtml (html : tokens)                       (* produced by assigning innerHTML *)
| Div (className : tokens) (innerHTML : tokens).  (* created and appended *)

Inductive series : Type :=
| Counts (l : list nat)
| Values (l : list (option float)).

Record dataset : Type := {
  ds_label : string;
  ds_data : series;
  ds_yAxisID : option string
}.

(** A [Chart] instance: the canvas it is attached to, its configuration,
    and whether [destroy()] has been called on it. *)
Record chart : Type := {
  canvas : string;
  chart_type : string;
  chart_labels : list tokens;
  datasets : list dataset;
  chart_title : string;
  destroyed : bool
}.

Record page : Type := {
  props : key -> tokens;
  btn_disabled : bool;               (* disabled flag of the .btn-primary element *)
  recommendationsList : list node;
  charts : list chart;               (* every instance constructed so far *)
  histogramChart : option nat;       (* the three global handles *)
  timeSeriesChart : option nat;
  comparisonChart : option nat;
  alerts : list string;
  console : list string;
  host : browser;                    (* the browser the page is open in *)
  most_attached : string -> nat      (* per canvas: the most instances attached at once *)
}.

Definition set_prop (k : key) (v : tokens) (p : page) : page :=
  {| props := fun k' => if key_eqb k k' then v else props p k';
     btn_disabled := btn_disabled p;
     recommendationsList := recommendationsList p;
     charts := charts p;
     histogramChart := histogramChart p;
     timeSeriesChart := timeSeriesChart p;
     comparisonChart := comparisonChart p;
     alerts := alerts p;
     console := console p;
     host := host p;
     most_attached := most_attached p |}.

Definition set_btn_disabled (b : bool) (p : page) : page :=
  {| props := props p;
     btn_disabled := b;
     recommendationsList := recommendationsList p;
     charts := charts p;
     histogramChart := histogramChart p;
     timeSeriesChart := timeSeriesChart p;
     comparisonChart := comparisonChart p;
     alerts := alerts p;
     console := console p;
     host := host p;
     most_attached := most_attached p |}.

Definition set_recommendationsList (l : list node) (p : page) : page :=
  {| props := props p;
     btn_disabled := btn_disabled p;
     recommendationsList := l;
     charts := charts p;
     histogramChart := histogramChart p;
     timeSeriesChart := timeSeriesChart p;
     comparisonChart := comparisonChart p;
     alerts := alerts p;
     console := console p;
     host := host p;
     most_attached := most_attached p |}.

Definition set_charts (l : list chart) (p : page) : page :=
  {| props := props p;
     btn_disabled := btn_disabled p;
     recommendationsList := recommendationsList p;
     charts := l;
     histogramChart := histogramChart p;
     timeSeriesChart := timeSeriesChart p;
     comparisonChart := comparisonChart p;
     alerts := alerts p;
     console := console p;
     host := host p;
     most_attached := most_attached p |}.

Definition set_histogramChart (h : option nat) (p : page) : page :=
  {| props := props p;
     btn_disabled := btn_disabled p;
     recommendationsList := recommendationsList p;
     charts := charts p;
     histogramChart := h;
     timeSeriesChart := timeSeriesChart p;
     comparisonChart := comparisonChart p;
     alerts := alerts p;
     console := console p;
     host := host p;
     most_attached := most_attached p |}.

Definition set_timeSeriesChart (h : option nat) (p : page) : page :=
  {| props := props p;
     btn_disabled := btn_disabled p;
     recommendationsList := recommendationsList p;
     charts := charts p;
     histogramChart := histogramChart p;
     timeSeriesChart := h;
     comparisonChart := comparisonChart p;
     alerts := alerts p;
     console := console p;
     host := host p;
     most_attached := most_attached p |}.

Definition set_comparisonChart (h : option nat) (p : page) : page :=
  {| props := props p;
     btn_disabled := btn_disabled p;
     recommendationsList := recommendationsList p;
     charts := charts p;
     histogramChart := histogramChart p;
     timeSeriesChart := timeSeriesChart p;
     comparisonChart := h;
     alerts := alerts p;
     console := console p;
     host := host p;
     most_attached := most_attached p |}.

Definition add_alert (msg : string) (p : page) : page :=
  {| props := props p;
     btn_disabled := btn_disabled p;
     recommendationsList := recommendationsList p;
     charts := charts p;
     histogramChart := histogramChart p;
     timeSeriesChart := timeSeriesChart p;
     comparisonChart := comparisonChart p;
     alerts := alerts p ++ [msg];
     console := console p;
     host := host p;
     most_attached := most_attached p |}.

Definition add_console (msg : string) (p : page) : page :=
  {| props := props p;
     btn_disabled := btn_disabled p;
     recommendationsList := recommendationsList p;
     charts := charts p;
     histogramChart := histogramChart p;
     timeSeriesChart := timeSeriesChart p;
     comparisonChart := comparisonChart p;
     alerts := alerts p;
     console := console p ++ [msg];
     host := host p;
     most_attached := most_attached p |}.

Definition set_most_attached (m : string -> nat) (p : page) : page :=
  {| props := props p;
     btn_disabled := btn_disabled p;
     recommendationsList := recommendationsList p;
     charts := charts p;
     histogramChart := histogramChart p;
     timeSeriesChart := timeSeriesChart p;
     comparisonChart := comparisonChart p;
     alerts := alerts p;
     console := console p;
     host := host p;
     most_attached := m |}.

(** The page as the script finds it on load in browser [b]: nothing
    rendered, the three chart handles [null], no chart ever attached. *)
Definition initial_page (b : browser) : page :=
  {| props := fun _ => [];
     btn_disabled := false;
     recommendationsList := [];
     charts := [];
     histogramChart := None;
     timeSeriesChart := None;
     comparisonChart := None;
     alerts := [];
     console := [];
     host := b;
     most_attached := fun _ => 0%nat |}.

(** ** Statements that may throw

    A statement transforms the page and either completes with a value or
    throws; what it wrote before throwing stays written. *)

Definition M (A : Type) : Type := page -> page * option A.

Definition ret {A : Type} (a : A) : M A := fun p => (p, Some a).

Definition throw {A : Type} : M A := fun p => (p, None).

Definition bind {A B : Type} (c : M A) (k : A -> M B) : M B :=
  fun p =>
    match c p with
    | (p', Some a) => k a p'
    | (p', None) => (p', None)
    end.

Definition modify (f : page -> page) : M unit := fun p => (f p, Some tt).

Definition get {A : Type} (f : page -> A) : M A := fun p => (p, Some (f p)).

Notation "x <- c ;; k" := (bind c (fun x => k))
  (at level 61, c at next level, right associativity).
Notation "c ;; k" := (bind c (fun _ => k))
  (at level 61, right associativity).

(** Reading a property of [undefined] throws a [TypeError]. *)
Definition defined {A : Type} (v : option A) : M A :=
  match v with
  | Some a => ret a
  | None => throw
  end.

(** [try { body } catch (error) { handler } finally { finalizer }] *)
Definition try_catch_finally (body handler finalizer : M unit) : M unit :=
  fun p =>
    let (p1, r1) := body p in
    let (p2, r2) := match r1 with
                    | Some _ => (p1, Some tt)
                    | None => handler p1
                    end in
    let (p3, r3) := finalizer p2 in
    (p3, match r3 with Some _ => r2 | None => None end).

(** ** The chart library, as far as the script uses it *)

Definition mark_destroyed (c : chart) : chart :=
  {| canvas := canvas c; chart_type := chart_type c;
     chart_labels := chart_labels c; datasets := datasets c;
     chart_title := chart_title c; destroyed := true |}.

Fixpoint destroy_at (id : nat) (l : list chart) : list chart :=
  match l, id with
  | [], _ => []
  | c :: rest, O => mark_destroyed c :: rest
  | c :: rest, S j => c :: destroy_at j rest
  end.

(** [chart.destroy()] *)
Definition destroy (id : nat) : M unit :=
  modify (fun p => set_charts (destroy_at id (charts p)) p).

(** Instances attached to a canvas and not destroyed. *)
Definition live_on (cv : string) (l : list chart) : list chart :=
  filter (fun c => String.eqb (canvas c) cv && negb (destroyed c)) l.

(** The number of instances attached to a canvas grows only when one is
    constructed on it; that is the moment [most_attached] is brought up
    to date. *)
Definition attach (c : chart) (p : page) : page :=
  let l := charts p ++ [c] in
  set_most_attached
    (fun cv => if String.eqb cv (canvas c)
               then Nat.max (most_attached p cv) (List.length (live_on cv l))
               else most_attached p cv)
    (set_charts l p).

(** [new Chart(ctx, config)]: the new instance is attached to its canvas
    and its handle returned. *)
Definition new_Chart (c : chart) : M nat :=
  fun p => (attach c p, Some (List.length (charts p))).

(** [if (handle) { handle.destroy(); }] *)
Definition destroy_existing (handle : option nat) : M unit :=
  match handle with
  | Some id => destroy id
  | None => ret tt
  end.

(** ** Calls and assignments the browser may refuse *)

(** [f(...args)]: the call is made when the browser can pass that many
    arguments, and throws a [RangeError] otherwise. *)
Definition spread_call {A : Type} (f : list float -> A) (args : list float) : M A :=
  b <- get host ;;
  if (List.length args <=? max_arguments b)%nat then ret (f args) else throw.

(** [element.style.width = y.toFixed(1) + '%'] *)
Definition set_width_percentage (id : string) (y : float) : M unit :=
  b <- get host ;;
  if width_taken b y then modify (set_prop (Width id) [Fixed y 1; Lit "%"])
  else ret tt.

(** ** Response payloads

    A property of a response object is either present with a value of the
    expected type or missing ([None], JavaScript's [undefined]). *)

Record payload : Type := {
  avg_max_queue : option float;
  avg_waiting_time : option float;
  avg_service_rate : option float;
  avg_accidents_per_hour : option float;
  traffic_level : option string;
  traffic_level_description : option string;
  prob_light_traffic : option float;
  prob_moderate_jam : option float;
  prob_severe_jam : option float;
  all_max_queues : option (list float);
  sample_queue_history : option (list float)
}.

(** ** [updateProbability] *)

Definition updateProbability (barId valueId : string) (probability : option float)
    : M unit :=
  let percentage := JS.to_number probability * 100 in     (* before toFixed(1) *)
  set_width_percentage barId percentage ;;
  modify (set_prop (TextContent valueId) [Fixed percentage 1; Lit "%"]).

(** ** [createHistogram] *)

Definition createHistogram (data : option (list float)) : M unit :=
  handle <- get histogramChart ;;
  destroy_existing handle ;;
  data <- defined data ;;              (* spreading undefined throws *)
  min <- spread_call JS.Math_min data ;;
  max <- spread_call JS.Math_max data ;;
  let b := binning data min max in
  id <- new_Chart
    {| canvas := "histogramChart";
       chart_type := "bar";
       chart_labels := labels b;
       datasets := [ {| ds_label := "Frequency";
                        ds_data := Counts (histogram b);
                        ds_yAxisID := None |} ];
       chart_title := "Distribution of Maximum Queue Length";
       destroyed := false |} ;;
  modify (set_histogramChart (Some id)).

(** ** [createTimeSeries] *)

Definition createTimeSeries (data : option (list float)) : M unit :=
  handle <- get timeSeriesChart ;;
  destroy_existing handle ;;
  data <- defined data ;;              (* data.map(...) *)
  let labels := map (fun i => [NumStr (JS.counter i + 1)])
                    (seq 0 (List.length data)) in
  id <- new_Chart
    {| canvas := "timeSeriesChart";
       chart_type := "line";
       chart_labels := labels;
       datasets := [ {| ds_label := "Queue Length";
                        ds_data := Values (map Some data);
                        ds_yAxisID := None |} ];
       chart_title := "Queue Evolution (Sample Simulation)";
       destroyed := false |} ;;
  modify (set_timeSeriesChart (Some id)).

(** ** [generateRecommendations] *)

Record Recommendation : Type := {
  type : string;
  title : string;
  text : tokens
}.

Definition very_high_queue (q : float) : Recommendation :=
  {| type := "critical";
     title := "🚨 Critical: Very High Queue Length";
     text := [Lit "Average maximum queue of "; Fixed q 1;
              Lit " vehicles is critically high. Consider increasing green light capacity or duration by 30-50%."] |}.

Definition moderate_congestion (q : float) : Recommendation :=
  {| type := "warning";
     title := "⚠️ Warning: Moderate Congestion";
     text := [Lit "Queue length of "; Fixed q 1;
              Lit " vehicles indicates congestion. Traffic light optimization could improve flow by 15-25%."] |}.

Definition low_service_rate (r : float) : Recommendation :=
  {| type := "critical";
     title := "🚨 Critical: Low Service Rate";
     text := [Lit "Service rate of "; Fixed (r * 100) 1;
              Lit "% indicates system cannot handle current demand. Capacity expansion needed."] |}.

Definition high_waiting_time (w : float) : Recommendation :=
  {| type := "warning";
     title := "⏱️ High Waiting Time";
     text := [Lit "Average waiting time of "; Fixed w 2;
              Lit " minutes is high. Implement adaptive traffic light timing for 20-30% improvement."] |}.

Definition high_accident_frequency (a : float) : Recommendation :=
  {| type := "info";
     title := "🚑 High Accident Frequency";
     text := [Fixed a 2;
              Lit " accidents per hour detected. Improve road safety measures and emergency response protocols."] |}.

Definition high_severe_jam_probability (j : float) : Recommendation :=
  {| type := "critical";
     title := "📊 High Severe Jam Probability";
     text := [Fixed (j * 100) 1;
              Lit "% chance of severe congestion. Immediate intervention needed - consider alternative routes."] |}.

(** The array [recommendations] after the five [if] statements.  A
    comparison with a missing property is a comparison with NaN. *)
Definition recommendations (data : payload) : list Recommendation :=
  let q := JS.to_number (avg_max_queue data) in
  let r := JS.to_number (avg_service_rate data) in
  let w := JS.to_number (avg_waiting_time data) in
  let a := JS.to_number (avg_accidents_per_hour data) in
  let j := JS.to_number (prob_severe_jam data) in
  let recommendations := [] in
  let recommendations :=
    if 100 <? q then recommendations ++ [very_high_queue q]
    else if 60 <? q then recommendations ++ [moderate_congestion q]
    else recommendations in
  let recommendations :=
    if r <? 0.7 then recommendations ++ [low_service_rate r]
    else recommendations in
  let recommendations :=
    if 10 <? w then recommendations ++ [high_waiting_time w]
    else recommendations in
  let recommendations :=
    if 2 <? a then recommendations ++ [high_accident_frequency a]
    else recommendations in
  let recommendations :=
    if 0.2 <? j then recommendations ++ [high_severe_jam_probability j]
    else recommendations in
  recommendations.

Definition all_clear : tokens :=
  [Lit ("<p style=" ++ dquote ++ "color: #4CAF50; font-weight: 600;" ++ dquote
        ++ ">✅ No critical issues detected. Traffic flow is optimal.</p>")].

Definition recommendation_div (rec : Recommendation) : node :=
  Div [Lit "recommendation-item "; Lit (type rec)]
      ([Lit "<strong>"; Lit (title rec); Lit "</strong><p>"] ++ text rec ++ [Lit "</p>"]).

Definition appendChild (n : node) (p : page) : page :=
  set_recommendationsList (recommendationsList p ++ [n]) p.

Definition generateRecommendations (data : payload) : M unit :=
  modify (set_recommendationsList []) ;;          (* container.innerHTML = '' *)
  let recommendations := recommendations data in
  match recommendations with
  | [] => modify (set_recommendationsList [RawHtml all_clear])
  | _ => modify (fun p =>
           fold_left (fun p rec => appendChild (recommendation_div rec) p)
                     recommendations p)
  end.

(** ** [displayResults] *)

Definition displayResults (data : payload) : M unit :=
  modify (set_prop (Display "results") [Lit "block"]) ;;
  q <- defined (avg_max_queue data) ;;
  modify (set_prop (TextContent "avgQueue") [Fixed q 1]) ;;
  w <- defined (avg_waiting_time data) ;;
  modify (set_prop (TextContent "avgWait") [Fixed w 2]) ;;
  modify (set_prop (TextContent "serviceRate")
            [Fixed (JS.to_number (avg_service_rate data) * 100) 1]) ;;
  modify (set_prop (ClassName "trafficLevelCard")
            [Lit "metric-card traffic-"; OptStr (traffic_level data)]) ;;
  level <- defined (traffic_level data) ;;
  modify (set_prop (TextContent "trafficLevel") [Upper level]) ;;
  modify (set_prop (TextContent "trafficDesc")
            [OptStr (traffic_level_description data)]) ;;
  updateProbability "probLight" "probLightVal" (prob_light_traffic data) ;;
  updateProbability "probModerate" "probModerateVal" (prob_moderate_jam data) ;;
  updateProbability "probSevere" "probSevereVal" (prob_severe_jam data) ;;
  createHistogram (all_max_queues data) ;;
  createTimeSeries (sample_queue_history data) ;;
  generateRecommendations data.

(** ** [createComparisonTable]

    The mapping is given by its entries in iteration order, which is the
    order of [Object.keys] and of [Object.entries]. *)

Definition mapping : Type := list (string * payload).

Definition table_head : tokens :=
  [Lit ("<div class=" ++ dquote ++ "comparison-table" ++ dquote ++ "><table>");
   Lit "<thead><tr>";
   Lit "<th>Scenario</th>";
   Lit "<th>Avg Max Queue</th>";
   Lit "<th>Waiting Time</th>";
   Lit "<th>Service Rate</th>";
   Lit "<th>Severe Jam Prob</th>";
   Lit "</tr></thead><tbody>"].

(** One round of the [for ... of Object.entries(data)] loop; [None] once a
    [toFixed] was called on a missing property. *)
Definition table_row (html : option tokens) (entry : string * payload) : option tokens :=
  let (scenario, result) := entry in
  match html, avg_max_queue result, avg_waiting_time result with
  | Some html, Some q, Some w =>
      Some (html
            ++ [Lit "<tr>"]
            ++ [Lit "<td><strong>"; Str scenario; Lit "</strong></td>"]
            ++ [Lit "<td>"; Fixed q 1; Lit " vehicles</td>"]
            ++ [Lit "<td>"; Fixed w 2; Lit " min</td>"]
            ++ [Lit "<td>"; Fixed (JS.to_number (avg_service_rate result) * 100) 1; Lit "%</td>"]
            ++ [Lit "<td>"; Fixed (JS.to_number (prob_severe_jam result) * 100) 1; Lit "%</td>"]
            ++ [Lit "</tr>"])
  | _, _, _ => None
  end.

Definition comparison_html (data : mapping) : option tokens :=
  match fold_left table_row data (Some table_head) with
  | Some html => Some (html ++ [Lit "</tbody></table></div>"])
  | None => None
  end.

Definition createComparisonTable (data : mapping) : M unit :=
  html <- defined (comparison_html data) ;;
  modify (set_prop (InnerHTML "comparisonTable") html).

(** ** [displayComparison] *)

(** [data[s]] for a key [s] of [data]. *)
Fixpoint lookup (data : mapping) (s : string) : option payload :=
  match data with
  | [] => None
  | (k, v) :: rest => if String.eqb k s then Some v else lookup rest s
  end.

(** [scenarios.map(s => data[s].field)] *)
Definition column (data : mapping) (scenarios : list string)
    (field : payload -> option float) : list (option float) :=
  map (fun s => match lookup data s with
                | Some result => field result
                | None => None
                end) scenarios.

(** The array [serviceRates] is computed by the script and used nowhere;
    it is left out. *)
Definition displayComparison (data : mapping) : M unit :=
  modify (set_prop (Display "comparisonResults") [Lit "block"]) ;;
  let scenarios := map fst data in                     (* Object.keys(data) *)
  let avgQueues := column data scenarios avg_max_queue in
  let waitTimes := column data scenarios avg_waiting_time in
  handle <- get comparisonChart ;;
  destroy_existing handle ;;
  id <- new_Chart
    {| canvas := "comparisonChart";
       chart_type := "bar";
       chart_labels := map (fun s => [Str s]) scenarios;
       datasets := [ {| ds_label := "Avg Max Queue";
                        ds_data := Values avgQueues;
                        ds_yAxisID := Some "y" |};
                     {| ds_label := "Avg Waiting Time";
                        ds_data := Values waitTimes;
                        ds_yAxisID := Some "y1" |} ];
       chart_title := "Scenario Comparison";
       destroyed := false |} ;;
  modify (set_comparisonChart (Some id)) ;;
  createComparisonTable data.

(** ** The form, requests and the two asynchronous operations *)

(** The [value] of each form control, as typed. *)
Record form : Type := {
  scenarioSelect : string;
  simCount : string;
  rushMin : string;
  rushMax : string;
  normalMin : string;
  normalMax : string;
  greenCapacity : string;
  accidentProb : string;
  rushDuration : string
}.

Record custom_parameters : Type := {
  rush_hour_rate : float * float;
  normal_rate : float * float;
  green_capacity_normal : float;
  green_capacity_accident : float;
  accident_probability : float;
  accident_duration_range : float * float;
  rush_hour_minutes : float;
  simulation_minutes : float;
  custom_simulations : float
}.

(** The object returned by [getParameters]. *)
Inductive parameters : Type :=
| Custom (c : custom_parameters)
| Preset (simulations : float).

(** [params.simulations] *)
Definition simulations (params : parameters) : float :=
  match params with
  | Custom c => custom_simulations c
  | Preset n => n
  end.

Inductive request_body : Type :=
| CustomBody (params : parameters)                        (* JSON.stringify(params) *)
| SimulationsBody (simulations : float)                   (* { simulations } *)
| CompareBody (scenarios : list string) (simulations : float).

Record request : Type := {
  url : tokens;
  body : request_body
}.

(** How an awaited request settles: [fetch] rejects, [response.json()]
    rejects, or a parsed body arrives (whatever the HTTP status was). *)
Inductive outcome (A : Type) : Type :=
| FetchRejected
| JsonRejected
| Json (data : A).

Arguments FetchRejected {A}.
Arguments JsonRejected {A}.
Arguments Json {A} data.

(** [await fetch(...)] followed by [await response.json()]. *)
Definition awaited {A : Type} (o : outcome A) : M A :=
  match o with
  | Json data => ret data
  | _ => throw
  end.

Inductive operation : Type := Simulation | Comparison.

Section Script.

(** The two parsing builtins of the runtime. *)
Variable parseInt : string -> float.
Variable parseFloat : string -> float.

(** *** [getParameters] *)

Definition getParameters (f : form) : parameters :=
  let scenario := scenarioSelect f in
  let simCount := parseInt (simCount f) in
  if String.eqb scenario "custom" then
    Custom
      {| rush_hour_rate := (parseInt (rushMin f), parseInt (rushMax f));
         normal_rate := (parseInt (normalMin f), parseInt (normalMax f));
         green_capacity_normal := parseInt (greenCapacity f);
         green_capacity_accident := 2;
         accident_probability := parseFloat (accidentProb f) / 100;
         accident_duration_range := (5, 15);
         rush_hour_minutes := parseInt (rushDuration f);
         simulation_minutes := 60;
         custom_simulations := simCount |}
  else
    Preset simCount.

(** *** [runSimulation] *)

(** Up to the first [await]: the request that is sent. *)
Definition runSimulation_send (f : form) : M request :=
  let scenario := scenarioSelect f in
  let params := getParameters f in
  modify (set_prop (Display "loading") [Lit "block"]) ;;
  modify (set_prop (Display "results") [Lit "none"]) ;;
  modify (set_prop (Display "comparisonResults") [Lit "none"]) ;;
  modify (set_btn_disabled true) ;;
  modify (set_prop (InnerHTML "btnText") [Lit "⏳ Running..."]) ;;
  if String.eqb scenario "custom" then
    ret {| url := [Lit "/simulate/enhanced"]; body := CustomBody params |}
  else
    ret {| url := [Lit "/scenarios/"; Str scenario];
           body := SimulationsBody (simulations params) |}.

(** From the settling of the request to the end of [finally]. *)
Definition runSimulation_settle (o : outcome payload) : M unit :=
  try_catch_finally
    (data <- awaited o ;;
     displayResults data)
    (modify (add_console "Error:") ;;
     modify (add_alert "Simulation failed. Please try again."))
    (modify (set_prop (Display "loading") [Lit "none"]) ;;
     modify (set_btn_disabled false) ;;
     modify (set_prop (InnerHTML "btnText") [Lit "▶ Run Simulation"])).

(** *** [compareScenarios] *)

Definition compareScenarios_send (f : form) : M request :=
  modify (set_prop (Display "loading") [Lit "block"]) ;;
  modify (set_prop (Display "results") [Lit "none"]) ;;
  modify (set_prop (Display "comparisonResults") [Lit "none"]) ;;
  let simCount := parseInt (simCount f) in
  ret {| url := [Lit "/scenarios/compare"];
         body := CompareBody
                   ["baseline"; "optimized"; "heavy_traffic"; "ideal_conditions"]
                   simCount |}.

Definition compareScenarios_settle (o : outcome mapping) : M unit :=
  try_catch_finally
    (data <- awaited o ;;
     displayComparison data)
    (modify (add_console "Error:") ;;
     modify (add_alert "Comparison failed. Please try again."))
    (modify (set_prop (Display "loading") [Lit "none"])).

(** *** The page under user events

    A click on a control runs the operation up to its [await] and leaves a
    request in flight; a request in flight settles at any later moment.
    The browser delivers no click to a disabled control.  The control that
    starts [runSimulation] is the [.btn-primary] button the operation
    disables; no statement of the script writes the [disabled] flag of
    any other element, so the click that starts [compareScenarios] is
    always delivered. *)

Record world : Type := {
  view : page;
  in_flight : list (operation * request)
}.

Inductive event : Type :=
| ClickRun (f : form)
| ClickCompare (f : form)
| SettleSimulation (i : nat) (o : outcome payload)
| SettleComparison (i : nat) (o : outcome mapping).

Fixpoint remove_nth {A : Type} (i : nat) (l : list A) : list A :=
  match l, i with
  | [], _ => []
  | _ :: rest, O => rest
  | x :: rest, S j => x :: remove_nth j rest
  end.

(** [None]: the event cannot happen in this state. *)
Definition step (w : world) (e : event) : option world :=
  match e with
  | ClickRun f =>
      if btn_disabled (view w) then None
      else
        match runSimulation_send f (view w) with
        | (p, Some req) =>
            Some {| view := p; in_flight := in_flight w ++ [(Simulation, req)] |}
        | (p, None) => Some {| view := p; in_flight := in_flight w |}
        end
  | ClickCompare f =>
      match compareScenarios_send f (view w) with
      | (p, Some req) =>
          Some {| view := p; in_flight := in_flight w ++ [(Comparison, req)] |}
      | (p, None) => Some {| view := p; in_flight := in_flight w |}
      end
  | SettleSimulation i o =>
      match nth_error (in_flight w) i with
      | Some (Simulation, _) =>
          Some {| view := fst (runSimulation_settle o (view w));
                  in_flight := remove_nth i (in_flight w) |}
      | _ => None
      end
  | SettleComparison i o =>
      match nth_error (in_flight w) i with
      | Some (Comparison, _) =>
          Some {| view := fst (compareScenarios_settle o (view w));
                  in_flight := remove_nth i (in_flight w) |}
      | _ => None
      end
  end.

Fixpoint run (w : world) (es : list event) : option world :=
  match es with
  | [] => Some w
  | e :: rest =>
      match step w e with
      | Some w' => run w' rest
      | None => None
      end
  end.

Definition initial_world (b : browser) : world :=
  {| view := initial_page b; in_flight := [] |}.

Definition count_in_flight (op : operation) (w : world) : nat :=
  List.length (filter (fun r => match fst r, op with
                                | Simulation, Simulation => true
                                | Comparison, Comparison => true
                                | _, _ => false
                                end) (in_flight w)).

End Script.

(** ** A parser for the inputs of the worked examples

    On a string that consists of a few decimal digits [parseInt] and
    [parseFloat] both return the number the digits denote; [parse_digits]
    computes that number and is NaN where no digit leads the string. *)

Definition digit (c : ascii) : option float :=
  let n := nat_of_ascii c in
  if (48 <=? n)%nat && (n <=? 57)%nat then Some (JS.counter (n - 48)) else None.

Fixpoint digits_from (s : string) (acc : float) : float :=
  match s with
  | EmptyString => acc
  | String c rest =>
      match digit c with
      | Some d => digits_from rest (acc * 10 + d)
      | None => acc
      end
  end.

Definition parse_digits (s : string) : float :=
  match s with
  | EmptyString => nan
  | String c rest =>
      match digit c with
      | Some d => digits_from rest d
      | None => nan
      end
  end.

(** ** The rule table of the recommendation engine

    Following the specification's table: six rules, each with its own
    condition, listed in evaluation order. *)

Record rule : Type := {
  condition : payload -> bool;
  advice : payload -> Recommendation
}.

Definition rule_table : list rule :=
  [ {| condition := fun d => 100 <? JS.to_number (avg_max_queue d);
       advice := fun d => very_high_queue (JS.to_number (avg_max_queue d)) |};
    {| condition := fun d => (60 <? JS.to_number (avg_max_queue d))
                             && (JS.to_number (avg_max_queue d) <=? 100);
       advice := fun d => moderate_congestion (JS.to_number (avg_max_queue d)) |};
    {| condition := fun d => JS.to_number (avg_service_rate d) <? 0.7;
       advice := fun d => low_service_rate (JS.to_number (avg_service_rate d)) |};
    {| condition := fun d => 10 <? JS.to_number (avg_waiting_time d);
       advice := fun d => high_waiting_time (JS.to_number (avg_waiting_time d)) |};
    {| condition := fun d => 2 <? JS.to_number (avg_accidents_per_hour d);
       advice := fun d => high_accident_frequency (JS.to_number (avg_accidents_per_hour d)) |};
    {| condition := fun d => 0.2 <? JS.to_number (prob_severe_jam d);
       advice := fun d => high_severe_jam_probability (JS.to_number (prob_severe_jam d)) |} ].

(** Every rule is looked at; the ones whose condition holds give their
    advice, in table order. *)
Definition recommendations_by_rule (d : payload) : list Recommendation :=
  map (fun r => advice r d) (filter (fun r => condition r d) rule_table).

(** The title a rendered recommendation shows in its [<strong>] element. *)
Definition node_title (n : node) : option string :=
  match n with
  | Div _ (_ :: Lit t :: _) => Some t
  | _ => None
  end.

(** What [generateRecommendations] leaves in the container. *)
Definition rendered (d : payload) (p : page) : list node :=
  recommendationsList (fst (generateRecommendations d p)).

(** ** Reading a comparison table back

    The rows of the table body are the token runs between a [<tr>] literal
    and the next [</tr>] literal; the head row is written with other
    literals and is not among them. *)

Definition is_lit (s : string) (f : frag) : bool :=
  match f with
  | Lit s' => String.eqb s s'
  | _ => false
  end.

Fixpoint rows_from (html : tokens) (row : option tokens) : list tokens :=
  match html with
  | [] => []
  | f :: rest =>
      if is_lit "<tr>" f then rows_from rest (Some [])
      else if is_lit "</tr>" f then
        match row with
        | Some r => r :: rows_from rest None
        | None => rows_from rest None
        end
      else rows_from rest (option_map (fun r => r ++ [f]) row)
  end.

Definition table_rows (html : tokens) : list tokens := rows_from html None.

(** The scenario a row is about: the string written in its first cell. *)
Definition row_scenario (row : tokens) : option string :=
  match row with
  | _ :: Str s :: _ => Some s
  | _ => None
  end.


(** ** Renders and view slots *)

Inductive slot : Type := HistogramSlot | TimeSeriesSlot | ComparisonSlot.

Definition slot_canvas (s : slot) : string :=
  match s with
  | HistogramSlot => "histogramChart"
  | TimeSeriesSlot => "timeSeriesChart"
  | ComparisonSlot => "comparisonChart"
  end.

Definition slot_handle (s : slot) (p : page) : option nat :=
  match s with
  | HistogramSlot => histogramChart p
  | TimeSeriesSlot => timeSeriesChart p
  | ComparisonSlot => comparisonChart p
  end.

(** A call of one of the rendering functions; an argument [None] is a call
    with [undefined]. *)
Inductive render : Type :=
| CallCreateHistogram (data : option (list float))
| CallCreateTimeSeries (data : option (list float))
| CallDisplayComparison (data : mapping)
| CallDisplayResults (data : payload).

(** The page after the call, whether it returned or threw. *)
Definition perform (p : page) (r : render) : page :=
  match r with
  | CallCreateHistogram data => fst (createHistogram data p)
  | CallCreateTimeSeries data => fst (createTimeSeries data p)
  | CallDisplayComparison data => fst (displayComparison data p)
  | CallDisplayResults data => fst (displayResults data p)
  end.


(** A slot is in order when its handle, if set, refers to an instance on
    the slot's canvas, and no other instance on that canvas is live. *)
Definition slot_ok (cv : string) (handle : option nat) (l : list chart) : Prop :=
  (forall id, handle = Some id ->
     exists c, nth_error l id = Some c /\ canvas c = cv)
  /\ (forall i c, nth_error l i = Some c -> canvas c = cv ->
        destroyed c = false -> handle = Some i).

Definition charts_ok (p : page) : Prop :=
  forall s, slot_ok (slot_canvas s) (slot_handle s p) (charts p).

(** A statement keeps a property of the page, however it ends. *)
Definition preserves {A : Type} (P : page -> Prop) (c : M A) : Prop :=
  forall p, P p -> P (fst (c p)).

(** ** What a failed request may and may not have written *)

(** The request failed: the [try] block threw. *)
Definition failed (o : outcome payload) (p : page) : Prop :=
  snd ((data <- awaited o ;; displayResults data) p) = None.

(** The properties [runSimulation] writes outside [displayResults]. *)
Definition request_chrome (k : key) : bool :=
  key_eqb (Display "loading") k || key_eqb (InnerHTML "btnText") k.

(** Nothing of the rendered results differs between two pages. *)
Definition results_untouched (p p' : page) : Prop :=
  (forall k, request_chrome k = false -> props p' k = props p k)
  /\ recommendationsList p' = recommendationsList p
  /\ charts p' = charts p
  /\ histogramChart p' = histogramChart p
  /\ timeSeriesChart p' = timeSeriesChart p
  /\ comparisonChart p' = comparisonChart p.

(** ** Sample inputs *)

Definition complete_result : payload :=
  {| avg_max_queue := Some 42.5;
     avg_waiting_time := Some 3.25;
     avg_service_rate := Some 0.875;
     avg_accidents_per_hour := Some 1;
     traffic_level := Some "moderate";
     traffic_level_description := Some "Moderate traffic";
     prob_light_traffic := Some 0.5;
     prob_moderate_jam := Some 0.375;
     prob_severe_jam := Some 0.125;
     all_max_queues := Some [40; 45; 42.5];
     sample_queue_history := Some [0; 3; 7; 4] |}.

(** A body with the metrics of another run but without [all_max_queues]. *)
Definition incomplete_result : payload :=
  {| avg_max_queue := Some 77;
     avg_waiting_time := Some 6.5;
     avg_service_rate := Some 0.75;
     avg_accidents_per_hour := Some 1;
     traffic_level := Some "severe";
     traffic_level_description := Some "Severe traffic";
     prob_light_traffic := Some 0.25;
     prob_moderate_jam := Some 0.25;
     prob_severe_jam := Some 0.5;
     all_max_queues := None;
     sample_queue_history := Some [1; 2] |}.

Definition calm_result : payload :=
  {| avg_max_queue := Some 10;
     avg_waiting_time := Some 2;
     avg_service_rate := Some 0.95;
     avg_accidents_per_hour := Some 0;
     traffic_level := Some "light";
     traffic_level_description := Some "Light traffic";
     prob_light_traffic := Some 0.99;
     prob_moderate_jam := Some 0.01;
     prob_severe_jam := Some 0.01;
     all_max_queues := Some [9; 10; 11];
     sample_queue_history := Some [0; 1] |}.

(** A run whose average maximum queue is exactly 100. *)
Definition boundary_result : payload :=
  {| avg_max_queue := Some 100;
     avg_waiting_time := Some 12;
     avg_service_rate := Some 0.5;
     avg_accidents_per_hour := Some 0;
     traffic_level := Some "moderate";
     traffic_level_description := None;
     prob_light_traffic := Some 0.5;
     prob_moderate_jam := Some 0.5;
     prob_severe_jam := Some 0.125;
     all_max_queues := Some [100];
     sample_queue_history := Some [] |}.

Definition custom_form : form :=
  {| scenarioSelect := "custom";
     simCount := "1000";
     rushMin := "8";
     rushMax := "15";
     normalMin := "3";
     normalMax := "7";
     greenCapacity := "12";
     accidentProb := "5";
     rushDuration := "30" |}.

(** A browser that passes up to a thousand arguments and takes the
    percentages that are not negative, and one that passes two. *)
Definition a_browser : browser :=
  {| max_arguments := 1000; takes_percentage := fun y => 0 <=? y |}.

Definition a_small_browser : browser :=
  {| max_arguments := 2; takes_percentage := fun y => 0 <=? y |}.

(** The page and the world of events as loaded in [a_browser]. *)
Definition loaded_page : page := initial_page a_browser.

Definition loaded_world : world := initial_world a_browser.

(** The page after a series of events on the page as loaded, the form
    values read by [parse_digits]. *)
Definition page_after (es : list event) : page :=
  match run parse_digits parse_digits loaded_world es with
  | Some w => view w
  | None => loaded_page
  end.

(** A complete run has been shown. *)
Definition shown_page : page :=
  page_after [ClickRun custom_form; SettleSimulation 0 (Json complete_result)].

(** The button was clicked again and the second request is in flight. *)
Definition pending_page : page :=
  page_after [ClickRun custom_form; SettleSimulation 0 (Json complete_result);
              ClickRun custom_form].

(** The second request has settled with the incomplete body. *)
Definition failed_page : page :=
  page_after [ClickRun custom_form; SettleSimulation 0 (Json complete_result);
              ClickRun custom_form; SettleSimulation 0 (Json incomplete_result)].

Definition two_scenarios : mapping :=
  [("baseline", complete_result); ("optimized", calm_result)].

(** ** Auxiliary notions for the statements below *)



(** No instance on canvas [cv] is live. *)
Definition dead_on (cv : string) (l : list chart) : Prop :=
  forall i c, nth_error l i = Some c -> canvas c = cv -> destroyed c = true.

(** The list-level effect of one render of a slot: the instance the handle
    refers to is destroyed, then the new instance is attached. *)
Definition replaced (handle : option nat) (c : chart) (l : list chart) : list chart :=
  match handle with
  | Some id => destroy_at id l
  | None => l
  end ++ [c].

(** The same when the function threw before it constructed the instance. *)
Definition destroyed_only (handle : option nat) (l : list chart) : list chart :=
  match handle with
  | Some id => destroy_at id l
  | None => l
  end.

(** The part of the page the slots are about. *)
Definition chart_state (p : page)
    : list chart * option nat * option nat * option nat :=
  (charts p, histogramChart p, timeSeriesChart p, comparisonChart p).

(** One render of slot [s]: its instance is replaced, or only destroyed
    when the function threw before constructing; the other handles stay. *)
Definition renders_slot (s : slot) (p p' : page) : Prop :=
  ((exists c, canvas c = slot_canvas s
              /\ charts p' = replaced (slot_handle s p) c (charts p)
              /\ slot_handle s p' = Some (List.length (charts p)))
   \/ (charts p' = destroyed_only (slot_handle s p) (charts p)
       /\ slot_handle s p' = slot_handle s p))
  /\ forall s', s' <> s -> slot_handle s' p' = slot_handle s' p.

(** The instances the three rendering functions construct. *)
Definition histogram_chart (d : list float) : chart :=
  {| canvas := "histogramChart";
     chart_type := "bar";
     chart_labels := labels (create_bins d);
     datasets := [ {| ds_label := "Frequency";
                      ds_data := Counts (histogram (create_bins d));
                      ds_yAxisID := None |} ];
     chart_title := "Distribution of Maximum Queue Length";
     destroyed := false |}.

Definition time_series_chart (d : list float) : chart :=
  {| canvas := "timeSeriesChart";
     chart_type := "line";
     chart_labels := map (fun i => [NumStr (JS.counter i + 1)])
                         (seq 0 (List.length d));
     datasets := [ {| ds_label := "Queue Length";
                      ds_data := Values (map Some d);
                      ds_yAxisID := None |} ];
     chart_title := "Queue Evolution (Sample Simulation)";
     destroyed := false |}.

Definition comparison_chart (data : mapping) : chart :=
  {| canvas := "comparisonChart";
     chart_type := "bar";
     chart_labels := map (fun s => [Str s]) (map fst data);
     datasets := [ {| ds_label := "Avg Max Queue";
                      ds_data := Values (column data (map fst data) avg_max_queue);
                      ds_yAxisID := Some "y" |};
                   {| ds_label := "Avg Waiting Time";
                      ds_data := Values (column data (map fst data) avg_waiting_time);
                      ds_yAxisID := Some "y1" |} ];
     chart_title := "Scenario Comparison";
     destroyed := false |}.

(** No canvas of a view slot has had two instances attached at once. *)
Definition never_two_attached (p : page) : Prop :=
  forall s, (most_attached p (slot_canvas s) <= 1)%nat.

(** What is attached to a canvas now is within what [most_attached] has
    recorded for it. *)
Definition attached_recorded (p : page) : Prop :=
  forall cv, (List.length (live_on cv (charts p)) <= most_attached p cv)%nat.

(** The test [live_on] filters with. *)
Definition is_live_on (cv : string) (c : chart) : bool :=
  String.eqb (canvas c) cv && negb (destroyed c).

(** The button is disabled exactly while a simulation request is in
    flight. *)
Definition button_tracks_simulation (w : world) : Prop :=
  count_in_flight Simulation w = if btn_disabled (view w) then 1%nat else 0%nat.

(** ** Notions for the further properties *)

(** The five properties [displayResults] dereferences are all present,
    and [all_max_queues] has no more samples than browser [b] passes as
    arguments. *)
Definition renderable (b : browser) (d : payload) : bool :=
  match avg_max_queue d, avg_waiting_time d, traffic_level d,
        all_max_queues d, sample_queue_history d with
  | Some _, Some _, Some _, Some queues, Some _ =>
      (List.length queues <=? max_arguments b)%nat
  | _, _, _, _, _ => false
  end.

(** What lies outside the results view: the button, the alerts and the
    console, the loading indicator, and the comparison view. *)
Definition outside_results (p : page)
    : bool * list string * list string * option nat
      * tokens * tokens * tokens * tokens :=
  (btn_disabled p, alerts p, console p, comparisonChart p,
   props p (Display "loading"), props p (Display "comparisonResults"),
   props p (InnerHTML "comparisonTable"), props p (InnerHTML "btnText")).

(** What a single run has rendered: the two chart handles, the
    recommendation list and the texts of the results panel. *)
Definition results_content (p : page)
    : option nat * option nat * list node * list tokens :=
  (histogramChart p, timeSeriesChart p, recommendationsList p,
   map (props p)
     [Display "results";
      TextContent "avgQueue"; TextContent "avgWait"; TextContent "serviceRate";
      ClassName "trafficLevelCard"; TextContent "trafficLevel";
      TextContent "trafficDesc";
      Width "probLight"; TextContent "probLightVal";
      Width "probModerate"; TextContent "probModerateVal";
      Width "probSevere"; TextContent "probSevereVal"]).

(** What lies outside the comparison view: the button and its label, the
    alerts and the console, the loading indicator, and what a single run
    has rendered. *)
Definition outside_comparison (p : page)
    : bool * list string * list string * tokens * tokens
      * (option nat * option nat * list node * list tokens) :=
  (btn_disabled p, alerts p, console p,
   props p (Display "loading"), props p (InnerHTML "btnText"),
   results_content p).

(** What one call of [updateProbability] writes in browser [b]. *)
Definition probability_writes (b : browser) (barId valueId : string)
    (probability : option float) : list (key * tokens) :=
  let percentage := JS.to_number probability * 100 in
  (if width_taken b percentage
   then [(Width barId, [Fixed percentage 1; Lit "%"])] else [])
  ++ [(TextContent valueId, [Fixed percentage 1; Lit "%"])].

(** The element properties [displayResults] writes in browser [b], in the
    order of the writes: all of them when [avg_max_queue],
    [avg_waiting_time] and [traffic_level] are present, and otherwise those
    written before the first of the three that is missing is
    dereferenced. *)
Definition results_texts (b : browser) (d : payload) : list (key * tokens) :=
  (Display "results", [Lit "block"]) ::
  match avg_max_queue d with
  | None => []
  | Some q =>
      (TextContent "avgQueue", [Fixed q 1]) ::
      match avg_waiting_time d with
      | None => []
      | Some w =>
          (TextContent "avgWait", [Fixed w 2]) ::
          (TextContent "serviceRate",
             [Fixed (JS.to_number (avg_service_rate d) * 100) 1]) ::
          (ClassName "trafficLevelCard",
             [Lit "metric-card traffic-"; OptStr (traffic_level d)]) ::
          match traffic_level d with
          | None => []
          | Some level =>
              (TextContent "trafficLevel", [Upper level]) ::
              (TextContent "trafficDesc", [OptStr (traffic_level_description d)]) ::
              probability_writes b "probLight" "probLightVal" (prob_light_traffic d)
              ++ probability_writes b "probModerate" "probModerateVal"
                   (prob_moderate_jam d)
              ++ probability_writes b "probSevere" "probSevereVal"
                   (prob_severe_jam d)
          end
      end
  end.

Definition write_all (writes : list (key * tokens)) (p : page) : page :=
  fold_left (fun p kv => set_prop (fst kv) (snd kv) p) writes p.

(** What the three rendering functions do not touch. *)
Definition beside_charts (p : page)
    : (key -> tokens) * bool * list node * list string * list string * browser :=
  (props p, btn_disabled p, recommendationsList p, alerts p, console p, host p).

(** The statements of [displayResults] after the last call of
    [updateProbability]. *)
Definition charts_and_advice (d : payload) : M unit :=
  createHistogram (all_max_queues d) ;;
  createTimeSeries (sample_queue_history d) ;;
  generateRecommendations d.

(** The settled request gives [runSimulation] a body it can render in
    browser [b]. *)
Definition succeeds (b : browser) (o : outcome payload) : bool :=
  match o with
  | Json d => renderable b d
  | _ => false
  end.

(** An entry of a comparison response has the two metrics the table
    dereferences. *)
Definition tabulable (entry : string * payload) : bool :=
  match avg_max_queue (snd entry), avg_waiting_time (snd entry) with
  | Some _, Some _ => true
  | _, _ => false
  end.

(** The settled request gives [compareScenarios] a body it can tabulate. *)
Definition comparison_succeeds (o : outcome mapping) : bool :=
  match o with
  | Json data => forallb tabulable data
  | _ => false
  end.

(** The live instances of a slot are exactly one. *)
Definition one_live_chart (s : slot) (p : page) : Prop :=
  List.length (live_on (slot_canvas s) (charts p)) = 1%nat.

(** * The advanced features of the longer copy of the script *)

(** ** [loadScenario] *)

Definition scenarioDescriptions : list (string * string) :=
  [ ("baseline", "Current traffic light configuration with standard timing and capacity");
    ("optimized", "Enhanced green light timing with increased capacity for better flow");
    ("heavy_traffic", "Extended rush hour with significantly higher vehicle arrival rates");
    ("accident_prone", "High accident frequency scenario with longer incident durations");
    ("ideal_conditions", "Best case scenario with light traffic and minimal disruptions");
    ("weekend", "Typical weekend traffic patterns with reduced volume throughout");
    ("custom", "Custom parameters - adjust values to test your own scenario") ].

(** An own property of an object literal with string values. *)
Fixpoint own_property (o : list (string * string)) (name : string) : option string :=
  match o with
  | [] => None
  | (k, v) :: rest => if String.eqb k name then Some v else own_property rest name
  end.

(** ** The page with what the advanced features add to it *)

Inductive modal_class : Type :=
| HistoryModal       (* class history-modal *)
| NetworkResults.    (* class network-results *)

Definition modal_class_eqb (a b : modal_class) : bool :=
  match a, b with
  | HistoryModal, HistoryModal | NetworkResults, NetworkResults => true
  | _, _ => false
  end.

(** An element inserted before the end of [document.body]. *)
Record modal : Type := {
  modal_kind : modal_class;
  modal_html : tokens
}.

(** A response body as the export feature sees it. *)
Record response : Type := {
  result : payload;
  scenario_name : option string
}.

Record document : Type := {
  dashboard : page;
  body_end : list modal;             (* in document order *)
  exportButtons : list tokens;       (* elements with id exportButtons, by innerHTML *)
  currentResult : option response;   (* null until a result is displayed *)
  currentScenarioName : option string;
  downloads : list tokens            (* download names of the anchors clicked *)
}.

Definition set_dashboard (p : page) (a : document) : document :=
  {| dashboard := p; body_end := body_end a; exportButtons := exportButtons a;
     currentResult := currentResult a;
     currentScenarioName := currentScenarioName a; downloads := downloads a |}.

Definition set_body_end (l : list modal) (a : document) : document :=
  {| dashboard := dashboard a; body_end := l; exportButtons := exportButtons a;
     currentResult := currentResult a;
     currentScenarioName := currentScenarioName a; downloads := downloads a |}.

Definition set_exportButtons (l : list tokens) (a : document) : document :=
  {| dashboard := dashboard a; body_end := body_end a; exportButtons := l;
     currentResult := currentResult a;
     currentScenarioName := currentScenarioName a; downloads := downloads a |}.

Definition set_current (r : option response) (n : option string) (a : document) : document :=
  {| dashboard := dashboard a; body_end := body_end a;
     exportButtons := exportButtons a;
     currentResult := r; currentScenarioName := n; downloads := downloads a |}.

Definition add_download (name : tokens) (a : document) : document :=
  {| dashboard := dashboard a; body_end := body_end a;
     exportButtons := exportButtons a;
     currentResult := currentResult a;
     currentScenarioName := currentScenarioName a;
     downloads := downloads a ++ [name] |}.

(** The longer copy as loaded: the page as loaded, nothing added. *)
Definition initial_document (b : browser) : document :=
  {| dashboard := initial_page b; body_end := []; exportButtons := [];
     currentResult := None; currentScenarioName := None; downloads := [] |}.

Definition loaded_document : document := initial_document a_browser.

(** Statements of the advanced features. *)
Definition D (A : Type) : Type := document -> document * option A.

Definition dret {A : Type} (x : A) : D A := fun a => (a, Some x).

Definition dthrow {A : Type} : D A := fun a => (a, None).

Definition dbind {A B : Type} (c : D A) (k : A -> D B) : D B :=
  fun a =>
    match c a with
    | (a', Some x) => k x a'
    | (a', None) => (a', None)
    end.

Definition dmodify (f : document -> document) : D unit := fun a => (f a, Some tt).

(** A statement on the page, run on the page of the application. *)
Definition on_page {A : Type} (c : M A) : D A :=
  fun a => let (p, r) := c (dashboard a) in (set_dashboard p a, r).

Definition ddefined {A : Type} (v : option A) : D A :=
  match v with
  | Some x => dret x
  | None => dthrow
  end.

Definition dawaited {A : Type} (o : outcome A) : D A :=
  match o with
  | Json data => dret data
  | _ => dthrow
  end.

Notation "x <~ c ;; k" := (dbind c (fun x => k))
  (at level 61, c at next level, right associativity).
Notation "c ;;; k" := (dbind c (fun _ => k))
  (at level 61, right associativity).

(** [try { body } catch (error) { handler }] *)
Definition try_catch (body handler : D unit) : D unit :=
  fun a =>
    match body a with
    | (a', Some _) => (a', Some tt)
    | (a', None) => handler a'
    end.

(** [try { body } catch (error) { handler } finally { finalizer }] *)
Definition dtry_catch_finally (body handler finalizer : D unit) : D unit :=
  fun a =>
    let (a1, r1) := try_catch body handler a in
    let (a2, r2) := finalizer a1 in
    (a2, match r2 with Some _ => r1 | None => None end).

(** [alert(msg)] after [console.error(label, error)] *)
Definition report (label msg : string) : D unit :=
  on_page (modify (add_console label)) ;;;
  on_page (modify (add_alert msg)).

(** [a || b] on a string that may be undefined: the empty string is falsy. *)
Definition or_else (a : option string) (b : string) : string :=
  match a with
  | Some s => if String.eqb s "" then b else s
  | None => b
  end.

(** ** The replaced [displayResults] *)

Definition export_buttons_html : tokens :=
  [Lit ("
            <button class=" ++ dquote ++ "btn btn-secondary" ++ dquote ++ " onclick=" ++ dquote ++ "exportToExcel(currentResult, currentScenarioName)" ++ dquote ++ ">
                📊 Export to Excel
            </button>
            <button class=" ++ dquote ++ "btn btn-secondary" ++ dquote ++ " onclick=" ++ dquote ++ "exportToPDF(currentResult, currentScenarioName)" ++ dquote ++ ">
                📄 Export to PDF
            </button>
        ")].

(** [displayResults = function(data) { ... }]: the function every caller
    reaches once the longer copy has loaded. *)
Definition displayResults_with_export (data : response) : D unit :=
  dmodify (set_current (Some data)
             (Some (or_else (scenario_name data) "simulation"))) ;;;
  on_page (displayResults (result data)) ;;;
  existing <~ (fun a => (a, Some (exportButtons a))) ;;
  match existing with
  | [] => dmodify (set_exportButtons [export_buttons_html])
  | _ => dret tt
  end.

(** ** [exportToExcel] and [exportToPDF]

    [o] is how [fetch] and [response.blob()] settle, [now] the value of
    [Date.now()] when the anchor is made. *)

Definition exportToExcel (scenarioName : option string) (o : outcome unit)
    (now : float) : D unit :=
  try_catch
    (_ <~ dawaited o ;;
     dmodify (add_download [OptStr scenarioName; Lit "_"; NumStr now; Lit ".xlsx"]) ;;;
     on_page (modify (add_alert "Excel file downloaded successfully!")))
    (report "Export error:" "Export failed. Please try again.").

Definition exportToPDF (scenarioName : option string) (o : outcome unit)
    (now : float) : D unit :=
  try_catch
    (_ <~ dawaited o ;;
     dmodify (add_download
                [OptStr scenarioName; Lit "_report_"; NumStr now; Lit ".pdf"]) ;;;
     on_page (modify (add_alert "PDF report downloaded successfully!")))
    (report "Export error:" "Export failed. Please try again.").

(** ** [viewHistory] and [closeHistory] *)

Record history_record : Type := {
  timestamp : option string;
  record_scenario_name : option string;
  record_avg_max_queue : option float;
  record_avg_service_rate : option float
}.

(** [document.body.insertAdjacentHTML('beforeend', html)] *)
Definition insert_modal (kind : modal_class) (html : tokens) : D unit :=
  dmodify (fun a => set_body_end
                      (body_end a ++ [{| modal_kind := kind; modal_html := html |}]) a).

(** [document.querySelector(selector)] then [modal.remove()]: the first
    element of the class in document order goes. *)
Fixpoint remove_first (kind : modal_class) (l : list modal) : list modal :=
  match l with
  | [] => []
  | m :: rest =>
      if modal_class_eqb (modal_kind m) kind then rest
      else m :: remove_first kind rest
  end.

Definition closeHistory : D unit :=
  dmodify (fun a => set_body_end (remove_first HistoryModal (body_end a)) a).

Definition closeNetworkResults : D unit :=
  dmodify (fun a => set_body_end (remove_first NetworkResults (body_end a)) a).

Definition history_head : tokens :=
  [Lit ("<div class=" ++ dquote ++ "history-modal" ++ dquote ++ "><h3>Recent Simulations</h3><table>");
   Lit "<tr><th>Time</th><th>Scenario</th><th>Avg Queue</th><th>Service Rate</th></tr>"].

Definition history_tail : tokens :=
  [Lit ("</table><button onclick=" ++ dquote ++ "closeHistory()" ++ dquote ++ ">Close</button></div>")].

Section Runtime.

(** What the runtime brings: the members of [Object.prototype], each by
    the string it converts to, and [new Date(t).toLocaleString()]. *)
Variable Object_prototype : string -> option string.
Variable toLocaleString : option string -> string.

Definition loadScenario (f : form) : M unit :=
  let scenario := scenarioSelect f in
  modify (set_prop (TextContent "descText")
            match own_property scenarioDescriptions scenario with
            | Some description =>
                if String.eqb description "" then [Lit "Select a scenario"]
                else [Lit description]
            | None =>
                match Object_prototype scenario with
                | Some member => [Str member]
                | None => [Lit "Select a scenario"]
                end
            end) ;;
  if String.eqb scenario "custom" then
    modify (set_prop (Display "customParams") [Lit "block"])
  else
    modify (set_prop (Display "customParams") [Lit "none"]).

(** One round of [history.forEach]; [None] once [toFixed] was called on a
    missing [avg_max_queue]. *)
Definition history_row (html : option tokens) (record : history_record)
    : option tokens :=
  match html, record_avg_max_queue record with
  | Some html, Some q =>
      Some (html ++
            [Lit "<tr>
                <td>"; Str (toLocaleString (timestamp record));
             Lit "</td>
                <td>"; OptStr (record_scenario_name record);
             Lit "</td>
                <td>"; Fixed q 1;
             Lit "</td>
                <td>";
             Fixed (JS.to_number (record_avg_service_rate record) * 100) 1;
             Lit "%</td>
            </tr>"])
  | _, _ => None
  end.

Definition history_html (history : list history_record) : option tokens :=
  match fold_left history_row history (Some history_head) with
  | Some html => Some (html ++ history_tail)
  | None => None
  end.

(** The parsed body is [None] when it is no array ([history.forEach] is
    not a function then). *)
Definition viewHistory (o : outcome (option (list history_record))) : D unit :=
  try_catch
    (body <~ dawaited o ;;
     history <~ ddefined body ;;
     html <~ ddefined (history_html history) ;;
     insert_modal HistoryModal html)
    (report "History error:" "Failed to load history.").

End Runtime.

(** ** [simulateNetwork] and [displayNetworkResults] *)

Record network_summary : Type := {
  avg_total_max_queue : option float;
  avg_network_service_rate : option float
}.

Record network_response : Type := {
  intersections : option mapping;
  summary : option network_summary        (* data.network_summary *)
}.

Definition network_head : tokens :=
  [Lit ("<div class=" ++ dquote ++ "network-results" ++ dquote ++ "><h3>Network Simulation Results</h3>");
   Lit "<h4>Individual Intersections:</h4>"].

(** One round of the loop over [Object.entries(data.intersections)]. *)
Definition intersection_card (html : option tokens) (entry : string * payload)
    : option tokens :=
  let (intId, metrics) := entry in
  match html, avg_max_queue metrics, avg_waiting_time metrics with
  | Some html, Some q, Some w =>
      Some (html ++
            [Lit ("<div class=" ++ dquote ++ "intersection-card" ++ dquote ++ ">
            <strong>Intersection "); Str intId;
             Lit "</strong><br>
            Avg Max Queue: "; Fixed q 1;
             Lit " vehicles<br>
            Waiting Time: "; Fixed w 2;
             Lit " min<br>
            Service Rate: ";
             Fixed (JS.to_number (avg_service_rate metrics) * 100) 1;
             Lit "%
        </div>"])
  | _, _, _ => None
  end.

Definition network_html (data : network_response) : option tokens :=
  match intersections data with
  | None => None                              (* Object.entries(undefined) *)
  | Some entries =>
      match fold_left intersection_card entries (Some network_head), summary data with
      | Some html, Some s =>
          match avg_total_max_queue s with
          | Some total =>
              Some (html
                    ++ [Lit "<h4>Network Summary:</h4>"]
                    ++ [Lit "<p>Total Avg Max Queue: "; Fixed total 1; Lit "</p>"]
                    ++ [Lit "<p>Network Service Rate: ";
                        Fixed (JS.to_number (avg_network_service_rate s) * 100) 1;
                        Lit "%</p>"]
                    ++ [Lit ("<button onclick=" ++ dquote ++ "closeNetworkResults()" ++ dquote ++ ">Close</button></div>")])
          | None => None
          end
      | _, _ => None
      end
  end.

Definition displayNetworkResults (data : network_response) : D unit :=
  html <~ ddefined (network_html data) ;;
  insert_modal NetworkResults html.

(** [!answer] for what [prompt] returned: [null] on cancel. *)
Definition declined (answer : option string) : bool :=
  match answer with
  | Some s => String.eqb s ""
  | None => true
  end.

(** Up to the [await]: the request sent, if any. *)
Definition simulateNetwork_send (answer : option string) : D (option request) :=
  match answer with
  | Some networkType =>
      if String.eqb networkType "" then dret None
      else
        on_page (modify (set_prop (Display "loading") [Lit "block"])) ;;;
        dret (Some {| url := [Lit "/network/simulate/"; Str networkType];
                      body := SimulationsBody 100 |})
  | None => dret None
  end.

Definition simulateNetwork_settle (o : outcome network_response) : D unit :=
  dtry_catch_finally
    (data <~ dawaited o ;;
     displayNetworkResults data)
    (report "Error:" "Network simulation failed.")
    (on_page (modify (set_prop (Display "loading") [Lit "none"]))).

(** ** [simulateAdvancedPattern] *)

Record advanced_request : Type := {
  advanced_url : tokens;
  advanced_simulations : float;
  advanced_simulation_minutes : float
}.

Definition simulateAdvancedPattern_send (answer : option string)
    : D (option advanced_request) :=
  match answer with
  | Some scenarioType =>
      if String.eqb scenarioType "" then dret None
      else
        on_page (modify (set_prop (Display "loading") [Lit "block"])) ;;;
        dret (Some {| advanced_url := [Lit "/advanced/simulate/"; Str scenarioType];
                      advanced_simulations := 1000;
                      advanced_simulation_minutes := 240 |})
  | None => dret None
  end.

Definition simulateAdvancedPattern_settle (o : outcome response) : D unit :=
  dtry_catch_finally
    (data <~ dawaited o ;;
     displayResults_with_export data)
    (report "Error:" "Advanced simulation failed.")
    (on_page (modify (set_prop (Display "loading") [Lit "none"]))).

(** [runSimulation] in the longer copy: the same function, reaching the
    replaced [displayResults]. *)
Definition runSimulation_settle_with_export (o : outcome response) : D unit :=
  dtry_catch_finally
    (data <~ dawaited o ;;
     displayResults_with_export data)
    (report "Error:" "Simulation failed. Please try again.")
    (on_page (modify (set_prop (Display "loading") [Lit "none"])) ;;;
     on_page (modify (set_btn_disabled false)) ;;;
     on_page (modify (set_prop (InnerHTML "btnText") [Lit "▶ Run Simulation"]))).

(** ** What the user and the network do to the longer copy *)

Definition count_kind (kind : modal_class) (l : list modal) : nat :=
  List.length (filter (fun m => modal_class_eqb (modal_kind m) kind) l).

Definition of_kind (kind : modal_class) (l : list modal) : list modal :=
  filter (fun m => modal_class_eqb (modal_kind m) kind) l.





Definition export_succeeds (o : outcome unit) : bool :=
  match o with
  | Json _ => true
  | _ => false
  end.

Definition response_succeeds (b : browser) (o : outcome response) : bool :=
  match o with
  | Json data => renderable b (result data)
  | _ => false
  end.

(** A download name that starts with a scenario name that is not empty. *)
Definition well_named (name : tokens) : Prop :=
  exists s rest, name = OptStr (Some s) :: rest /\ s <> "".

Section Actions.

Variable toLocaleString : option string -> string.

(** One thing that happens to the page: a click on a control the features
    add, an answer to a prompt, or a request that settles.  The export
    buttons call the export functions with the two globals as they are at
    the click, and can be clicked only once they exist. *)
Inductive action : Type :=
| SimulationSettles (o : outcome response)
| AdvancedAnswered (answer : option string)
| AdvancedSettles (o : outcome response)
| NetworkAnswered (answer : option string)
| NetworkSettles (o : outcome network_response)
| NetworkClosed
| HistorySettles (o : outcome (option (list history_record)))
| HistoryClosed
| ExcelExported (o : outcome unit) (now : float)
| PDFExported (o : outcome unit) (now : float).

Definition act (a : document) (x : action) : document :=
  match x with
  | SimulationSettles o => fst (runSimulation_settle_with_export o a)
  | AdvancedAnswered answer => fst (simulateAdvancedPattern_send answer a)
  | AdvancedSettles o => fst (simulateAdvancedPattern_settle o a)
  | NetworkAnswered answer => fst (simulateNetwork_send answer a)
  | NetworkSettles o => fst (simulateNetwork_settle o a)
  | NetworkClosed => fst (closeNetworkResults a)
  | HistorySettles o => fst (viewHistory toLocaleString o a)
  | HistoryClosed => fst (closeHistory a)
  | ExcelExported o now =>
      match exportButtons a with
      | [] => a
      | _ => fst (exportToExcel (currentScenarioName a) o now a)
      end
  | PDFExported o now =>
      match exportButtons a with
      | [] => a
      | _ => fst (exportToPDF (currentScenarioName a) o now a)
      end
  end.

(** The export globals hold a name that is not empty once the buttons
    exist, and every file downloaded so far is well named. *)
Definition export_ready (a : document) : Prop :=
  (exportButtons a = []
   \/ exists s, currentScenarioName a = Some s /\ s <> "")
  /\ (List.length (exportButtons a) <= 1)%nat
  /\ Forall well_named (downloads a).

End Actions.

(** A statement of the advanced features keeps a property, however it
    ends. *)
Definition dpreserves {A : Type} (P : document -> Prop) (c : D A) : Prop :=
  forall a, P a -> P (fst (c a)).

(** The part of the application the page itself never changes. *)
Definition beside_page (a : document)
    : list modal * list tokens * option response * option string * list tokens :=
  (body_end a, exportButtons a, currentResult a, currentScenarioName a, downloads a).



(** The event is a request that settles. *)
Definition is_settle (e : event) : bool :=
  match e with
  | SettleSimulation _ _ | SettleComparison _ _ => true
  | _ => false
  end.

(** Two comparison requests are in flight on the page as loaded. *)
Definition two_comparisons_pending : world :=
  match run parse_digits parse_digits loaded_world
          [ClickCompare custom_form; ClickCompare custom_form] with
  | Some w => w
  | None => loaded_world
  end.

(** * Properties *)

(** ** Comparisons of binary64 values *)

Lemma compare_cont_Eq (p q : positive) :
  PosDef.Pos.compare_cont Eq p q = Pos.compare p q.
Proof. reflexivity. Qed.

Ltac compare_cases :=
  repeat match goal with
         | |- context [(?a ?= ?b)%Z] => destruct (Z.compare_spec a b)
         | |- context [PosDef.Pos.compare_cont Eq ?a ?b] =>
             rewrite (compare_cont_Eq a b); destruct (Pos.compare_spec a b)
         | |- _ => progress cbn [CompOpp]
         end;
  try discriminate; try reflexivity; try lia.

Lemma SFcompare_antisym (x y : spec_float) :
  SFcompare y x = option_map CompOpp (SFcompare x y).
Proof.
  destruct x as [sx|sx| |sx mx ex], y as [sy|sy| |sy my ey]; cbn [SFcompare option_map];
    try reflexivity; try (destruct sx; reflexivity); try (destruct sy; reflexivity);
    try (destruct sx, sy; reflexivity).
  rewrite !compare_cont_Eq, (Z.compare_antisym ex ey), (Pos.compare_antisym mx my).
  destruct sx, sy; cbn [CompOpp]; try reflexivity;
    destruct (ex ?= ey)%Z; cbn [CompOpp]; try reflexivity;
    destruct (mx ?= my)%positive; reflexivity.
Qed.


(** [a < b] and [b <= a] never hold together. *)
Lemma ltb_leb_false (a b : float) : (a <? b) = true -> (b <=? a) = false.
Proof.
  rewrite ltb_spec, leb_spec. unfold SFltb, SFleb.
  rewrite (SFcompare_antisym (Prim2SF a) (Prim2SF b)).
  destruct (SFcompare (Prim2SF a) (Prim2SF b)) as [[ | | ]|]; simpl; congruence.
Qed.

Lemma leb_ltb_false (a b : float) : (a <=? b) = true -> (b <? a) = false.
Proof.
  intros H. destruct (b <? a) eqn:E; [|reflexivity].
  apply ltb_leb_false in E. congruence.
Qed.


(** When [c < x] holds for some [c], [x] is a number, and then [x <= b] is
    the negation of [b < x] for every number [b]. *)
Lemma not_gt_is_le (c b x : float) :
  (c <? x) = true -> (b =? b) = true -> negb (b <? x) = (x <=? b).
Proof.
  rewrite !ltb_spec, leb_spec, FloatAxioms.eqb_spec.
  unfold SFltb, SFleb, SFeqb.
  rewrite (SFcompare_antisym (Prim2SF b) (Prim2SF x)).
  destruct (Prim2SF c) as [sc|sc| |sc mc ec], (Prim2SF x) as [sx|sx| |sx mx ex];
    cbn [SFcompare]; try discriminate;
    destruct (Prim2SF b) as [sb|sb| |sb mb eb]; cbn [SFcompare option_map];
    try discriminate; intros _ _;
    try destruct sx; try destruct sb; cbn [CompOpp negb]; try reflexivity;
    compare_cases.
Qed.

(** ** The binning loop *)

Lemma array_set_length {A : Type} (i : nat) (v : A) (a : list A) :
  List.length (array_set i v a) = List.length a.
Proof.
  revert i. induction a as [|x a IH]; intros [|i]; simpl; auto.
Qed.

Lemma binning_keeps_length (data : list float) (min w : float) (idx : list nat)
    (st : binning_state) :
  List.length (histogram (fold_left (binning_body data min w) idx st))
  = List.length (histogram st).
Proof.
  revert st. induction idx as [|i idx IH]; intros st; simpl; [reflexivity|].
  rewrite IH. simpl. apply array_set_length.
Qed.

(** The chart always gets [bins] counts. *)
Lemma create_bins_length (data : list float) :
  List.length (histogram (create_bins data)) = bins.
Proof.
  unfold create_bins, binning. rewrite binning_keeps_length. simpl. reflexivity.
Qed.

(** A bin whose two ends coincide holds no sample. *)
Lemma bin_count_empty_interval (data : list float) (b : float) :
  bin_count data b b = 0%nat.
Proof.
  unfold bin_count. induction data as [|x data IH]; simpl; [reflexivity|].
  destruct (b <=? x) eqn:E; simpl; [|exact IH].
  rewrite (leb_ltb_false _ _ E). exact IH.
Qed.

Lemma Math_min_equal_samples (n : nat) : JS.Math_min (repeat 5 (S n)) = 5.
Proof.
  unfold JS.Math_min. cbn [repeat fold_left].
  change (JS.min_step infinity 5) with 5.
  induction n as [|n IH]; [reflexivity|].
  cbn [repeat fold_left]. change (JS.min_step 5 5) with 5. exact IH.
Qed.

Lemma Math_max_equal_samples (n : nat) : JS.Math_max (repeat 5 (S n)) = 5.
Proof.
  unfold JS.Math_max. cbn [repeat fold_left].
  change (JS.max_step neg_infinity 5) with 5.
  induction n as [|n IH]; [reflexivity|].
  cbn [repeat fold_left]. change (JS.max_step 5 5) with 5. exact IH.
Qed.

(** However many samples of value 5 there are, no bin counts any. *)
Lemma equal_samples_fill_no_bin (n : nat) :
  histogram (create_bins (repeat 5 (S n))) = repeat 0%nat bins.
Proof.
  unfold create_bins, binning.
  rewrite Math_min_equal_samples, Math_max_equal_samples.
  generalize (repeat 5 (S n)). intros data.
  cbv -[bin_count]. rewrite !bin_count_empty_interval. reflexivity.
Qed.

(** C1: the code at a two-sample input.  With samples 0 and 20 the bins
    are [i, i+1) for i = 0..19; the sample 20, the maximum, lies in none of
    them, and the twenty counts add up to 1 while there are 2 samples. *)
Theorem C1_maximum_sample_is_counted_nowhere :
  histogram (create_bins [0; 20]) = 1%nat :: repeat 0%nat 19
  /\ sum_counts (histogram (create_bins [0; 20])) = 1%nat
  /\ List.length [0; 20] = 2%nat.
Proof. vm_compute. repeat split. Qed.

(** C2: the code at inputs of equal samples.  The divisor of the bin
    width is the constant 20, so nothing is divided by zero; but for any
    number of samples of value 5 the bin width is 0, every bin is the empty
    interval [5, 5), and all twenty counts, the one of bin 0 included, are
    0 and add up to 0. *)
Theorem C2_equal_samples_are_counted_nowhere (n : nat) :
  histogram (create_bins (repeat 5 (S n))) = repeat 0%nat 20
  /\ nth 0 (histogram (create_bins (repeat 5 (S n)))) 0%nat = 0%nat
  /\ sum_counts (histogram (create_bins (repeat 5 (S n)))) = 0%nat
  /\ List.length (repeat 5 (S n)) = S n.
Proof.
  rewrite equal_samples_fill_no_bin, repeat_length. repeat split.
Qed.

(** ** The recommendation engine *)

(** The [else if] of the queue rule tests the condition of the table. *)
Lemma moderate_branch (q : float) :
  (if 100 <? q then false else 60 <? q) = (60 <? q) && (q <=? 100).
Proof.
  destruct (100 <? q) eqn:H100.
  - rewrite (ltb_leb_false _ _ H100). apply eq_sym, andb_false_r.
  - destruct (60 <? q) eqn:H60; [|reflexivity].
    rewrite <- (not_gt_is_le 60 100 q H60 eq_refl), H100. reflexivity.
Qed.

Lemma recommendations_follow_table (d : payload) :
  recommendations d = recommendations_by_rule d.
Proof.
  unfold recommendations, recommendations_by_rule.
  cbn [rule_table filter map condition advice].
  rewrite <- (moderate_branch (JS.to_number (avg_max_queue d))).
  destruct (100 <? JS.to_number (avg_max_queue d));
    destruct (60 <? JS.to_number (avg_max_queue d));
    destruct (JS.to_number (avg_service_rate d) <? 0.7);
    destruct (10 <? JS.to_number (avg_waiting_time d));
    destruct (2 <? JS.to_number (avg_accidents_per_hour d));
    destruct (0.2 <? JS.to_number (prob_severe_jam d));
    reflexivity.
Qed.

Lemma fold_appendChild (l : list Recommendation) (p : page) :
  recommendationsList
    (fold_left (fun p rec => appendChild (recommendation_div rec) p) l p)
  = recommendationsList p ++ map recommendation_div l.
Proof.
  revert p. induction l as [|r l IH]; intros p; simpl.
  - now rewrite app_nil_r.
  - rewrite IH. simpl. now rewrite <- app_assoc.
Qed.

(** The container ends up with the all-clear paragraph or with one [div]
    per recommendation, in the order of the array. *)
Lemma rendered_recommendations (d : payload) (p : page) :
  rendered d p =
  match recommendations d with
  | [] => [RawHtml all_clear]
  | l => map recommendation_div l
  end.
Proof.
  unfold rendered, generateRecommendations, bind, modify.
  destruct (recommendations d) as [|r l] eqn:E; [reflexivity|].
  cbn [fst]. rewrite fold_appendChild. reflexivity.
Qed.

Lemma no_rule_no_recommendation (d : payload) :
  forallb (fun r => negb (condition r d)) rule_table = true ->
  recommendations d = [].
Proof.
  intros H. rewrite recommendations_follow_table.
  unfold recommendations_by_rule.
  induction rule_table as [|r t IH]; [reflexivity|].
  simpl in H. apply andb_prop in H. destruct H as [Hr Ht].
  simpl. destruct (condition r d); [discriminate|]. now apply IH.
Qed.

(** C4: when [avg_max_queue] is exactly 100 the moderate-congestion
    recommendation is produced and rendered, and no recommendation
    produced or rendered has the very-high-queue title. *)
Theorem C4_queue_of_exactly_100_is_moderate (d : payload) (p : page) :
  avg_max_queue d = Some 100 ->
  In (moderate_congestion 100) (recommendations d)
  /\ ~ In "🚨 Critical: Very High Queue Length" (map title (recommendations d))
  /\ In (Some "⚠️ Warning: Moderate Congestion") (map node_title (rendered d p))
  /\ ~ In (Some "🚨 Critical: Very High Queue Length") (map node_title (rendered d p)).
Proof.
  intros Hq. rewrite rendered_recommendations.
  unfold recommendations. rewrite Hq. cbn [JS.to_number].
  change (100 <? 100) with false. change (60 <? 100) with true. cbv iota.
  destruct (JS.to_number (avg_service_rate d) <? 0.7);
    destruct (10 <? JS.to_number (avg_waiting_time d));
    destruct (2 <? JS.to_number (avg_accidents_per_hour d));
    destruct (0.2 <? JS.to_number (prob_severe_jam d));
    cbn [app map In title node_title recommendation_div moderate_congestion
         low_service_rate high_waiting_time high_accident_frequency
         high_severe_jam_probability];
    (split; [left; reflexivity|]);
    (split; [intros H; repeat (destruct H as [H|H]; [discriminate H|]); exact H|]);
    (split; [left; reflexivity|]);
    intros H; repeat (destruct H as [H|H]; [discriminate H|]); exact H.
Qed.

Lemma C4_queue_of_exactly_100_is_moderate_witness :
  avg_max_queue boundary_result = Some 100
  /\ In (moderate_congestion 100) (recommendations boundary_result)
  /\ ~ In "🚨 Critical: Very High Queue Length"
          (map title (recommendations boundary_result)).
Proof.
  split; [reflexivity|].
  destruct (C4_queue_of_exactly_100_is_moderate boundary_result loaded_page eq_refl)
    as (Hin & Hout & _).
  split; [exact Hin|exact Hout].
Defined.

(** C5: the recommendations produced are exactly the advice of the rules
    of the table whose own condition holds, each rule decided by its own
    condition alone, in table order (queue length, service rate, waiting
    time, accident frequency, severe-jam probability); when there is at
    least one, the container shows one [div] per recommendation in that
    order. *)
Theorem C5_rules_fire_independently_in_table_order (d : payload) (p : page) :
  recommendations d
  = map (fun r => advice r d) (filter (fun r => condition r d) rule_table)
  /\ rendered d p =
     match filter (fun r => condition r d) rule_table with
     | [] => [RawHtml all_clear]
     | fired => map (fun r => recommendation_div (advice r d)) fired
     end.
Proof.
  split; [apply recommendations_follow_table|].
  rewrite rendered_recommendations, recommendations_follow_table.
  unfold recommendations_by_rule.
  destruct (filter (fun r => condition r d) rule_table) as [|r t]; [reflexivity|].
  cbn [map]. rewrite map_map. reflexivity.
Qed.

(** C6: when no rule of the table fires, the array of recommendations is
    empty and the container is not: it holds exactly one node, the
    paragraph that reads "No critical issues detected. Traffic flow is
    optimal." *)
Theorem C6_all_clear_when_no_rule_fires (d : payload) (p : page) :
  forallb (fun r => negb (condition r d)) rule_table = true ->
  recommendations d = []
  /\ rendered d p
     = [RawHtml
          [Lit ("<p style=" ++ dquote ++ "color: #4CAF50; font-weight: 600;"
                ++ dquote
                ++ ">✅ No critical issues detected. Traffic flow is optimal.</p>")]]
  /\ List.length (rendered d p) = 1%nat.
Proof.
  intros H. rewrite rendered_recommendations, (no_rule_no_recommendation d H).
  repeat split.
Qed.

Lemma C6_all_clear_when_no_rule_fires_witness :
  forallb (fun r => negb (condition r calm_result)) rule_table = true
  /\ List.length (rendered calm_result loaded_page) = 1%nat.
Proof.
  split; [reflexivity|].
  apply (C6_all_clear_when_no_rule_fires calm_result loaded_page). reflexivity.
Defined.


(** ** The rendering functions, statement by statement *)

Lemma destroy_at_length (id : nat) (l : list chart) :
  List.length (destroy_at id l) = List.length l.
Proof.
  revert id. induction l as [|c l IH]; intros [|id]; simpl; auto.
Qed.

Ltac run_statements :=
  cbv [createHistogram createTimeSeries displayComparison createComparisonTable
       spread_call bind modify get new_Chart attach destroy_existing destroy
       ret throw defined
       fst snd set_prop set_histogramChart set_timeSeriesChart
       set_comparisonChart set_charts set_most_attached
       props btn_disabled recommendationsList charts histogramChart
       timeSeriesChart comparisonChart alerts console host most_attached
       slot_handle slot_canvas replaced destroyed_only canvas].

Lemma set_width_percentage_run (id : string) (y : float) (p : page) :
  set_width_percentage id y p
  = (if width_taken (host p) y
     then set_prop (Width id) [Fixed y 1; Lit "%"] p else p, Some tt).
Proof.
  unfold set_width_percentage, bind, get, modify, ret.
  destruct (width_taken (host p) y); reflexivity.
Qed.

Lemma updateProbability_run (barId valueId : string) (v : option float) (p : page) :
  updateProbability barId valueId v p
  = (set_prop (TextContent valueId) [Fixed (JS.to_number v * 100) 1; Lit "%"]
       (if width_taken (host p) (JS.to_number v * 100)
        then set_prop (Width barId) [Fixed (JS.to_number v * 100) 1; Lit "%"] p
        else p), Some tt).
Proof.
  unfold updateProbability, bind. rewrite set_width_percentage_run. reflexivity.
Qed.

(** The three rendering functions, statement by statement. *)
Lemma createHistogram_run (data : option (list float)) (p : page) :
  createHistogram data p
  = let p1 := fst (destroy_existing (histogramChart p) p) in
    match data with
    | Some d =>
        if (List.length d <=? max_arguments (host p))%nat
        then (set_histogramChart (Some (List.length (charts p)))
                (attach (histogram_chart d) p1), Some tt)
        else (p1, None)
    | None => (p1, None)
    end.
Proof.
  destruct p as [pr bd rl ch hc tc cc al co hb ma].
  destruct data as [d|], hc as [id|]; run_statements;
    try (destruct (List.length d <=? max_arguments hb)%nat eqn:E;
         run_statements; rewrite ?E; run_statements);
    rewrite ?destroy_at_length; unfold histogram_chart, create_bins;
    reflexivity.
Qed.

Lemma createTimeSeries_run (data : option (list float)) (p : page) :
  createTimeSeries data p
  = let p1 := fst (destroy_existing (timeSeriesChart p) p) in
    match data with
    | Some d =>
        (set_timeSeriesChart (Some (List.length (charts p)))
           (attach (time_series_chart d) p1), Some tt)
    | None => (p1, None)
    end.
Proof.
  destruct p as [pr bd rl ch hc tc cc al co hb ma].
  destruct data as [d|], tc as [id|]; run_statements;
    rewrite ?destroy_at_length; unfold time_series_chart; reflexivity.
Qed.

Lemma displayComparison_run (data : mapping) (p : page) :
  displayComparison data p
  = let p1 := fst (destroy_existing (comparisonChart p)
                     (set_prop (Display "comparisonResults") [Lit "block"] p)) in
    let p2 := set_comparisonChart (Some (List.length (charts p)))
                (attach (comparison_chart data) p1) in
    match comparison_html data with
    | Some html => (set_prop (InnerHTML "comparisonTable") html p2, Some tt)
    | None => (p2, None)
    end.
Proof.
  destruct p as [pr bd rl ch hc tc cc al co hb ma].
  destruct (comparison_html data) as [html|] eqn:E, cc as [id|];
    run_statements; rewrite E; run_statements;
    rewrite ?destroy_at_length; unfold comparison_chart; reflexivity.
Qed.

(** ** The comparison table *)



Lemma table_row_after_throw (data : mapping) :
  fold_left table_row data None = None.
Proof.
  induction data as [|[s r] data IH]; [reflexivity|exact IH].
Qed.


Lemma table_row_fold_tabulable (data : mapping) (html : tokens) :
  (exists html', fold_left table_row data (Some html) = Some html')
  <-> forallb tabulable data = true.
Proof.
  revert html. induction data as [|[s r] data IH]; intros html.
  - split; [reflexivity|]. intros _. now exists html.
  - cbn [fold_left forallb]. unfold table_row at 2, tabulable at 1. cbn [snd].
    destruct (avg_max_queue r) as [q|], (avg_waiting_time r) as [w|];
      cbn [andb]; try apply IH;
      (split; [intros [html' H]; rewrite table_row_after_throw in H;
               discriminate H
              |discriminate]).
Qed.

(** The table function throws exactly when an entry lacks
    [avg_max_queue] or [avg_waiting_time]. *)
Lemma comparison_html_outcome (data : mapping) :
  match comparison_html data with
  | Some _ => forallb tabulable data = true
  | None => forallb tabulable data = false
  end.
Proof.
  unfold comparison_html.
  pose proof (table_row_fold_tabulable data table_head) as [Hsome Hall].
  destruct (fold_left table_row data (Some table_head)) as [html|].
  - apply Hsome. now exists html.
  - destruct (forallb tabulable data); [|reflexivity].
    destruct (Hall eq_refl) as [html' H]. discriminate H.
Qed.


(** ** Chart instances and view slots *)

Lemma nth_error_destroy_at_same (id : nat) (l : list chart) :
  nth_error (destroy_at id l) id = option_map mark_destroyed (nth_error l id).
Proof.
  revert id. induction l as [|c l IH]; intros [|id]; simpl; auto.
Qed.

Lemma nth_error_destroy_at_other (id i : nat) (l : list chart) :
  i <> id -> nth_error (destroy_at id l) i = nth_error l i.
Proof.
  revert id i. induction l as [|c l IH]; intros [|id] [|i] H; simpl; auto.
  congruence.
Qed.

(** What [destroy] changes of an instance is its [destroyed] flag. *)
Lemma nth_error_destroy_at (id i : nat) (l : list chart) (c : chart) :
  nth_error (destroy_at id l) i = Some c ->
  nth_error l i = Some c
  \/ (i = id /\ exists c0, nth_error l i = Some c0 /\ c = mark_destroyed c0).
Proof.
  destruct (Nat.eq_dec i id) as [->|Hne].
  - rewrite nth_error_destroy_at_same.
    destruct (nth_error l id) as [c0|]; [|discriminate].
    intros [= <-]. right. split; [reflexivity|]. now exists c0.
  - rewrite (nth_error_destroy_at_other _ _ _ Hne). now left.
Qed.

(** Destroying an instance, whichever, leaves every slot in order. *)
Lemma slot_ok_destroy_at (cv : string) (handle : option nat) (id : nat)
    (l : list chart) :
  slot_ok cv handle l -> slot_ok cv handle (destroy_at id l).
Proof.
  intros [Href Hlive]. split.
  - intros i Hi. destruct (Href i Hi) as (c & Hc & Hcv).
    destruct (Nat.eq_dec i id) as [->|Hne].
    + exists (mark_destroyed c). rewrite nth_error_destroy_at_same, Hc. now split.
    + exists c. rewrite (nth_error_destroy_at_other _ _ _ Hne). now split.
  - intros i c Hc Hcv Hd.
    destruct (nth_error_destroy_at _ _ _ _ Hc) as [Hsame|(_ & c0 & _ & Hc0)].
    + now apply (Hlive i c).
    + subst c. discriminate Hd.
Qed.

(** After [if (handle) handle.destroy()] no instance of the slot is live. *)
Lemma dead_after_destroy (cv : string) (id : nat) (l : list chart) :
  slot_ok cv (Some id) l -> dead_on cv (destroy_at id l).
Proof.
  intros [_ Hlive] i c Hc Hcv.
  destruct (nth_error_destroy_at _ _ _ _ Hc) as [Hsame|(_ & c0 & _ & Hc0)];
    [|subst c; reflexivity].
  destruct (destroyed c) eqn:Hd; [reflexivity|].
  pose proof (Hlive i c Hsame Hcv Hd) as [= ->].
  rewrite nth_error_destroy_at_same, Hsame in Hc. injection Hc as Hc.
  apply (f_equal destroyed) in Hc. simpl in Hc. congruence.
Qed.

Lemma dead_without_handle (cv : string) (l : list chart) :
  slot_ok cv None l -> dead_on cv l.
Proof.
  intros [_ Hlive] i c Hc Hcv.
  destruct (destroyed c) eqn:Hd; [reflexivity|].
  discriminate (Hlive i c Hc Hcv Hd).
Qed.

(** A new instance on a canvas where none is live, with the handle set to
    it, leaves the slot in order. *)
Lemma slot_ok_new_own (cv : string) (l : list chart) (c : chart) :
  dead_on cv l -> canvas c = cv ->
  slot_ok cv (Some (List.length l)) (l ++ [c]).
Proof.
  intros Hdead Hcv. split.
  - intros id [= <-]. exists c.
    rewrite nth_error_app2, Nat.sub_diag by lia. now split.
  - intros i c' Hc' Hcv' Hd.
    destruct (Nat.lt_ge_cases i (List.length l)) as [Hlt|Hge].
    + rewrite nth_error_app1 in Hc' by exact Hlt.
      rewrite (Hdead i c' Hc' Hcv') in Hd. discriminate Hd.
    + assert (Hi : i < List.length (l ++ [c]))
        by (apply nth_error_Some; congruence).
      rewrite length_app in Hi. simpl in Hi. f_equal. lia.
Qed.

(** A new instance on another canvas does not disturb a slot. *)
Lemma slot_ok_new_other (cv : string) (handle : option nat) (l : list chart)
    (c : chart) :
  slot_ok cv handle l -> canvas c <> cv -> slot_ok cv handle (l ++ [c]).
Proof.
  intros [Href Hlive] Hcv. split.
  - intros id Hid. destruct (Href id Hid) as (c0 & Hc0 & Hcv0).
    exists c0. split; [|exact Hcv0].
    rewrite nth_error_app1; [exact Hc0|]. apply nth_error_Some. congruence.
  - intros i c' Hc' Hcv' Hd.
    destruct (Nat.lt_ge_cases i (List.length l)) as [Hlt|Hge].
    + rewrite nth_error_app1 in Hc' by exact Hlt. now apply (Hlive i c').
    + rewrite nth_error_app2 in Hc' by exact Hge.
      destruct (i - List.length l)%nat as [|k]; simpl in Hc'.
      * injection Hc' as <-. contradiction.
      * destruct k; discriminate Hc'.
Qed.

Lemma destroyed_only_length (handle : option nat) (l : list chart) :
  List.length (destroyed_only handle l) = List.length l.
Proof. destruct handle; [apply destroy_at_length|reflexivity]. Qed.

Lemma slot_ok_destroyed_only (cv : string) (h h' : option nat) (l : list chart) :
  slot_ok cv h l -> slot_ok cv h (destroyed_only h' l).
Proof. destruct h'; [apply slot_ok_destroy_at|trivial]. Qed.

Lemma slot_ok_replaced_own (cv : string) (h : option nat) (c : chart)
    (l : list chart) :
  slot_ok cv h l -> canvas c = cv ->
  slot_ok cv (Some (List.length l)) (replaced h c l).
Proof.
  intros Hok Hcv. unfold replaced.
  rewrite <- (destroyed_only_length h l).
  apply slot_ok_new_own; [|exact Hcv].
  destruct h as [id|]; [now apply dead_after_destroy|now apply dead_without_handle].
Qed.

Lemma slot_ok_replaced_other (cv : string) (h h' : option nat) (c : chart)
    (l : list chart) :
  slot_ok cv h l -> canvas c <> cv -> slot_ok cv h (replaced h' c l).
Proof.
  intros Hok Hcv. apply slot_ok_new_other; [|exact Hcv].
  now apply (slot_ok_destroyed_only cv h h').
Qed.

(** *** Statements that keep the slots in order *)

Lemma preserves_bind {A B : Type} (P : page -> Prop) (c : M A) (k : A -> M B) :
  preserves P c -> (forall a, preserves P (k a)) -> preserves P (bind c k).
Proof.
  intros Hc Hk p Hp. unfold bind.
  specialize (Hc p Hp). destruct (c p) as [p' [a|]]; simpl in *.
  - now apply Hk.
  - exact Hc.
Qed.

Lemma preserves_defined {A : Type} (P : page -> Prop) (v : option A) :
  preserves P (defined v).
Proof. intros p Hp. destruct v; exact Hp. Qed.

Lemma preserves_get {A : Type} (P : page -> Prop) (f : page -> A) :
  preserves P (get f).
Proof. intros p Hp. exact Hp. Qed.

Lemma preserves_modify (P : page -> Prop) (f : page -> page) :
  (forall p, P p -> P (f p)) -> preserves P (modify f).
Proof. intros H p Hp. now apply H. Qed.

Lemma preserves_try_catch_finally (P : page -> Prop) (body handler finalizer : M unit) :
  preserves P body -> preserves P handler -> preserves P finalizer ->
  preserves P (try_catch_finally body handler finalizer).
Proof.
  intros Hb Hh Hf p Hp. unfold try_catch_finally.
  specialize (Hb p Hp). destruct (body p) as [p1 [[]|]]; simpl in Hb.
  - specialize (Hf p1 Hb). destruct (finalizer p1) as [p3 r3]. exact Hf.
  - specialize (Hh p1 Hb). destruct (handler p1) as [p2 r2]. simpl in Hh.
    specialize (Hf p2 Hh). destruct (finalizer p2) as [p3 r3]. exact Hf.
Qed.

Lemma charts_ok_chart_state (p p' : page) :
  chart_state p' = chart_state p -> charts_ok p -> charts_ok p'.
Proof.
  unfold chart_state. intros [= Hc Hh Ht Hm] Hok s.
  specialize (Hok s). rewrite Hc. destruct s; simpl in *; congruence.
Qed.

Lemma charts_ok_set_prop (k : key) (v : tokens) :
  preserves charts_ok (modify (set_prop k v)).
Proof.
  apply preserves_modify. intros p. now apply charts_ok_chart_state.
Qed.

Lemma charts_ok_initial {b : browser} : charts_ok (initial_page b).
Proof.
  intros s. split.
  - destruct s; discriminate.
  - intros [|i] c H; discriminate H.
Qed.

Lemma slot_canvas_inj (s s' : slot) : slot_canvas s = slot_canvas s' -> s = s'.
Proof. destruct s, s'; simpl; intros H; (reflexivity || discriminate H). Qed.

Lemma slot_eq_dec (s s' : slot) : {s = s'} + {s <> s'}.
Proof. decide equality. Qed.

Lemma charts_ok_renders_slot (s : slot) (p p' : page) :
  renders_slot s p p' -> charts_ok p -> charts_ok p'.
Proof.
  intros [[(c & Hcv & Hcharts & Hhandle)|[Hcharts Hhandle]] Hothers] Hok s';
    rewrite Hcharts; pose proof (Hok s') as Hs'; pose proof (Hok s) as Hs.
  - destruct (slot_eq_dec s' s) as [->|Hne].
    + rewrite Hhandle. now apply slot_ok_replaced_own.
    + rewrite (Hothers s' Hne). apply slot_ok_replaced_other; [exact Hs'|].
      rewrite Hcv. intros H. apply Hne. now apply slot_canvas_inj.
  - destruct (slot_eq_dec s' s) as [->|Hne].
    + rewrite Hhandle. now apply slot_ok_destroyed_only.
    + rewrite (Hothers s' Hne). now apply slot_ok_destroyed_only.
Qed.

Lemma createHistogram_renders (data : option (list float)) (p : page) :
  renders_slot HistogramSlot p (fst (createHistogram data p)).
Proof.
  rewrite createHistogram_run.
  destruct p as [pr bd rl ch hc tc cc al co hb ma].
  destruct data as [d|], hc as [id|]; unfold renders_slot; run_statements;
    try destruct (List.length d <=? max_arguments hb)%nat; run_statements;
    (split; [|intros [] H; (reflexivity || now contradiction H)]);
    try (right; split; reflexivity);
    left; eexists; (split; [|split; reflexivity]); reflexivity.
Qed.

Lemma createTimeSeries_renders (data : option (list float)) (p : page) :
  renders_slot TimeSeriesSlot p (fst (createTimeSeries data p)).
Proof.
  rewrite createTimeSeries_run.
  destruct p as [pr bd rl ch hc tc cc al co hb ma].
  destruct data as [d|], tc as [id|]; unfold renders_slot; run_statements;
    (split; [|intros [] H; (reflexivity || now contradiction H)]);
    try (right; split; reflexivity);
    left; eexists; (split; [|split; reflexivity]); reflexivity.
Qed.

Lemma displayComparison_renders (data : mapping) (p : page) :
  renders_slot ComparisonSlot p (fst (displayComparison data p)).
Proof.
  rewrite displayComparison_run.
  destruct p as [pr bd rl ch hc tc cc al co hb ma].
  destruct (comparison_html data) as [html|], cc as [id|];
    unfold renders_slot; run_statements;
    (split; [|intros [] H; (reflexivity || now contradiction H)]);
    left; eexists; (split; [|split; reflexivity]); reflexivity.
Qed.

Lemma charts_ok_createHistogram (data : option (list float)) :
  preserves charts_ok (createHistogram data).
Proof.
  intros p. apply charts_ok_renders_slot with (s := HistogramSlot).
  apply createHistogram_renders.
Qed.

Lemma charts_ok_createTimeSeries (data : option (list float)) :
  preserves charts_ok (createTimeSeries data).
Proof.
  intros p. apply charts_ok_renders_slot with (s := TimeSeriesSlot).
  apply createTimeSeries_renders.
Qed.

Lemma charts_ok_displayComparison (data : mapping) :
  preserves charts_ok (displayComparison data).
Proof.
  intros p. apply charts_ok_renders_slot with (s := ComparisonSlot).
  apply displayComparison_renders.
Qed.

Lemma chart_state_fold_appendChild (l : list Recommendation) (p : page) :
  chart_state
    (fold_left (fun p rec => appendChild (recommendation_div rec) p) l p)
  = chart_state p.
Proof.
  revert p. induction l as [|r l IH]; intros p; simpl; [reflexivity|].
  now rewrite IH.
Qed.

Lemma charts_ok_generateRecommendations (data : payload) :
  preserves charts_ok (generateRecommendations data).
Proof.
  unfold generateRecommendations.
  apply preserves_bind; [|intros _].
  - apply preserves_modify. intros p. now apply charts_ok_chart_state.
  - destruct (recommendations data); apply preserves_modify; intros p.
    + now apply charts_ok_chart_state.
    + apply charts_ok_chart_state. apply chart_state_fold_appendChild.
Qed.

Lemma charts_ok_updateProbability (barId valueId : string) (v : option float) :
  preserves charts_ok (updateProbability barId valueId v).
Proof.
  intros p Hp. rewrite updateProbability_run. cbn [fst].
  apply charts_ok_set_prop.
  destruct (width_taken (host p) (JS.to_number v * 100)); [|exact Hp].
  now apply charts_ok_set_prop.
Qed.

Lemma charts_ok_displayResults (data : payload) :
  preserves charts_ok (displayResults data).
Proof.
  unfold displayResults.
  repeat (apply preserves_bind;
          [first [ apply charts_ok_set_prop
                 | apply preserves_defined
                 | apply charts_ok_updateProbability
                 | apply charts_ok_createHistogram
                 | apply charts_ok_createTimeSeries ]
          | intros ? ]).
  apply charts_ok_generateRecommendations.
Qed.

Lemma charts_ok_perform (p : page) (r : render) :
  charts_ok p -> charts_ok (perform p r).
Proof.
  destruct r; simpl.
  - apply charts_ok_createHistogram.
  - apply charts_ok_createTimeSeries.
  - apply charts_ok_displayComparison.
  - apply charts_ok_displayResults.
Qed.

(** *** At most one live instance *)

Lemma is_live_on_spec (cv : string) (c : chart) :
  is_live_on cv c = true <-> canvas c = cv /\ destroyed c = false.
Proof.
  unfold is_live_on. rewrite andb_true_iff, String.eqb_eq, negb_true_iff.
  reflexivity.
Qed.

(** When all live instances of a canvas sit at one index, there is at most
    one of them. *)
Lemma live_on_at_most_one (cv : string) (l : list chart) :
  (forall i j ci cj,
     nth_error l i = Some ci -> nth_error l j = Some cj ->
     is_live_on cv ci = true -> is_live_on cv cj = true -> i = j) ->
  (List.length (live_on cv l) <= 1)%nat.
Proof.
  induction l as [|c l IH]; intros Huniq; [simpl; lia|].
  assert (Htail : forall i j ci cj,
             nth_error l i = Some ci -> nth_error l j = Some cj ->
             is_live_on cv ci = true -> is_live_on cv cj = true -> i = j).
  { intros i j ci cj Hi Hj Hli Hlj.
    assert (H : S i = S j) by (apply (Huniq (S i) (S j) ci cj); assumption).
    now injection H. }
  unfold live_on in *. cbn [filter]. fold (is_live_on cv c).
  destruct (is_live_on cv c) eqn:Hc; [|now apply IH].
  assert (Hnone : filter (fun c0 => String.eqb (canvas c0) cv && negb (destroyed c0)) l = []).
  { destruct (filter _ l) as [|x t] eqn:E; [reflexivity|exfalso].
    assert (Hx : In x (filter (fun c0 => String.eqb (canvas c0) cv && negb (destroyed c0)) l))
      by (rewrite E; now left).
    apply filter_In in Hx. destruct Hx as [Hin Hlive].
    destruct (In_nth_error _ _ Hin) as [j Hj].
    discriminate (Huniq 0%nat (S j) c x eq_refl Hj Hc Hlive). }
  rewrite Hnone. simpl. lia.
Qed.

(** In an ordered slot the live instances are none, or just the one the
    handle refers to. *)
Lemma slot_ok_live (cv : string) (handle : option nat) (l : list chart) :
  slot_ok cv handle l ->
  live_on cv l = []
  \/ exists id c, handle = Some id /\ nth_error l id = Some c
                  /\ live_on cv l = [c].
Proof.
  intros [_ Hlive].
  assert (Hle : (List.length (live_on cv l) <= 1)%nat).
  { apply live_on_at_most_one. intros i j ci cj Hi Hj Hli Hlj.
    apply is_live_on_spec in Hli, Hlj.
    destruct Hli as [Hci Hdi], Hlj as [Hcj Hdj].
    assert (Heq : Some i = Some j)
      by (rewrite <- (Hlive i ci Hi Hci Hdi); now apply (Hlive j cj)).
    now injection Heq. }
  destruct (live_on cv l) as [|c [|c' t]] eqn:E; [now left| |simpl in Hle; lia].
  right.
  assert (Hc : In c (live_on cv l)) by (rewrite E; now left).
  unfold live_on in Hc. apply filter_In in Hc. destruct Hc as [Hin Hc].
  apply is_live_on_spec in Hc. destruct Hc as [Hcv Hd].
  destruct (In_nth_error _ _ Hin) as [id Hid].
  exists id, c. repeat split; [now apply (Hlive id c)|exact Hid].
Qed.

(** *** Never two instances attached *)

Lemma slot_ok_at_most_one (cv : string) (handle : option nat) (l : list chart) :
  slot_ok cv handle l -> (List.length (live_on cv l) <= 1)%nat.
Proof.
  intros Hok.
  destruct (slot_ok_live _ _ _ Hok) as [->|(id & c & _ & _ & ->)]; simpl; lia.
Qed.

Lemma never_two_attached_same (p p' : page) :
  most_attached p' = most_attached p ->
  never_two_attached p -> never_two_attached p'.
Proof. intros H Hp s. rewrite H. apply Hp. Qed.

Lemma most_attached_destroy_existing (handle : option nat) (p : page) :
  most_attached (fst (destroy_existing handle p)) = most_attached p.
Proof. destruct handle; reflexivity. Qed.

(** Constructing an instance on the canvas of a slot that is in order
    afterwards has not brought a second instance to the canvas. *)
Lemma never_two_attached_attach (c : chart) (p1 p' : page) :
  charts_ok p' ->
  charts p' = charts p1 ++ [c] ->
  most_attached p' = most_attached (attach c p1) ->
  never_two_attached p1 -> never_two_attached p'.
Proof.
  intros Hok Hcharts Hmost Hp1 s. rewrite Hmost.
  cbv [attach set_most_attached most_attached]. fold (most_attached p1).
  destruct (String.eqb (slot_canvas s) (canvas c)); [|apply Hp1].
  apply Nat.max_lub; [apply Hp1|].
  cbv [set_charts charts]. fold (charts p1). rewrite <- Hcharts.
  apply (slot_ok_at_most_one _ _ _ (Hok s)).
Qed.

Lemma never_two_attached_createHistogram (data : option (list float)) (p : page) :
  charts_ok p -> never_two_attached p ->
  never_two_attached (fst (createHistogram data p)).
Proof.
  intros Hok Hp. pose proof (charts_ok_createHistogram data p Hok) as Hok'.
  assert (Hp1 : never_two_attached (fst (destroy_existing (histogramChart p) p)))
    by (apply (never_two_attached_same p);
        [apply most_attached_destroy_existing|exact Hp]).
  rewrite createHistogram_run in *. cbv zeta in *.
  destruct data as [d|]; [|exact Hp1].
  destruct (List.length d <=? max_arguments (host p))%nat; [|exact Hp1].
  cbn [fst] in *.
  now apply (never_two_attached_attach (histogram_chart d)
               (fst (destroy_existing (histogramChart p) p))).
Qed.

Lemma never_two_attached_createTimeSeries (data : option (list float)) (p : page) :
  charts_ok p -> never_two_attached p ->
  never_two_attached (fst (createTimeSeries data p)).
Proof.
  intros Hok Hp. pose proof (charts_ok_createTimeSeries data p Hok) as Hok'.
  assert (Hp1 : never_two_attached (fst (destroy_existing (timeSeriesChart p) p)))
    by (apply (never_two_attached_same p);
        [apply most_attached_destroy_existing|exact Hp]).
  rewrite createTimeSeries_run in *. cbv zeta in *.
  destruct data as [d|]; [|exact Hp1].
  cbn [fst] in *.
  now apply (never_two_attached_attach (time_series_chart d)
               (fst (destroy_existing (timeSeriesChart p) p))).
Qed.

Lemma never_two_attached_displayComparison (data : mapping) (p : page) :
  charts_ok p -> never_two_attached p ->
  never_two_attached (fst (displayComparison data p)).
Proof.
  intros Hok Hp. pose proof (charts_ok_displayComparison data p Hok) as Hok'.
  assert (Hp1 : never_two_attached
                  (fst (destroy_existing (comparisonChart p)
                          (set_prop (Display "comparisonResults") [Lit "block"] p))))
    by (apply (never_two_attached_same p); [|exact Hp];
        now rewrite most_attached_destroy_existing).
  rewrite displayComparison_run in *. cbv zeta in *.
  destruct (comparison_html data) as [html|]; cbn [fst] in *;
    now apply (never_two_attached_attach (comparison_chart data)
                 (fst (destroy_existing (comparisonChart p)
                         (set_prop (Display "comparisonResults") [Lit "block"] p)))).
Qed.

(** The slots are in order and no canvas has had two instances. *)
Lemma tidy_modify (f : page -> page) :
  (forall p, chart_state (f p) = chart_state p) ->
  (forall p, most_attached (f p) = most_attached p) ->
  preserves (fun p => charts_ok p /\ never_two_attached p) (modify f).
Proof.
  intros Hc Hm. apply preserves_modify. intros p [Hok Hp]. split.
  - now apply (charts_ok_chart_state p).
  - now apply (never_two_attached_same p).
Qed.

Lemma most_attached_fold_appendChild (l : list Recommendation) (p : page) :
  most_attached
    (fold_left (fun p rec => appendChild (recommendation_div rec) p) l p)
  = most_attached p.
Proof.
  revert p. induction l as [|r l IH]; intros p; simpl; [reflexivity|].
  now rewrite IH.
Qed.

Lemma tidy_displayResults (data : payload) :
  preserves (fun p => charts_ok p /\ never_two_attached p) (displayResults data).
Proof.
  unfold displayResults.
  repeat (lazymatch goal with
          | |- preserves _ (generateRecommendations _) => fail
          | |- _ => idtac
          end;
          apply preserves_bind;
          [first [ apply tidy_modify; reflexivity
                 | apply preserves_defined
                 | intros p [Hok Hp]; rewrite updateProbability_run; cbn [fst];
                   destruct (width_taken _ _);
                   (split; [now apply (charts_ok_chart_state p)
                           |now apply (never_two_attached_same p)])
                 | intros p [Hok Hp];
                   split; [exact (charts_ok_createHistogram _ p Hok)
                          |now apply never_two_attached_createHistogram]
                 | intros p [Hok Hp];
                   split; [exact (charts_ok_createTimeSeries _ p Hok)
                          |now apply never_two_attached_createTimeSeries] ]
          | intros ?; cbv beta ]).
  intros p [Hok Hp].
  split; [exact (charts_ok_generateRecommendations _ p Hok)|].
  apply (never_two_attached_same p); [|exact Hp].
  unfold generateRecommendations, bind, modify.
  destruct (recommendations data); cbn [fst]; [reflexivity|].
  now rewrite most_attached_fold_appendChild.
Qed.

Lemma tidy_perform (p : page) (r : render) :
  charts_ok p /\ never_two_attached p ->
  charts_ok (perform p r) /\ never_two_attached (perform p r).
Proof.
  intros [Hok Hp]. destruct r; simpl.
  - split; [exact (charts_ok_createHistogram _ p Hok)
           |now apply never_two_attached_createHistogram].
  - split; [exact (charts_ok_createTimeSeries _ p Hok)
           |now apply never_two_attached_createTimeSeries].
  - split; [exact (charts_ok_displayComparison _ p Hok)
           |now apply never_two_attached_displayComparison].
  - now apply tidy_displayResults.
Qed.

Lemma tidy_renders (rs : list render) (p : page) :
  charts_ok p /\ never_two_attached p ->
  charts_ok (fold_left perform rs p)
  /\ never_two_attached (fold_left perform rs p).
Proof.
  revert p. induction rs as [|r rs IH]; intros p Hp; simpl; [exact Hp|].
  apply IH. now apply tidy_perform.
Qed.

(** The record of [most_attached] is kept by every statement, at every
    point of a call. *)
Lemma live_on_destroy_at_le (cv : string) (id : nat) (l : list chart) :
  (List.length (live_on cv (destroy_at id l)) <= List.length (live_on cv l))%nat.
Proof.
  revert id. induction l as [|c l IH]; intros [|id]; cbn [destroy_at];
    try apply Nat.le_refl.
  - unfold live_on. cbn [filter mark_destroyed canvas destroyed negb].
    rewrite andb_false_r.
    destruct (String.eqb (canvas c) cv && negb (destroyed c));
      cbn [List.length]; lia.
  - unfold live_on in *. cbn [filter]. specialize (IH id).
    destruct (String.eqb (canvas c) cv && negb (destroyed c));
      cbn [List.length]; lia.
Qed.

Lemma attached_recorded_same (p p' : page) :
  charts p' = charts p -> most_attached p' = most_attached p ->
  attached_recorded p -> attached_recorded p'.
Proof. intros Hc Hm Hp cv. rewrite Hc, Hm. apply Hp. Qed.

Lemma attached_recorded_modify (f : page -> page) :
  (forall p, charts (f p) = charts p) ->
  (forall p, most_attached (f p) = most_attached p) ->
  preserves attached_recorded (modify f).
Proof.
  intros Hc Hm. apply preserves_modify. intros p.
  now apply attached_recorded_same.
Qed.

Lemma attached_recorded_destroy_existing (handle : option nat) :
  preserves attached_recorded (destroy_existing handle).
Proof.
  intros p Hp cv. destruct handle as [id|]; [|apply Hp].
  cbn [destroy_existing destroy modify fst set_charts charts most_attached].
  eapply Nat.le_trans; [apply live_on_destroy_at_le|apply Hp].
Qed.

Lemma attached_recorded_new_Chart (c : chart) :
  preserves attached_recorded (new_Chart c).
Proof.
  intros p Hp cv.
  cbv [new_Chart fst attach set_most_attached set_charts charts most_attached].
  fold (charts p). fold (most_attached p).
  destruct (String.eqb cv (canvas c)) eqn:E; [apply Nat.le_max_r|].
  unfold live_on. rewrite filter_app. cbn [filter].
  rewrite String.eqb_sym, E. cbn [andb]. rewrite app_nil_r. apply Hp.
Qed.

Lemma attached_recorded_spread_call {A : Type} (f : list float -> A)
    (args : list float) :
  preserves attached_recorded (spread_call f args).
Proof.
  intros p Hp. unfold spread_call, bind, get.
  now destruct (List.length args <=? max_arguments (host p))%nat.
Qed.

Lemma attached_recorded_createHistogram (data : option (list float)) :
  preserves attached_recorded (createHistogram data).
Proof.
  unfold createHistogram.
  repeat (apply preserves_bind;
          [first [ apply preserves_get
                 | apply attached_recorded_destroy_existing
                 | apply preserves_defined
                 | apply attached_recorded_spread_call
                 | apply attached_recorded_new_Chart ]
          | intros ? ]).
  now apply attached_recorded_modify.
Qed.

Lemma attached_recorded_createTimeSeries (data : option (list float)) :
  preserves attached_recorded (createTimeSeries data).
Proof.
  unfold createTimeSeries.
  repeat (apply preserves_bind;
          [first [ apply preserves_get
                 | apply attached_recorded_destroy_existing
                 | apply preserves_defined
                 | apply attached_recorded_new_Chart ]
          | intros ? ]).
  now apply attached_recorded_modify.
Qed.

Lemma attached_recorded_displayComparison (data : mapping) :
  preserves attached_recorded (displayComparison data).
Proof.
  unfold displayComparison, createComparisonTable.
  repeat (apply preserves_bind;
          [first [ apply preserves_get
                 | apply attached_recorded_destroy_existing
                 | apply preserves_defined
                 | apply attached_recorded_new_Chart
                 | now apply attached_recorded_modify ]
          | intros ? ]).
  now apply attached_recorded_modify.
Qed.

Lemma charts_fold_appendChild (l : list Recommendation) (p : page) :
  charts (fold_left (fun p rec => appendChild (recommendation_div rec) p) l p)
  = charts p.
Proof.
  revert p. induction l as [|r l IH]; intros p; simpl; [reflexivity|].
  now rewrite IH.
Qed.

Lemma attached_recorded_displayResults (data : payload) :
  preserves attached_recorded (displayResults data).
Proof.
  unfold displayResults.
  repeat (lazymatch goal with
          | |- preserves _ (generateRecommendations _) => fail
          | |- _ => idtac
          end;
          apply preserves_bind;
          [first [ now apply attached_recorded_modify
                 | apply preserves_defined
                 | intros p Hp; rewrite updateProbability_run; cbn [fst];
                   destruct (width_taken _ _);
                   now apply (attached_recorded_same p)
                 | apply attached_recorded_createHistogram
                 | apply attached_recorded_createTimeSeries ]
          | intros ?; cbv beta ]).
  intros p Hp. apply (attached_recorded_same p); [| |exact Hp];
    unfold generateRecommendations, bind, modify;
    destruct (recommendations data); cbn [fst]; try reflexivity.
  - now rewrite charts_fold_appendChild.
  - now rewrite most_attached_fold_appendChild.
Qed.

Lemma attached_recorded_renders (rs : list render) (p : page) :
  attached_recorded p -> attached_recorded (fold_left perform rs p).
Proof.
  revert p. induction rs as [|r rs IH]; intros p Hp; simpl; [exact Hp|].
  apply IH. destruct r; simpl.
  - now apply attached_recorded_createHistogram.
  - now apply attached_recorded_createTimeSeries.
  - now apply attached_recorded_displayComparison.
  - now apply attached_recorded_displayResults.
Qed.

Lemma attached_recorded_initial (b : browser) :
  attached_recorded (initial_page b).
Proof. intros cv. cbn. lia. Qed.

Lemma never_two_attached_initial (b : browser) :
  never_two_attached (initial_page b).
Proof. intros s. cbn. lia. Qed.

(** C8: after any sequence of calls of the rendering functions, starting
    from the page as loaded, each of the three view slots has no live chart
    instance or exactly one, the one its global handle refers to; at no
    moment of the sequence, the moments within a call included, were two
    instances attached to the canvas of a slot ([most_attached], which
    every construction brings up to date and which bounds what is attached
    now, is at most 1), which is to say that whenever an instance was
    constructed the one before it had been destroyed; and one more render of a slot leaves the instance the handle
    referred to destroyed and the new one, if the call got that far, as
    the last of the list ([replaced]; [destroyed_only] is a render that
    threw before it constructed). *)
Theorem C8_one_live_chart_per_slot {b : browser} (rs : list render) (s : slot) :
  (live_on (slot_canvas s) (charts (fold_left perform rs (initial_page b))) = []
   \/ exists id c,
        slot_handle s (fold_left perform rs (initial_page b)) = Some id
        /\ nth_error (charts (fold_left perform rs (initial_page b))) id = Some c
        /\ live_on (slot_canvas s)
             (charts (fold_left perform rs (initial_page b))) = [c])
  /\ (List.length (live_on (slot_canvas s)
                     (charts (fold_left perform rs (initial_page b)))) <= 1)%nat
  /\ (List.length (live_on (slot_canvas s)
                     (charts (fold_left perform rs (initial_page b))))
      <= most_attached (fold_left perform rs (initial_page b)) (slot_canvas s)
      <= 1)%nat
  /\ (forall data,
        renders_slot HistogramSlot (fold_left perform rs (initial_page b))
          (perform (fold_left perform rs (initial_page b))
                   (CallCreateHistogram data)))
  /\ (forall data,
        renders_slot TimeSeriesSlot (fold_left perform rs (initial_page b))
          (perform (fold_left perform rs (initial_page b))
                   (CallCreateTimeSeries data)))
  /\ (forall data,
        renders_slot ComparisonSlot (fold_left perform rs (initial_page b))
          (perform (fold_left perform rs (initial_page b))
                   (CallDisplayComparison data))).
Proof.
  destruct (tidy_renders rs (initial_page b)
              (conj charts_ok_initial (never_two_attached_initial b)))
    as [Hall Hnever].
  pose proof (Hall s) as Hok.
  pose proof (slot_ok_live _ _ _ Hok) as Hlive.
  split; [exact Hlive|]. split; [apply (slot_ok_at_most_one _ _ _ Hok)|].
  split; [split; [|apply Hnever]|].
  { apply (attached_recorded_renders rs (initial_page b)
             (attached_recorded_initial b)). }
  split; [|split].
  - intros data. apply createHistogram_renders.
  - intros data. apply createTimeSeries_renders.
  - intros data. apply displayComparison_renders.
Qed.

(** ** [getParameters] *)

(** C10: for a custom scenario the request has [green_capacity_accident]
    2, [accident_duration_range] [5, 15] and [simulation_minutes] 60
    whatever the form holds and whatever the parsers return; each other
    field is the parsed value of its own form control. *)
Theorem C10_custom_request_constants
    (parseInt parseFloat : string -> float) (f : form) :
  scenarioSelect f = "custom" ->
  exists c,
    getParameters parseInt parseFloat f = Custom c
    /\ green_capacity_accident c = 2
    /\ accident_duration_range c = (5, 15)
    /\ simulation_minutes c = 60
    /\ rush_hour_rate c = (parseInt (rushMin f), parseInt (rushMax f))
    /\ normal_rate c = (parseInt (normalMin f), parseInt (normalMax f))
    /\ green_capacity_normal c = parseInt (greenCapacity f)
    /\ accident_probability c = parseFloat (accidentProb f) / 100
    /\ rush_hour_minutes c = parseInt (rushDuration f)
    /\ custom_simulations c = parseInt (simCount f).
Proof.
  intros H. unfold getParameters. rewrite H. cbn [String.eqb Ascii.eqb Bool.eqb].
  eexists. split; [reflexivity|]. repeat split.
Qed.

Lemma C10_custom_request_constants_witness :
  scenarioSelect custom_form = "custom"
  /\ exists c,
       getParameters parse_digits parse_digits custom_form = Custom c
       /\ green_capacity_accident c = 2
       /\ accident_duration_range c = (5, 15)
       /\ simulation_minutes c = 60.
Proof.
  split; [reflexivity|].
  destruct (C10_custom_request_constants parse_digits parse_digits custom_form eq_refl)
    as (c & Hc & H2 & H515 & H60 & _).
  exists c. repeat split; assumption.
Defined.

(** ** Requests in flight *)

(** [compareScenarios] disables nothing: on the page as loaded two clicks
    that start it put two comparison requests in flight and leave the
    [.btn-primary] button enabled, and a click on that button puts a
    simulation request in flight beside a comparison request. *)
Lemma comparison_clicks_are_always_delivered {b : browser}
    (parseInt parseFloat : string -> float) (f1 f2 : form) :
  option_map (fun w => (count_in_flight Comparison w, btn_disabled (view w)))
    (run parseInt parseFloat (initial_world b) [ClickCompare f1; ClickCompare f2])
  = Some (2%nat, false)
  /\ option_map (fun w => (count_in_flight Comparison w,
                           count_in_flight Simulation w))
       (run parseInt parseFloat (initial_world b) [ClickCompare f1; ClickRun f2])
     = Some (1%nat, 1%nat).
Proof.
  split; [reflexivity|].
  unfold run, step, runSimulation_send.
  destruct (String.eqb (scenarioSelect f2) "custom"); reflexivity.
Qed.

(** C3 fails as stated: on the page as loaded, a second click that starts
    [compareScenarios] before the first response has settled is delivered,
    and two comparison requests are in flight; a click on the
    [.btn-primary] button while a comparison request is in flight is
    delivered too, and a simulation and a comparison request are in flight
    together. *)
Lemma C3_requests_overlap :
  option_map (fun w => List.length (in_flight w))
    (run parse_digits parse_digits loaded_world
       [ClickCompare custom_form; ClickCompare custom_form])
  = Some 2%nat
  /\ option_map (fun w => (count_in_flight Comparison w,
                           count_in_flight Simulation w))
       (run parse_digits parse_digits loaded_world
          [ClickCompare custom_form; ClickRun custom_form])
     = Some (1%nat, 1%nat).
Proof. split; vm_compute; reflexivity. Qed.

(** ** Sequencing *)

Lemma bind_ret {A B : Type} (a : A) (k : A -> M B) (p : page) :
  bind (ret a) k p = k a p.
Proof. reflexivity. Qed.

Lemma bind_throw {A B : Type} (k : A -> M B) (p : page) :
  bind (@throw A) k p = (p, None).
Proof. reflexivity. Qed.

Lemma bind_modify {B : Type} (f : page -> page) (k : unit -> M B) (p : page) :
  bind (modify f) k p = k tt (f p).
Proof. reflexivity. Qed.

Lemma bind_returns {B : Type} (c : M unit) (k : unit -> M B) (p : page) :
  snd (c p) = Some tt -> bind c k p = k tt (fst (c p)).
Proof.
  unfold bind. destruct (c p) as [p' [[]|]]; cbn [fst snd]; intros H;
    [reflexivity|discriminate H].
Qed.

Lemma bind_throws {B : Type} (c : M unit) (k : unit -> M B) (p : page) :
  snd (c p) = None -> bind c k p = (fst (c p), None).
Proof.
  unfold bind. destruct (c p) as [p' [[]|]]; cbn [fst snd]; intros H;
    [discriminate H|reflexivity].
Qed.

Lemma bind_assoc {A B C : Type} (c : M A) (k : A -> M B) (h : B -> M C) (p : page) :
  bind (bind c k) h p = bind c (fun a => bind (k a) h) p.
Proof.
  unfold bind. destruct (c p) as [p' [a|]]; reflexivity.
Qed.

Lemma createHistogram_outcome (data : option (list float)) (p : page) :
  snd (createHistogram data p)
  = match data with
    | Some d => if (List.length d <=? max_arguments (host p))%nat
                then Some tt else None
    | None => None
    end.
Proof.
  rewrite createHistogram_run. cbv zeta. destruct data as [d|]; [|reflexivity].
  destruct (List.length d <=? max_arguments (host p))%nat; reflexivity.
Qed.

Lemma createTimeSeries_outcome (data : option (list float)) (p : page) :
  snd (createTimeSeries data p)
  = match data with Some _ => Some tt | None => None end.
Proof.
  rewrite createTimeSeries_run. cbv zeta. destruct data; reflexivity.
Qed.

Lemma updateProbability_steps {B : Type} (barId valueId : string)
    (v : option float) (k : unit -> M B) (p : page) :
  bind (updateProbability barId valueId v) k p
  = k tt (fst (updateProbability barId valueId v p)).
Proof. unfold bind. rewrite updateProbability_run. reflexivity. Qed.

Lemma beside_charts_destroy_existing (handle : option nat) (p : page) :
  beside_charts (fst (destroy_existing handle p)) = beside_charts p.
Proof. destruct handle; reflexivity. Qed.

Lemma createHistogram_beside (data : option (list float)) (p : page) :
  beside_charts (fst (createHistogram data p)) = beside_charts p
  /\ timeSeriesChart (fst (createHistogram data p)) = timeSeriesChart p
  /\ comparisonChart (fst (createHistogram data p)) = comparisonChart p.
Proof.
  rewrite createHistogram_run. cbv zeta.
  destruct p as [pr bd rl ch hc tc cc al co hb ma].
  destruct data as [d|], hc as [id|]; run_statements;
    try destruct (List.length d <=? max_arguments hb)%nat; repeat split.
Qed.

Lemma createTimeSeries_beside (data : option (list float)) (p : page) :
  beside_charts (fst (createTimeSeries data p)) = beside_charts p
  /\ histogramChart (fst (createTimeSeries data p)) = histogramChart p
  /\ comparisonChart (fst (createTimeSeries data p)) = comparisonChart p.
Proof.
  rewrite createTimeSeries_run. cbv zeta.
  destruct p as [pr bd rl ch hc tc cc al co hb ma].
  destruct data as [d|], tc as [id|]; repeat split.
Qed.

Lemma props_createHistogram (data : option (list float)) (p : page) :
  props (fst (createHistogram data p)) = props p.
Proof.
  destruct (createHistogram_beside data p) as (H & _).
  now apply (f_equal (fun t => fst (fst (fst (fst (fst t)))))) in H.
Qed.

Lemma props_createTimeSeries (data : option (list float)) (p : page) :
  props (fst (createTimeSeries data p)) = props p.
Proof.
  destruct (createTimeSeries_beside data p) as (H & _).
  now apply (f_equal (fun t => fst (fst (fst (fst (fst t)))))) in H.
Qed.

Lemma host_createHistogram (data : option (list float)) (p : page) :
  host (fst (createHistogram data p)) = host p.
Proof.
  destruct (createHistogram_beside data p) as (H & _).
  now apply (f_equal snd) in H.
Qed.

Lemma recommendationsList_createHistogram (data : option (list float)) (p : page) :
  recommendationsList (fst (createHistogram data p)) = recommendationsList p.
Proof.
  destruct (createHistogram_beside data p) as (H & _).
  now apply (f_equal (fun t => snd (fst (fst (fst t))))) in H.
Qed.

Lemma recommendationsList_createTimeSeries (data : option (list float)) (p : page) :
  recommendationsList (fst (createTimeSeries data p)) = recommendationsList p.
Proof.
  destruct (createTimeSeries_beside data p) as (H & _).
  now apply (f_equal (fun t => snd (fst (fst (fst t))))) in H.
Qed.

Lemma outside_results_createHistogram (data : option (list float)) (p : page) :
  outside_results (fst (createHistogram data p)) = outside_results p.
Proof.
  destruct (createHistogram_beside data p) as (H & _ & Hc).
  unfold beside_charts in H. unfold outside_results.
  injection H as Hp Hb _ Ha Hco _. now rewrite Hp, Hb, Ha, Hco, Hc.
Qed.

Lemma outside_results_createTimeSeries (data : option (list float)) (p : page) :
  outside_results (fst (createTimeSeries data p)) = outside_results p.
Proof.
  destruct (createTimeSeries_beside data p) as (H & _ & Hc).
  unfold beside_charts in H. unfold outside_results.
  injection H as Hp Hb _ Ha Hco _. now rewrite Hp, Hb, Ha, Hco, Hc.
Qed.

Lemma props_fold_appendChild (l : list Recommendation) (p : page) :
  props (fold_left (fun p rec => appendChild (recommendation_div rec) p) l p)
  = props p.
Proof.
  revert p. induction l as [|r l IH]; intros p; cbn [fold_left]; [reflexivity|].
  now rewrite IH.
Qed.

Lemma props_generateRecommendations (d : payload) (p : page) :
  props (fst (generateRecommendations d p)) = props p.
Proof.
  unfold generateRecommendations, bind, modify.
  destruct (recommendations d); cbn [fst]; [reflexivity|].
  now rewrite props_fold_appendChild.
Qed.

Lemma recommendationsList_generateRecommendations (d : payload) (p : page) :
  recommendationsList (fst (generateRecommendations d p)) = rendered d p.
Proof. reflexivity. Qed.

Lemma outside_results_fold_appendChild (l : list Recommendation) (p : page) :
  outside_results
    (fold_left (fun p rec => appendChild (recommendation_div rec) p) l p)
  = outside_results p.
Proof.
  revert p. induction l as [|r l IH]; intros p; cbn [fold_left]; [reflexivity|].
  now rewrite IH.
Qed.

Lemma outside_results_generateRecommendations (d : payload) (p : page) :
  outside_results (fst (generateRecommendations d p)) = outside_results p.
Proof.
  unfold generateRecommendations, bind, modify.
  destruct (recommendations d); cbn [fst]; [reflexivity|].
  now rewrite outside_results_fold_appendChild.
Qed.

(** ** [displayResults], statement by statement *)

Lemma generateRecommendations_returns (d : payload) (p : page) :
  snd (generateRecommendations d p) = Some tt.
Proof.
  unfold generateRecommendations, bind, modify.
  destruct (recommendations d); reflexivity.
Qed.

Lemma host_write_all (writes : list (key * tokens)) (p : page) :
  host (write_all writes p) = host p.
Proof.
  unfold write_all. revert p.
  induction writes as [|kv l IH]; intros p; cbn [fold_left]; [reflexivity|].
  now rewrite IH.
Qed.

Lemma outside_results_set_prop (k : key) (v : tokens) (p : page) :
  (forall k', In k' [Display "loading"; Display "comparisonResults";
                     InnerHTML "comparisonTable"; InnerHTML "btnText"] ->
              key_eqb k k' = false) ->
  outside_results (set_prop k v p) = outside_results p.
Proof.
  intros H. unfold outside_results. cbn [props set_prop btn_disabled alerts
    console comparisonChart].
  rewrite !H by (cbn [In]; tauto). reflexivity.
Qed.

(** [displayResults], statement by statement: the texts are written up to
    the first of [avg_max_queue], [avg_waiting_time] and [traffic_level]
    that is missing; with the three present the charts and the
    recommendations follow. *)
Lemma displayResults_run (d : payload) (p : page) :
  displayResults d p
  = match avg_max_queue d, avg_waiting_time d, traffic_level d with
    | Some _, Some _, Some _ =>
        charts_and_advice d (write_all (results_texts (host p) d) p)
    | _, _, _ => (write_all (results_texts (host p) d) p, None)
    end.
Proof.
  unfold displayResults, results_texts, write_all, charts_and_advice.
  rewrite bind_modify.
  destruct (avg_max_queue d) as [q|]; cbn [defined];
    [rewrite bind_ret, bind_modify|rewrite bind_throw; reflexivity].
  destruct (avg_waiting_time d) as [w|]; cbn [defined];
    [rewrite bind_ret, !bind_modify|rewrite bind_throw; reflexivity].
  destruct (traffic_level d) as [lvl|]; cbn [defined];
    [rewrite bind_ret, !bind_modify|rewrite bind_throw; reflexivity].
  unfold probability_writes.
  rewrite updateProbability_steps, updateProbability_run. cbn [fst host set_prop].
  destruct (width_taken (host p) (JS.to_number (prob_light_traffic d) * 100));
    rewrite updateProbability_steps, updateProbability_run; cbn [fst host set_prop];
    destruct (width_taken (host p) (JS.to_number (prob_moderate_jam d) * 100));
    rewrite updateProbability_steps, updateProbability_run; cbn [fst host set_prop];
    destruct (width_taken (host p) (JS.to_number (prob_severe_jam d) * 100));
    reflexivity.
Qed.

Lemma charts_and_advice_outcome (d : payload) (p : page) :
  snd (charts_and_advice d p)
  = match all_max_queues d, sample_queue_history d with
    | Some queues, Some _ =>
        if (List.length queues <=? max_arguments (host p))%nat
        then Some tt else None
    | _, _ => None
    end.
Proof.
  unfold charts_and_advice.
  pose proof (createHistogram_outcome (all_max_queues d) p) as Hh.
  destruct (all_max_queues d) as [queues|];
    [|now rewrite (bind_throws _ _ _ Hh)].
  destruct (List.length queues <=? max_arguments (host p))%nat;
    [|rewrite (bind_throws _ _ _ Hh); now destruct (sample_queue_history d)].
  rewrite (bind_returns _ _ _ Hh).
  pose proof (createTimeSeries_outcome (sample_queue_history d)
                (fst (createHistogram (Some queues) p))) as Ht.
  destruct (sample_queue_history d) as [history|];
    [|now rewrite (bind_throws _ _ _ Ht)].
  rewrite (bind_returns _ _ _ Ht). apply generateRecommendations_returns.
Qed.

Lemma charts_and_advice_props (d : payload) (p : page) :
  props (fst (charts_and_advice d p)) = props p.
Proof.
  assert (H : preserves (fun q => props q = props p) (charts_and_advice d)).
  { unfold charts_and_advice.
    apply preserves_bind; [|intros _; apply preserves_bind; [|intros _]];
      intros q Hq.
    - now rewrite props_createHistogram.
    - now rewrite props_createTimeSeries.
    - now rewrite props_generateRecommendations. }
  exact (H p eq_refl).
Qed.

Lemma charts_and_advice_frame (d : payload) (p : page) :
  outside_results (fst (charts_and_advice d p)) = outside_results p.
Proof.
  assert (H : preserves (fun q => outside_results q = outside_results p)
                (charts_and_advice d)).
  { unfold charts_and_advice.
    apply preserves_bind; [|intros _; apply preserves_bind; [|intros _]];
      intros q Hq.
    - now rewrite outside_results_createHistogram.
    - now rewrite outside_results_createTimeSeries.
    - now rewrite outside_results_generateRecommendations. }
  exact (H p eq_refl).
Qed.

Lemma charts_and_advice_list (d : payload) (p : page) :
  recommendationsList (fst (charts_and_advice d p))
  = match snd (charts_and_advice d p) with
    | Some _ => rendered d p
    | None => recommendationsList p
    end.
Proof.
  rewrite charts_and_advice_outcome. unfold charts_and_advice.
  pose proof (createHistogram_outcome (all_max_queues d) p) as Hh.
  destruct (all_max_queues d) as [queues|];
    [|rewrite (bind_throws _ _ _ Hh); cbn [fst];
      apply recommendationsList_createHistogram].
  destruct (List.length queues <=? max_arguments (host p))%nat;
    [|rewrite (bind_throws _ _ _ Hh); cbn [fst];
      rewrite recommendationsList_createHistogram;
      now destruct (sample_queue_history d)].
  rewrite (bind_returns _ _ _ Hh).
  pose proof (createTimeSeries_outcome (sample_queue_history d)
                (fst (createHistogram (Some queues) p))) as Ht.
  destruct (sample_queue_history d) as [history|];
    [|rewrite (bind_throws _ _ _ Ht); cbn [fst];
      now rewrite recommendationsList_createTimeSeries,
            recommendationsList_createHistogram].
  rewrite (bind_returns _ _ _ Ht).
  rewrite recommendationsList_generateRecommendations.
  now rewrite !rendered_recommendations.
Qed.

Lemma displayResults_outcome (d : payload) (p : page) :
  snd (displayResults d p) = if renderable (host p) d then Some tt else None.
Proof.
  rewrite displayResults_run. unfold renderable.
  destruct (avg_max_queue d) as [q|]; [|reflexivity].
  destruct (avg_waiting_time d) as [w|]; [|reflexivity].
  destruct (traffic_level d) as [lvl|]; [|reflexivity].
  rewrite charts_and_advice_outcome, host_write_all.
  destruct (all_max_queues d) as [queues|]; [|reflexivity].
  destruct (sample_queue_history d) as [history|]; [reflexivity|].
  now destruct (List.length queues <=? max_arguments (host p))%nat.
Qed.

(** The texts [displayResults] has written when it returns or throws. *)
Lemma displayResults_props (d : payload) (p : page) :
  props (fst (displayResults d p))
  = props (write_all (results_texts (host p) d) p).
Proof.
  rewrite displayResults_run.
  destruct (avg_max_queue d) as [q|]; [|reflexivity].
  destruct (avg_waiting_time d) as [w|]; [|reflexivity].
  destruct (traffic_level d) as [lvl|]; [|reflexivity].
  apply charts_and_advice_props.
Qed.

Lemma outside_results_write_all (b : browser) (d : payload) (p : page) :
  outside_results (write_all (results_texts b d) p) = outside_results p.
Proof.
  unfold results_texts, probability_writes, write_all.
  destruct (avg_max_queue d) as [q|]; [|reflexivity].
  destruct (avg_waiting_time d) as [w|]; [|reflexivity].
  destruct (traffic_level d) as [lvl|]; [|reflexivity].
  destruct (width_taken b (JS.to_number (prob_light_traffic d) * 100));
    destruct (width_taken b (JS.to_number (prob_moderate_jam d) * 100));
    destruct (width_taken b (JS.to_number (prob_severe_jam d) * 100));
    reflexivity.
Qed.

Lemma displayResults_frame (d : payload) (p : page) :
  outside_results (fst (displayResults d p)) = outside_results p.
Proof.
  rewrite displayResults_run.
  destruct (avg_max_queue d) as [q|] eqn:Eq;
    [|apply outside_results_write_all].
  destruct (avg_waiting_time d) as [w|] eqn:Ew;
    [|apply outside_results_write_all].
  destruct (traffic_level d) as [lvl|] eqn:El;
    [|apply outside_results_write_all].
  rewrite charts_and_advice_frame. apply outside_results_write_all.
Qed.

Lemma recommendationsList_write_all (writes : list (key * tokens)) (p : page) :
  recommendationsList (write_all writes p) = recommendationsList p.
Proof.
  unfold write_all. revert p.
  induction writes as [|kv l IH]; intros p; cbn [fold_left]; [reflexivity|].
  now rewrite IH.
Qed.

(** The recommendations are replaced by a call that returns and are as
    they were after one that throws. *)
Lemma displayResults_list (d : payload) (p : page) :
  recommendationsList (fst (displayResults d p))
  = if renderable (host p) d then rendered d p else recommendationsList p.
Proof.
  pose proof (displayResults_outcome d p) as Hout.
  rewrite displayResults_run in *. unfold renderable in *.
  destruct (avg_max_queue d) as [q|]; [|apply recommendationsList_write_all].
  destruct (avg_waiting_time d) as [w|]; [|apply recommendationsList_write_all].
  destruct (traffic_level d) as [lvl|]; [|apply recommendationsList_write_all].
  rewrite charts_and_advice_list, Hout.
  destruct (all_max_queues d) as [queues|];
    [|apply recommendationsList_write_all].
  destruct (sample_queue_history d) as [history|];
    [|apply recommendationsList_write_all].
  destruct (List.length queues <=? max_arguments (host p))%nat;
    [|apply recommendationsList_write_all].
  now rewrite !rendered_recommendations.
Qed.

(** The page a complete run of [displayResults] leaves. *)
Lemma displayResults_page (d : payload) (p : page) :
  renderable (host p) d = true ->
  fst (displayResults d p)
  = fst (generateRecommendations d
           (fst (createTimeSeries (sample_queue_history d)
                   (fst (createHistogram (all_max_queues d)
                           (write_all (results_texts (host p) d) p)))))).
Proof.
  intros H. rewrite displayResults_run. unfold renderable in H.
  destruct (avg_max_queue d) as [q|]; [|discriminate].
  destruct (avg_waiting_time d) as [w|]; [|discriminate].
  destruct (traffic_level d) as [lvl|]; [|discriminate].
  destruct (all_max_queues d) as [queues|] eqn:Eq; [|discriminate].
  destruct (sample_queue_history d) as [history|] eqn:Eh; [|discriminate].
  unfold charts_and_advice. rewrite Eq, Eh.
  rewrite (bind_returns (createHistogram (Some queues)))
    by (rewrite createHistogram_outcome, host_write_all; now rewrite H).
  rewrite (bind_returns (createTimeSeries (Some history)))
    by apply createTimeSeries_outcome.
  reflexivity.
Qed.

(** Every write of the list is on the page at the end: no key is written
    twice. *)
Lemma write_all_texts (b : browser) (d : payload) (p : page) :
  Forall (fun kv => props (write_all (results_texts b d) p) (fst kv) = snd kv)
         (results_texts b d).
Proof.
  unfold results_texts, probability_writes, write_all.
  destruct (avg_max_queue d) as [q|];
    [|repeat (constructor; [reflexivity|]); constructor].
  destruct (avg_waiting_time d) as [w|];
    [|repeat (constructor; [reflexivity|]); constructor].
  destruct (traffic_level d) as [lvl|];
    [|repeat (constructor; [reflexivity|]); constructor].
  destruct (width_taken b (JS.to_number (prob_light_traffic d) * 100));
    destruct (width_taken b (JS.to_number (prob_moderate_jam d) * 100));
    destruct (width_taken b (JS.to_number (prob_severe_jam d) * 100));
    cbn [app fold_left fst snd];
    repeat (constructor; [reflexivity|]); constructor.
Qed.

Lemma displayResults_texts (d : payload) (p : page) :
  Forall (fun kv => props (fst (displayResults d p)) (fst kv) = snd kv)
         (results_texts (host p) d).
Proof. rewrite displayResults_props. apply write_all_texts. Qed.

(** ** Failed simulation requests *)

Lemma runSimulation_settle_page (o : outcome payload) (p : page) :
  fst (runSimulation_settle o p)
  = set_prop (InnerHTML "btnText") [Lit "▶ Run Simulation"]
      (set_btn_disabled false
         (set_prop (Display "loading") [Lit "none"]
            (match o with
             | Json d =>
                 if renderable (host p) d then fst (displayResults d p)
                 else add_alert "Simulation failed. Please try again."
                        (add_console "Error:" (fst (displayResults d p)))
             | _ => add_alert "Simulation failed. Please try again."
                      (add_console "Error:" p)
             end))).
Proof.
  unfold runSimulation_settle, try_catch_finally.
  destruct o as [| |d]; try reflexivity.
  cbn [awaited]. rewrite bind_ret.
  pose proof (displayResults_outcome d p) as H.
  destruct (displayResults d p) as [p1 r]. cbn [fst snd] in *.
  destruct (renderable (host p) d); subst r; reflexivity.
Qed.

(** Whatever the [try] block did, [finally] hides the loading indicator and
    enables the button again. *)
Lemma runSimulation_settle_finally (o : outcome payload) (p : page) :
  props (fst (runSimulation_settle o p)) (Display "loading") = [Lit "none"]
  /\ btn_disabled (fst (runSimulation_settle o p)) = false.
Proof.
  unfold runSimulation_settle, try_catch_finally.
  destruct ((data <- awaited o ;; displayResults data) p) as [p1 [[]|]];
    split; reflexivity.
Qed.

(** When [fetch] or [response.json()] rejects, the only writes are the
    console line, the alert and those of [finally]. *)
Lemma runSimulation_settle_rejected (o : outcome payload) (p : page) :
  match o with
  | Json _ => True
  | _ =>
      results_untouched p (fst (runSimulation_settle o p))
      /\ alerts (fst (runSimulation_settle o p))
         = alerts p ++ ["Simulation failed. Please try again."]
  end.
Proof.
  destruct o; [| |exact I]; (split; [|reflexivity]);
    (split; [|repeat split]);
    intros k Hk; unfold request_chrome in Hk;
    apply orb_false_elim in Hk; destruct Hk as [Hl Hb];
    cbv [runSimulation_settle try_catch_finally awaited bind modify throw ret
         fst snd set_prop set_btn_disabled add_alert add_console props];
    rewrite Hl, Hb; reflexivity.
Qed.

(** C9, amended: [runSimulation] hides the results panel when the request
    starts; however the request ends, the loading indicator is hidden and
    the button enabled again.  When the request failed because [fetch] or
    [response.json()] rejected, [displayResults] has not run: nothing of
    the results view was written (metric texts, probability bars, display
    flags, recommendations, chart instances and handles are those the page
    had when the request settled) and one failure alert was raised.  When a
    body was parsed, whatever it holds, the results panel is shown again
    and the texts are written in order up to the first of [avg_max_queue],
    [avg_waiting_time] and [traffic_level] that is missing, all of them
    when the three are present; what was written stays on the page whether
    [displayResults] then returns or throws; the recommendations are
    replaced when it returns and are as they were when it throws; and the
    failure alert is raised exactly when it throws. *)
Theorem C9_rejected_request_writes_no_result
    (parseInt parseFloat : string -> float) (f : form)
    (o : outcome payload) (p : page) :
  props (fst (runSimulation_send parseInt parseFloat f p)) (Display "results")
  = [Lit "none"]
  /\ props (fst (runSimulation_settle o p)) (Display "loading") = [Lit "none"]
  /\ btn_disabled (fst (runSimulation_settle o p)) = false
  /\ match o with
     | Json d =>
         props (fst (runSimulation_settle o p)) (Display "results") = [Lit "block"]
         /\ (forall k, request_chrome k = false ->
               props (fst (runSimulation_settle o p)) k
               = props (write_all (results_texts (host p) d) p) k)
         /\ Forall (fun kv => props (fst (runSimulation_settle o p)) (fst kv)
                              = snd kv)
                   (results_texts (host p) d)
         /\ recommendationsList (fst (runSimulation_settle o p))
            = (if renderable (host p) d then rendered d p
               else recommendationsList p)
         /\ alerts (fst (runSimulation_settle o p))
            = alerts p ++ (if renderable (host p) d then []
                           else ["Simulation failed. Please try again."])
     | _ =>
         results_untouched p (fst (runSimulation_settle o p))
         /\ alerts (fst (runSimulation_settle o p))
            = alerts p ++ ["Simulation failed. Please try again."]
     end.
Proof.
  destruct (runSimulation_settle_finally o p) as [Hloading Hbtn].
  split; [|split; [exact Hloading|split; [exact Hbtn|]]].
  - unfold runSimulation_send.
    destruct (String.eqb (scenarioSelect f) "custom"); reflexivity.
  - destruct o as [| |d];
      [exact (runSimulation_settle_rejected FetchRejected p)
      |exact (runSimulation_settle_rejected JsonRejected p)|].
    assert (Hprops : forall k, request_chrome k = false ->
              props (fst (runSimulation_settle (Json d) p)) k
              = props (write_all (results_texts (host p) d) p) k).
    { intros k Hk. unfold request_chrome in Hk.
      apply orb_false_elim in Hk. destruct Hk as [Hl Hb].
      rewrite runSimulation_settle_page, <- displayResults_props.
      cbn [props set_prop set_btn_disabled]. rewrite Hl, Hb.
      now destruct (renderable (host p) d). }
    pose proof (displayResults_frame d p) as Hframe.
    unfold outside_results in Hframe.
    injection Hframe as _ Halerts _ _ _ _ _ _.
    pose proof (write_all_texts (host p) d p) as Htexts.
    assert (Hkeys : Forall (fun kv => request_chrome (fst kv) = false)
                      (results_texts (host p) d)).
    { unfold results_texts, probability_writes.
      destruct (avg_max_queue d); [|repeat constructor].
      destruct (avg_waiting_time d); [|repeat constructor].
      destruct (traffic_level d); [|repeat constructor].
      destruct (width_taken _ _); destruct (width_taken _ _);
        destruct (width_taken _ _); repeat constructor. }
    split; [|split; [exact Hprops|split; [|split]]].
    + rewrite (Hprops (Display "results") eq_refl).
      apply (proj1 (Forall_forall _ _) Htexts (Display "results", [Lit "block"])).
      unfold results_texts. now left.
    + apply Forall_forall. intros kv Hin.
      rewrite (Hprops _ (proj1 (Forall_forall _ _) Hkeys kv Hin)).
      exact (proj1 (Forall_forall _ _) Htexts kv Hin).
    + rewrite runSimulation_settle_page, <- displayResults_list.
      now destruct (renderable (host p) d).
    + rewrite runSimulation_settle_page.
      destruct (renderable (host p) d);
        cbn [alerts set_prop set_btn_disabled add_alert add_console];
        rewrite Halerts, ?app_nil_r; reflexivity.
Qed.

(** C9 fails as stated: on a page that shows the results of a complete
    run, the button is clicked again and the response body has the metrics
    of another run but no [all_max_queues].  The request fails (the [try]
    block throws, the alert is raised) after [displayResults] has shown
    the results panel again, overwritten the metric cards and destroyed
    the histogram: the results view is neither what it was when the
    request started nor what the complete run had shown. *)
Lemma C9_incomplete_body_renders_partially :
  failed (Json incomplete_result) pending_page
  /\ failed_page = fst (runSimulation_settle (Json incomplete_result) pending_page)
  /\ alerts failed_page = ["Simulation failed. Please try again."]
  /\ props pending_page (Display "results") = [Lit "none"]
  /\ props failed_page (Display "results") = [Lit "block"]
  /\ props pending_page (TextContent "avgQueue") = [Fixed 42.5 1]
  /\ props failed_page (TextContent "avgQueue") = [Fixed 77 1]
  /\ props pending_page (TextContent "trafficLevel") = [Upper "moderate"]
  /\ props failed_page (TextContent "trafficLevel") = [Upper "severe"]
  /\ List.length (live_on "histogramChart" (charts pending_page)) = 1%nat
  /\ live_on "histogramChart" (charts failed_page) = []
  /\ ~ results_untouched pending_page failed_page
  /\ ~ results_untouched shown_page failed_page.
Proof.
  do 11 (split; [vm_compute; reflexivity|]).
  split; intros [Hprops _];
    specialize (Hprops (TextContent "avgQueue") eq_refl);
    apply (f_equal (fun t => match t with
                             | Fixed x _ :: _ => x <? 50
                             | _ => false
                             end)) in Hprops;
    vm_compute in Hprops; discriminate Hprops.
Qed.

(** ** What the disabled button does guarantee *)

Lemma count_in_flight_app (op : operation) (v : page)
    (l : list (operation * request)) (r : operation * request) :
  count_in_flight op {| view := v; in_flight := l ++ [r] |}
  = (count_in_flight op {| view := v; in_flight := l |}
     + match fst r, op with
       | Simulation, Simulation | Comparison, Comparison => 1
       | _, _ => 0
       end)%nat.
Proof.
  unfold count_in_flight. cbn [in_flight].
  rewrite filter_app, length_app. cbn [filter].
  destruct (fst r), op; reflexivity.
Qed.

Lemma count_in_flight_remove (op : operation) (v v' : page)
    (l : list (operation * request)) (i : nat) (r : operation * request) :
  nth_error l i = Some r ->
  (count_in_flight op {| view := v'; in_flight := remove_nth i l |}
   + match fst r, op with
     | Simulation, Simulation | Comparison, Comparison => 1
     | _, _ => 0
     end)%nat
  = count_in_flight op {| view := v; in_flight := l |}.
Proof.
  unfold count_in_flight. cbn [in_flight].
  revert i. induction l as [|x l IH]; intros [|i] H; try discriminate H.
  - injection H as ->. cbn [remove_nth filter].
    destruct (fst r), op; cbn [List.length]; lia.
  - cbn [remove_nth filter nth_error] in *. specialize (IH i H).
    destruct (fst x), op; cbn [List.length]; lia.
Qed.

Lemma displayComparison_keeps_button (data : mapping) (p : page) :
  btn_disabled (fst (displayComparison data p)) = btn_disabled p.
Proof.
  destruct p as [pr bd rl ch hc tc cc al co hb ma].
  destruct (comparison_html data) as [html|] eqn:E, cc as [id|];
    run_statements; rewrite E; reflexivity.
Qed.

Lemma compareScenarios_settle_keeps_button (o : outcome mapping) (p : page) :
  btn_disabled (fst (compareScenarios_settle o p)) = btn_disabled p.
Proof.
  unfold compareScenarios_settle, try_catch_finally.
  destruct o as [| |data]; try reflexivity.
  cbn [awaited]. unfold bind at 1. cbn [ret].
  pose proof (displayComparison_keeps_button data p) as H.
  destruct (displayComparison data p) as [p1 [[]|]]; exact H.
Qed.

Lemma step_keeps_button_tracking
    (parseInt parseFloat : string -> float) (w w' : world) (e : event) :
  button_tracks_simulation w ->
  step parseInt parseFloat w e = Some w' ->
  button_tracks_simulation w'.
Proof.
  unfold button_tracks_simulation. destruct w as [v l]. cbn [view].
  intros Hw Hstep. destruct e as [f|f|i o|i o]; cbn [step view in_flight] in Hstep.
  - destruct (btn_disabled v) eqn:Hb; [discriminate Hstep|].
    destruct (runSimulation_send parseInt parseFloat f v) as [p r] eqn:E.
    assert (Hp : btn_disabled p = true /\ r <> None).
    { revert E. unfold runSimulation_send.
      destruct (String.eqb (scenarioSelect f) "custom");
        intros [= <- <-]; split; (reflexivity || discriminate). }
    destruct Hp as [Hp Hr]. destruct r as [req|]; [|contradiction].
    injection Hstep as <-. cbn [view]. rewrite Hp, count_in_flight_app.
    change (count_in_flight Simulation {| view := p; in_flight := l |})
      with (count_in_flight Simulation {| view := v; in_flight := l |}).
    rewrite Hw. reflexivity.
  - destruct (compareScenarios_send parseInt f v) as [p r] eqn:E.
    revert E. unfold compareScenarios_send. intros [= <- <-].
    injection Hstep as <-. cbn [view]. rewrite count_in_flight_app.
    cbn [fst]. rewrite Nat.add_0_r. exact Hw.
  - destruct (nth_error l i) as [[[] req]|] eqn:E; try discriminate Hstep.
    injection Hstep as <-. cbn [view].
    destruct (runSimulation_settle_finally o v) as [_ ->].
    pose proof (count_in_flight_remove Simulation v
                  (fst (runSimulation_settle o v)) l i _ E) as H.
    cbn [fst] in H. destruct (btn_disabled v); lia.
  - destruct (nth_error l i) as [[[] req]|] eqn:E; try discriminate Hstep.
    injection Hstep as <-. cbn [view].
    rewrite compareScenarios_settle_keeps_button.
    pose proof (count_in_flight_remove Simulation v
                  (fst (compareScenarios_settle o v)) l i _ E) as H.
    cbn [fst] in H. rewrite Nat.add_0_r in H. now rewrite H.
Qed.

(** C3, amended: along every series of clicks and settled requests on
    the page as loaded, at most one [runSimulation] request is in flight at
    a time, the [.btn-primary] button being disabled from the start of the
    request until [finally] has run, on completion and on failure alike. *)
Theorem C3_simulation_requests_never_overlap {b : browser}
    (parseInt parseFloat : string -> float) (es : list event) (w : world) :
  run parseInt parseFloat (initial_world b) es = Some w ->
  (count_in_flight Simulation w <= 1)%nat.
Proof.
  assert (Hall : forall es w0 w,
             button_tracks_simulation w0 ->
             run parseInt parseFloat w0 es = Some w ->
             button_tracks_simulation w).
  { clear es w. induction es as [|e es IH]; intros w0 w H0 Hrun; simpl in Hrun.
    - now injection Hrun as <-.
    - destruct (step parseInt parseFloat w0 e) as [w1|] eqn:E; [|discriminate].
      apply (IH w1 w); [|exact Hrun].
      now apply (step_keeps_button_tracking parseInt parseFloat w0 w1 e). }
  intros Hrun. specialize (Hall es (initial_world b) w eq_refl Hrun).
  unfold button_tracks_simulation in Hall.
  destruct (btn_disabled (view w)); lia.
Qed.

Lemma C3_simulation_requests_never_overlap_witness :
  exists w,
    run parse_digits parse_digits loaded_world
      [ClickRun custom_form; ClickCompare custom_form;
       SettleSimulation 0 JsonRejected; ClickRun custom_form] = Some w
    /\ (count_in_flight Simulation w <= 1)%nat.
Proof.
  eexists. split; [vm_compute; reflexivity|].
  apply (C3_simulation_requests_never_overlap (b := a_browser)
           parse_digits parse_digits
           [ClickRun custom_form; ClickCompare custom_form;
            SettleSimulation 0 JsonRejected; ClickRun custom_form]).
  vm_compute. reflexivity.
Defined.

(** ** Worked examples *)

(** Eight samples: the sample 8.25, the maximum, is in no bin. *)
Example histogram_of_eight_samples :
  sum_counts (histogram (create_bins [1; 2; 3; 4; 5; 6; 7.5; 8.25])) = 7%nat.
Proof. vm_compute. reflexivity. Qed.

(** The optimized scenario has the shorter queue and still comes second. *)
Example two_scenarios_keep_their_order :
  option_map (fun html => map row_scenario (table_rows html))
             (comparison_html two_scenarios)
  = Some [Some "baseline"; Some "optimized"].
Proof. vm_compute. reflexivity. Qed.

(** A service rate of exactly 0.7 does not fire the service-rate rule. *)
Example service_rate_boundary :
  map title (recommendations
    {| avg_max_queue := Some 10; avg_waiting_time := Some 2;
       avg_service_rate := Some 0.7; avg_accidents_per_hour := Some 0;
       traffic_level := None; traffic_level_description := None;
       prob_light_traffic := None; prob_moderate_jam := None;
       prob_severe_jam := Some 0.01; all_max_queues := None;
       sample_queue_history := None |}) = [].
Proof. vm_compute. reflexivity. Qed.

(** While a simulation request is in flight a second click on the button
    is not delivered. *)
Example second_run_click_is_blocked :
  run parse_digits parse_digits loaded_world
    [ClickRun custom_form; ClickRun custom_form] = None.
Proof. vm_compute. reflexivity. Qed.

(** An error body without any expected property: the panel is shown again
    and nothing else of the view is written before [displayResults]
    throws. *)
Example error_body_shows_stale_panel :
  props (fst (runSimulation_settle
                (Json {| avg_max_queue := None; avg_waiting_time := None;
                         avg_service_rate := None; avg_accidents_per_hour := None;
                         traffic_level := None; traffic_level_description := None;
                         prob_light_traffic := None; prob_moderate_jam := None;
                         prob_severe_jam := None; all_max_queues := None;
                         sample_queue_history := None |})
                pending_page))
        (Display "results") = [Lit "block"]
  /\ props pending_page (Display "results") = [Lit "none"].
Proof. split; vm_compute; reflexivity. Qed.

(** * Further properties of the script *)

(** ** More on binary64 values *)

Lemma nan_add_l (y : float) : nan + y = nan.
Proof.
  apply Prim2SF_inj. rewrite add_spec.
  change (Prim2SF nan) with S754_nan. reflexivity.
Qed.

Lemma nan_add_r (x : float) : x + nan = nan.
Proof.
  apply Prim2SF_inj. rewrite add_spec.
  change (Prim2SF nan) with S754_nan. destruct (Prim2SF x); reflexivity.
Qed.

Lemma nan_mul_r (x : float) : x * nan = nan.
Proof.
  apply Prim2SF_inj. rewrite mul_spec.
  change (Prim2SF nan) with S754_nan. destruct (Prim2SF x); reflexivity.
Qed.

Lemma leb_nan_l (x : float) : (nan <=? x) = false.
Proof. rewrite leb_spec. change (Prim2SF nan) with S754_nan. reflexivity. Qed.

Lemma ltb_nan_r (x : float) : (x <? nan) = false.
Proof.
  rewrite ltb_spec. change (Prim2SF nan) with S754_nan.
  unfold SFltb. destruct (Prim2SF x); reflexivity.
Qed.

Lemma ltb_nan_l (x : float) : (nan <? x) = false.
Proof. rewrite ltb_spec. change (Prim2SF nan) with S754_nan. reflexivity. Qed.

(** Adding [+0] twice is adding it once. *)
Lemma add_zero_twice (m : float) : m + 0 + 0 = m + 0.
Proof.
  apply Prim2SF_inj. rewrite !add_spec.
  change (Prim2SF 0) with (S754_zero false).
  destruct (Prim2SF m) as [[|]|[|]| |s mm e]; reflexivity.
Qed.

(** [m - m] is [+0] for a finite [m] and NaN otherwise. *)
Lemma sub_self (m : float) : m - m = 0 \/ m - m = nan.
Proof.
  destruct (Prim2SF m) as [s|s| |s mm e] eqn:E.
  - left. apply Prim2SF_inj. rewrite sub_spec, E. destruct s; reflexivity.
  - right. apply Prim2SF_inj. rewrite sub_spec, E. destruct s; reflexivity.
  - right. apply Prim2SF_inj. rewrite sub_spec, E. reflexivity.
  - left. apply Prim2SF_inj. rewrite sub_spec, E.
    unfold SF64sub, SFsub. cbv zeta.
    rewrite Z.min_id. unfold shl_align. rewrite !Z.sub_diag. reflexivity.
Qed.

Lemma SFcompare_refl (x : spec_float) :
  SFcompare x x = Some Eq \/ x = S754_nan.
Proof.
  destruct x as [s|s| |s m e]; cbn [SFcompare]; auto; left.
  - destruct s; reflexivity.
  - rewrite Z.compare_refl, compare_cont_Eq, Pos.compare_refl.
    destruct s; reflexivity.
Qed.

Lemma ltb_irrefl (x : float) : (x <? x) = false.
Proof.
  rewrite ltb_spec. unfold SFltb.
  destruct (SFcompare_refl (Prim2SF x)) as [-> | ->]; reflexivity.
Qed.

(** A value that [x !== x] singles out is the NaN. *)
Lemma is_nan_true (x : float) : JS.is_nan x = true -> x = nan.
Proof.
  unfold JS.is_nan. rewrite FloatAxioms.eqb_spec. unfold SFeqb.
  destruct (SFcompare_refl (Prim2SF x)) as [-> | H]; [discriminate|].
  intros _. apply Prim2SF_inj. exact H.
Qed.

Lemma is_nan_false (x : float) : JS.is_nan x = false -> Prim2SF x <> S754_nan.
Proof.
  unfold JS.is_nan. rewrite FloatAxioms.eqb_spec. unfold SFeqb.
  intros H E. rewrite E in H. discriminate H.
Qed.

(** ** [Math.min] and [Math.max] on degenerate inputs *)

(** Once the running minimum is NaN it stays NaN. *)
Lemma min_step_nan (y : float) : JS.min_step nan y = nan.
Proof.
  unfold JS.min_step. destruct (JS.is_nan y); [reflexivity|].
  change (JS.is_pos_zero nan) with false. rewrite andb_false_r, ltb_nan_r.
  reflexivity.
Qed.

Lemma max_step_nan (y : float) : JS.max_step nan y = nan.
Proof.
  unfold JS.max_step. destruct (JS.is_nan y); [reflexivity|].
  change (JS.is_neg_zero nan) with false. rewrite andb_false_r, ltb_nan_l.
  reflexivity.
Qed.

Lemma fold_min_step_nan (l : list float) : fold_left JS.min_step l nan = nan.
Proof.
  induction l as [|y l IH]; [reflexivity|]. cbn [fold_left].
  now rewrite min_step_nan.
Qed.

Lemma fold_max_step_nan (l : list float) : fold_left JS.max_step l nan = nan.
Proof.
  induction l as [|y l IH]; [reflexivity|]. cbn [fold_left].
  now rewrite max_step_nan.
Qed.

(** [Math.min] of samples one of which is NaN is NaN. *)
Lemma Math_min_with_nan (data : list float) (x : float) :
  In x data -> JS.is_nan x = true -> JS.Math_min data = nan.
Proof.
  unfold JS.Math_min. generalize infinity.
  induction data as [|y data IH]; intros lowest Hin Hx; [contradiction|].
  cbn [fold_left]. destruct Hin as [->|Hin].
  - unfold JS.min_step at 2. rewrite Hx. apply fold_min_step_nan.
  - now apply IH.
Qed.

(** The value [Math.min] and [Math.max] give for samples that are all [x]. *)
Lemma min_step_same (x : float) :
  JS.is_nan x = false -> JS.min_step x x = x.
Proof.
  intros H. unfold JS.min_step. rewrite H, ltb_irrefl.
  unfold JS.is_neg_zero, JS.is_pos_zero. destruct (classify x); reflexivity.
Qed.

Lemma max_step_same (x : float) :
  JS.is_nan x = false -> JS.max_step x x = x.
Proof.
  intros H. unfold JS.max_step. rewrite H, ltb_irrefl.
  unfold JS.is_neg_zero, JS.is_pos_zero. destruct (classify x); reflexivity.
Qed.

Lemma min_step_first (x : float) :
  JS.is_nan x = false -> JS.min_step infinity x = x.
Proof.
  intros H. unfold JS.min_step. rewrite H.
  change (JS.is_pos_zero infinity) with false. rewrite andb_false_r.
  destruct (x <? infinity) eqn:E; [reflexivity|].
  apply Prim2SF_inj. apply is_nan_false in H.
  rewrite ltb_spec in E. change (Prim2SF infinity) with (S754_infinity false) in *.
  unfold SFltb in E.
  destruct (Prim2SF x) as [s|[|]| |s m e]; cbn [SFcompare] in E;
    try discriminate E; try reflexivity; congruence.
Qed.

Lemma max_step_first (x : float) :
  JS.is_nan x = false -> JS.max_step neg_infinity x = x.
Proof.
  intros H. unfold JS.max_step. rewrite H.
  change (JS.is_neg_zero neg_infinity) with false. rewrite andb_false_r.
  destruct (neg_infinity <? x) eqn:E; [reflexivity|].
  apply Prim2SF_inj. apply is_nan_false in H.
  rewrite ltb_spec in E.
  change (Prim2SF neg_infinity) with (S754_infinity true) in *.
  unfold SFltb in E.
  destruct (Prim2SF x) as [s|[|]| |s m e]; cbn [SFcompare] in E;
    try discriminate E; try reflexivity; congruence.
Qed.

Lemma Math_min_max_equal_samples (x : float) (n : nat) :
  JS.Math_min (repeat x (S n)) = JS.Math_max (repeat x (S n)).
Proof.
  unfold JS.Math_min, JS.Math_max. cbn [repeat fold_left].
  destruct (JS.is_nan x) eqn:H.
  - unfold JS.min_step at 2, JS.max_step at 2. rewrite H.
    now rewrite fold_min_step_nan, fold_max_step_nan.
  - rewrite (min_step_first x H), (max_step_first x H).
    induction n as [|n IH]; [reflexivity|]. cbn [repeat fold_left].
    now rewrite (min_step_same x H), (max_step_same x H).
Qed.

(** ** Histograms of degenerate inputs *)

Lemma array_set_zero (i k : nat) :
  array_set i 0%nat (repeat 0%nat k) = repeat 0%nat k.
Proof.
  revert i. induction k as [|k IH]; intros [|i]; cbn [repeat array_set];
    try reflexivity. now rewrite IH.
Qed.

Lemma binning_labels_length (data : list float) (min w : float) (idx : list nat)
    (st : binning_state) :
  List.length (labels (fold_left (binning_body data min w) idx st))
  = (List.length (labels st) + List.length idx)%nat.
Proof.
  revert st. induction idx as [|i idx IH]; intros st; cbn [fold_left List.length].
  - lia.
  - rewrite IH. cbn [binning_body labels]. rewrite length_app.
    cbn [List.length]. lia.
Qed.

(** When every bin of the loop counts nothing the histogram is all zeros. *)
Lemma binning_all_empty (data : list float) (min w : float) (idx : list nat)
    (st : binning_state) (k : nat) :
  (forall i, In i idx ->
     bin_count data (min + JS.counter i * w) (min + JS.counter i * w + w) = 0%nat) ->
  histogram st = repeat 0%nat k ->
  histogram (fold_left (binning_body data min w) idx st) = repeat 0%nat k.
Proof.
  revert st. induction idx as [|i idx IH]; intros st Hbins Hst; [exact Hst|].
  cbn [fold_left]. apply IH.
  - intros j Hj. apply Hbins. now right.
  - cbn [binning_body histogram]. rewrite (Hbins i (or_introl eq_refl)), Hst.
    apply array_set_zero.
Qed.

Lemma bin_count_nan_start (data : list float) (e : float) :
  bin_count data nan e = 0%nat.
Proof.
  unfold bin_count. induction data as [|x data IH]; [reflexivity|].
  cbn [filter]. now rewrite leb_nan_l.
Qed.

Lemma counter_times_zero (i : nat) :
  (i < bins)%nat -> JS.counter i * (0 / JS.counter bins) = 0.
Proof.
  intros H. unfold bins in H.
  do 20 (destruct i as [|i]; [vm_compute; reflexivity|]). lia.
Qed.

(** With [max] equal to [min] no bin counts anything. *)
Lemma zero_width_bins_are_empty (data : list float) (m : float) (i : nat) :
  (i < bins)%nat ->
  let w := (m - m) / JS.counter bins in
  bin_count data (m + JS.counter i * w) (m + JS.counter i * w + w) = 0%nat.
Proof.
  intros Hi w. subst w. destruct (sub_self m) as [-> | ->].
  - rewrite (counter_times_zero i Hi).
    change (0 / JS.counter bins) with 0.
    rewrite add_zero_twice. apply bin_count_empty_interval.
  - change (nan / JS.counter bins) with nan.
    rewrite nan_mul_r, nan_add_r. apply bin_count_nan_start.
Qed.

Lemma in_seq_bins (i : nat) : In i (seq 0 bins) -> (i < bins)%nat.
Proof. intros H. apply in_seq in H. lia. Qed.

(** Whenever [Math.max] and [Math.min] of the samples coincide, all twenty
    counts are 0. *)
Lemma flat_data_give_an_empty_histogram (data : list float) :
  JS.Math_min data = JS.Math_max data ->
  histogram (create_bins data) = repeat 0%nat bins.
Proof.
  intros H. unfold create_bins, binning. rewrite H.
  apply binning_all_empty; [|reflexivity].
  intros i Hi. apply (zero_width_bins_are_empty data _ i (in_seq_bins i Hi)).
Qed.

(** What a call that can spread its samples leaves: the handle on a new
    instance, the last of the list, with the bins of the samples.  A call
    that cannot spread them throws with the instance the handle referred
    to destroyed and nothing drawn. *)
Lemma createHistogram_draws (d : list float) (p : page) :
  (List.length d <=? max_arguments (host p))%nat = true ->
  snd (createHistogram (Some d) p) = Some tt
  /\ histogramChart (fst (createHistogram (Some d) p)) = Some (List.length (charts p))
  /\ nth_error (charts (fst (createHistogram (Some d) p))) (List.length (charts p))
     = Some (histogram_chart d).
Proof.
  intros H. rewrite createHistogram_run, H. cbv zeta.
  split; [reflexivity|]. split; [reflexivity|].
  destruct p as [pr bd rl ch hc tc cc al co hb ma].
  destruct hc as [old|]; run_statements;
    rewrite nth_error_app2, ?destroy_at_length, Nat.sub_diag
      by (rewrite ?destroy_at_length; lia);
    reflexivity.
Qed.

Lemma createHistogram_overflows (d : list float) (p : page) :
  (List.length d <=? max_arguments (host p))%nat = false ->
  snd (createHistogram (Some d) p) = None
  /\ histogramChart (fst (createHistogram (Some d) p)) = histogramChart p
  /\ charts (fst (createHistogram (Some d) p))
     = destroyed_only (histogramChart p) (charts p).
Proof.
  intros H. rewrite createHistogram_run, H. cbv zeta.
  destruct p as [pr bd rl ch hc tc cc al co hb ma].
  destruct hc as [old|]; repeat split.
Qed.

(** Samples that are all the same value, whichever value and however
    many the browser can spread, are counted in no bin: the histogram that
    is drawn is twenty zeros. *)
Theorem equal_samples_give_an_empty_histogram (x : float) (n : nat) (p : page) :
  (S n <= max_arguments (host p))%nat ->
  exists id c,
    histogramChart (fst (createHistogram (Some (repeat x (S n))) p)) = Some id
    /\ nth_error (charts (fst (createHistogram (Some (repeat x (S n))) p))) id
       = Some c
    /\ destroyed c = false
    /\ map ds_data (datasets c) = [Counts (repeat 0%nat 20)].
Proof.
  intros Hn.
  assert (H : (List.length (repeat x (S n)) <=? max_arguments (host p))%nat = true)
    by (rewrite repeat_length; now apply Nat.leb_le).
  destruct (createHistogram_draws _ p H) as (_ & Hid & Hc).
  exists (List.length (charts p)), (histogram_chart (repeat x (S n))).
  split; [exact Hid|]. split; [exact Hc|]. split; [reflexivity|].
  cbn [histogram_chart datasets map ds_data].
  now rewrite (flat_data_give_an_empty_histogram _ (Math_min_max_equal_samples x n)).
Qed.

Lemma equal_samples_give_an_empty_histogram_witness :
  exists id c,
    histogramChart (fst (createHistogram (Some [5; 5; 5]) loaded_page)) = Some id
    /\ nth_error (charts (fst (createHistogram (Some [5; 5; 5]) loaded_page))) id
       = Some c
    /\ destroyed c = false
    /\ map ds_data (datasets c) = [Counts (repeat 0%nat 20)].
Proof.
  apply (equal_samples_give_an_empty_histogram 5 2 loaded_page).
  cbn. lia.
Defined.

(** One NaN among samples the browser can spread empties the whole
    histogram: [Math.min] is NaN then, every bin starts at NaN, and no
    sample compares with it. *)
Theorem nan_sample_empties_the_histogram (data : list float) (x : float) (p : page) :
  (List.length data <= max_arguments (host p))%nat ->
  In x data -> JS.is_nan x = true ->
  exists id c,
    histogramChart (fst (createHistogram (Some data) p)) = Some id
    /\ nth_error (charts (fst (createHistogram (Some data) p))) id = Some c
    /\ destroyed c = false
    /\ map ds_data (datasets c) = [Counts (repeat 0%nat 20)].
Proof.
  intros Hlen Hin Hx. apply Nat.leb_le in Hlen.
  destruct (createHistogram_draws _ p Hlen) as (_ & Hid & Hc).
  exists (List.length (charts p)), (histogram_chart data).
  split; [exact Hid|]. split; [exact Hc|]. split; [reflexivity|].
  cbn [histogram_chart datasets map ds_data].
  unfold create_bins, binning. rewrite (Math_min_with_nan data x Hin Hx).
  rewrite binning_all_empty with (k := bins); [reflexivity| |reflexivity].
  intros i _. rewrite nan_add_l. apply bin_count_nan_start.
Qed.

Lemma nan_sample_empties_the_histogram_witness :
  exists id c,
    histogramChart (fst (createHistogram (Some [1; nan; 3]) loaded_page)) = Some id
    /\ nth_error (charts (fst (createHistogram (Some [1; nan; 3]) loaded_page))) id
       = Some c
    /\ destroyed c = false
    /\ map ds_data (datasets c) = [Counts (repeat 0%nat 20)].
Proof.
  apply (nan_sample_empties_the_histogram [1; nan; 3] nan loaded_page);
    [cbn; lia|right; left; reflexivity|reflexivity].
Defined.

(** For an array the browser can spread, the empty one included,
    [createHistogram] returns normally and leaves its handle on a live
    chart of the histogram canvas that has twenty labels and twenty
    counts.  For a longer array it throws at [Math.min(...data)]: the
    instance the handle referred to is destroyed by then and no instance
    is constructed. *)
Theorem createHistogram_draws_twenty_bins_or_throws (d : list float) (p : page) :
  if (List.length d <=? max_arguments (host p))%nat
  then snd (createHistogram (Some d) p) = Some tt
       /\ exists id c,
            histogramChart (fst (createHistogram (Some d) p)) = Some id
            /\ nth_error (charts (fst (createHistogram (Some d) p))) id = Some c
            /\ canvas c = "histogramChart"
            /\ destroyed c = false
            /\ List.length (chart_labels c) = 20%nat
            /\ exists counts,
                 map ds_data (datasets c) = [Counts counts]
                 /\ List.length counts = 20%nat
  else snd (createHistogram (Some d) p) = None
       /\ histogramChart (fst (createHistogram (Some d) p)) = histogramChart p
       /\ charts (fst (createHistogram (Some d) p))
          = destroyed_only (histogramChart p) (charts p).
Proof.
  destruct (List.length d <=? max_arguments (host p))%nat eqn:H;
    [|now apply createHistogram_overflows].
  destruct (createHistogram_draws d p H) as (Hret & Hid & Hc).
  split; [exact Hret|].
  exists (List.length (charts p)), (histogram_chart d).
  split; [exact Hid|]. split; [exact Hc|].
  split; [reflexivity|]. split; [reflexivity|]. split.
  - cbn [histogram_chart chart_labels]. unfold create_bins, binning.
    rewrite binning_labels_length. reflexivity.
  - eexists. split; [reflexivity|apply create_bins_length].
Qed.

(** ** The recommendation engine, continued *)

Lemma recommendations_at_most_five (d : payload) :
  (List.length (recommendations d) <= 5)%nat.
Proof.
  unfold recommendations.
  destruct (100 <? JS.to_number (avg_max_queue d));
    destruct (60 <? JS.to_number (avg_max_queue d));
    destruct (JS.to_number (avg_service_rate d) <? 0.7);
    destruct (10 <? JS.to_number (avg_waiting_time d));
    destruct (2 <? JS.to_number (avg_accidents_per_hour d));
    destruct (0.2 <? JS.to_number (prob_severe_jam d));
    cbn [app List.length]; lia.
Qed.

(** [generateRecommendations] never throws, whatever is missing from the
    payload; what it leaves in the container does not depend on what the
    container held before (nothing accumulates from run to run); and the
    container ends up with at least one and at most five nodes, the queue
    advice being one of its two variants at most. *)
Theorem recommendations_replace_the_container (d : payload) (p p' : page) :
  snd (generateRecommendations d p) = Some tt
  /\ rendered d p = rendered d p'
  /\ (1 <= List.length (rendered d p) <= 5)%nat.
Proof.
  split; [apply generateRecommendations_returns|].
  rewrite !rendered_recommendations. split; [reflexivity|].
  pose proof (recommendations_at_most_five d) as H.
  destruct (recommendations d) as [|r l]; [cbn [List.length]; lia|].
  rewrite length_map. cbn [List.length] in *. lia.
Qed.

(** A rule does not fire on a metric that is missing from the payload:
    the comparison is one with NaN.  With all five metrics missing the
    container shows the all-clear paragraph. *)
Theorem missing_metrics_fire_no_rule (d : payload) (p : page) :
  avg_max_queue d = None ->
  avg_service_rate d = None ->
  avg_waiting_time d = None ->
  avg_accidents_per_hour d = None ->
  prob_severe_jam d = None ->
  recommendations d = []
  /\ rendered d p = [RawHtml all_clear]
  /\ rendered d p
     = [RawHtml
          [Lit ("<p style=" ++ dquote ++ "color: #4CAF50; font-weight: 600;"
                ++ dquote
                ++ ">✅ No critical issues detected. Traffic flow is optimal.</p>")]].
Proof.
  intros Hq Hr Hw Ha Hj.
  assert (H : recommendations d = []).
  { unfold recommendations. rewrite Hq, Hr, Hw, Ha, Hj. reflexivity. }
  split; [exact H|]. rewrite rendered_recommendations, H. split; reflexivity.
Qed.

Lemma missing_metrics_fire_no_rule_witness :
  rendered
    {| avg_max_queue := None; avg_waiting_time := None;
       avg_service_rate := None; avg_accidents_per_hour := None;
       traffic_level := Some "light"; traffic_level_description := None;
       prob_light_traffic := None; prob_moderate_jam := None;
       prob_severe_jam := None; all_max_queues := None;
       sample_queue_history := None |} loaded_page
  = [RawHtml all_clear].
Proof.
  refine (proj1 (proj2 (missing_metrics_fire_no_rule
           {| avg_max_queue := None; avg_waiting_time := None;
              avg_service_rate := None; avg_accidents_per_hour := None;
              traffic_level := Some "light"; traffic_level_description := None;
              prob_light_traffic := None; prob_moderate_jam := None;
              prob_severe_jam := None; all_max_queues := None;
              sample_queue_history := None |} loaded_page _ _ _ _ _)));
    reflexivity.
Defined.

(** ** [displayResults], continued *)

(** [displayResults] returns normally exactly when the payload has
    [avg_max_queue], [avg_waiting_time], [traffic_level], [all_max_queues]
    and [sample_queue_history] and the browser can spread
    [all_max_queues]; any other property may be missing (its place shows
    NaN or undefined); with one of the five missing, or with more samples
    than the browser passes as arguments, it throws.  Either way it writes
    nothing outside the results view: the button, the alerts, the console,
    the loading indicator, the comparison panel, table and chart handle are
    as they were. *)
Theorem displayResults_returns_iff_renderable (d : payload) (p : page) :
  snd (displayResults d p) = (if renderable (host p) d then Some tt else None)
  /\ outside_results (fst (displayResults d p)) = outside_results p.
Proof.
  split; [apply displayResults_outcome|apply displayResults_frame].
Qed.

(** ** [runSimulation], continued *)

(** [updateProbability] always returns and always writes the percentage
    as the text of the value element.  The bar gets the percentage as its
    width when the browser takes it as one and keeps the width it had
    otherwise; a probability that is missing gives the text [NaN%] and
    leaves the bar as it was. *)
Theorem updateProbability_moves_the_bar_or_not
    (barId valueId : string) (v : option float) (p : page) :
  snd (updateProbability barId valueId v p) = Some tt
  /\ props (fst (updateProbability barId valueId v p)) (TextContent valueId)
     = [Fixed (JS.to_number v * 100) 1; Lit "%"]
  /\ props (fst (updateProbability barId valueId v p)) (Width barId)
     = (if width_taken (host p) (JS.to_number v * 100)
        then [Fixed (JS.to_number v * 100) 1; Lit "%"]
        else props p (Width barId))
  /\ props (fst (updateProbability barId valueId None p)) (TextContent valueId)
     = [Fixed nan 1; Lit "%"]
  /\ props (fst (updateProbability barId valueId None p)) (Width barId)
     = props p (Width barId).
Proof.
  rewrite !updateProbability_run. cbn [fst snd props set_prop key_eqb].
  rewrite String.eqb_refl. split; [reflexivity|]. split; [reflexivity|].
  split; [|split; reflexivity].
  destruct (width_taken (host p) (JS.to_number v * 100));
    cbn [props set_prop key_eqb]; rewrite ?String.eqb_refl; reflexivity.
Qed.

(** A response that [displayResults] can render is rendered in full: when
    [runSimulation] is done every metric card, every probability text and
    the recommendation list show the values of this response, each
    probability bar has the width of this response when the browser takes
    the percentage as a width and the width it had otherwise, the panel is
    visible, the loading indicator hidden, the button enabled with its
    label restored, and no alert was raised. *)
Theorem complete_response_is_rendered_in_full (d : payload) (p : page) :
  renderable (host p) d = true ->
  Forall (fun kv => props (fst (runSimulation_settle (Json d) p)) (fst kv) = snd kv)
         (results_texts (host p) d)
  /\ Forall (fun bar =>
               props (fst (runSimulation_settle (Json d) p)) (Width (fst bar))
               = if width_taken (host p) (JS.to_number (snd bar) * 100)
                 then [Fixed (JS.to_number (snd bar) * 100) 1; Lit "%"]
                 else props p (Width (fst bar)))
            [("probLight", prob_light_traffic d);
             ("probModerate", prob_moderate_jam d);
             ("probSevere", prob_severe_jam d)]
  /\ props (fst (runSimulation_settle (Json d) p)) (TextContent "avgQueue")
     = [Fixed (JS.to_number (avg_max_queue d)) 1]
  /\ recommendationsList (fst (runSimulation_settle (Json d) p)) = rendered d p
  /\ props (fst (runSimulation_settle (Json d) p)) (Display "loading") = [Lit "none"]
  /\ props (fst (runSimulation_settle (Json d) p)) (InnerHTML "btnText")
     = [Lit "▶ Run Simulation"]
  /\ btn_disabled (fst (runSimulation_settle (Json d) p)) = false
  /\ alerts (fst (runSimulation_settle (Json d) p)) = alerts p
  /\ console (fst (runSimulation_settle (Json d) p)) = console p.
Proof.
  intros H.
  assert (Hprops : forall k, request_chrome k = false ->
            props (fst (runSimulation_settle (Json d) p)) k
            = props (write_all (results_texts (host p) d) p) k).
  { intros k Hk. unfold request_chrome in Hk.
    apply orb_false_elim in Hk. destruct Hk as [Hl Hb].
    rewrite runSimulation_settle_page, H, <- displayResults_props.
    cbn [props set_prop set_btn_disabled]. now rewrite Hl, Hb. }
  pose proof (write_all_texts (host p) d p) as Htexts.
  pose proof (displayResults_frame d p) as Hframe.
  unfold outside_results in Hframe. injection Hframe as _ Halerts Hconsole _ _ _ _ _.
  assert (Hshape : exists q w lvl, avg_max_queue d = Some q
                     /\ avg_waiting_time d = Some w /\ traffic_level d = Some lvl).
  { unfold renderable in H.
    destruct (avg_max_queue d) as [q|]; [|discriminate].
    destruct (avg_waiting_time d) as [w|]; [|discriminate].
    destruct (traffic_level d) as [lvl|]; [|discriminate].
    now exists q, w, lvl. }
  destruct Hshape as (q & w & lvl & Eq & Ew & El).
  split; [|split; [|split; [|split; [|split; [|split; [|split; [|split]]]]]]].
  - apply Forall_forall. intros kv Hin.
    pose proof (proj1 (Forall_forall _ _) Htexts kv Hin) as Hkv.
    rewrite Hprops; [exact Hkv|].
    revert Hin. unfold results_texts, probability_writes. rewrite Eq, Ew, El.
    destruct (width_taken _ _); destruct (width_taken _ _);
      destruct (width_taken _ _); cbn [app In]; intros Hin;
      repeat (destruct Hin as [<-|Hin]; [reflexivity|]); contradiction.
  - repeat constructor; cbn [fst snd]; (rewrite Hprops; [|reflexivity]);
      unfold results_texts, probability_writes, write_all; rewrite Eq, Ew, El;
      destruct (width_taken (host p) (JS.to_number (prob_light_traffic d) * 100));
      destruct (width_taken (host p) (JS.to_number (prob_moderate_jam d) * 100));
      destruct (width_taken (host p) (JS.to_number (prob_severe_jam d) * 100));
      reflexivity.
  - rewrite Hprops by reflexivity.
    unfold results_texts, probability_writes, write_all. rewrite Eq, Ew, El.
    destruct (width_taken _ _); destruct (width_taken _ _);
      destruct (width_taken _ _); reflexivity.
  - rewrite runSimulation_settle_page, H.
    cbn [recommendationsList set_prop set_btn_disabled].
    now rewrite displayResults_list, H.
  - now rewrite runSimulation_settle_page.
  - now rewrite runSimulation_settle_page.
  - now rewrite runSimulation_settle_page.
  - rewrite runSimulation_settle_page, H. exact Halerts.
  - rewrite runSimulation_settle_page, H. exact Hconsole.
Qed.

Lemma complete_response_is_rendered_in_full_witness :
  renderable (host loaded_page) complete_result = true
  /\ props (fst (runSimulation_settle (Json complete_result) loaded_page))
           (TextContent "avgQueue") = [Fixed 42.5 1]
  /\ alerts (fst (runSimulation_settle (Json complete_result) loaded_page)) = [].
Proof.
  split; [reflexivity|].
  destruct (complete_response_is_rendered_in_full complete_result loaded_page eq_refl)
    as (_ & _ & Hqueue & _ & _ & _ & _ & Halerts & _).
  split; [exact Hqueue|exact Halerts].
Defined.

(** [runSimulation] raises its failure alert, and logs to the console,
    once for every request that fails and never for one that succeeds: it
    fails when [fetch] or [response.json()] rejects, when the body lacks
    one of the five properties [displayResults] needs, and when
    [all_max_queues] has more samples than the browser passes as
    arguments. *)
Theorem runSimulation_alerts_once_per_failure (o : outcome payload) (p : page) :
  alerts (fst (runSimulation_settle o p))
  = alerts p ++ (if succeeds (host p) o then []
                 else ["Simulation failed. Please try again."])
  /\ console (fst (runSimulation_settle o p))
     = console p ++ (if succeeds (host p) o then [] else ["Error:"]).
Proof.
  rewrite runSimulation_settle_page.
  destruct o as [| |d]; cbn [succeeds]; try (split; reflexivity).
  pose proof (displayResults_frame d p) as Hframe.
  unfold outside_results in Hframe. injection Hframe as _ Halerts Hconsole _ _ _ _ _.
  destruct (renderable (host p) d);
    cbn [alerts console set_prop set_btn_disabled add_alert add_console];
    rewrite Halerts, Hconsole, ?app_nil_r; split; reflexivity.
Qed.

(** For a preset scenario the request carries the selected name in its
    URL and the simulation count as its whole body: the values typed into
    the custom-parameter controls are not sent, and two forms that agree on
    the selection and the count send the same request. *)
Theorem preset_request_ignores_the_custom_fields
    (parseInt parseFloat : string -> float) (f f' : form) (p : page) :
  String.eqb (scenarioSelect f) "custom" = false ->
  scenarioSelect f' = scenarioSelect f ->
  simCount f' = simCount f ->
  snd (runSimulation_send parseInt parseFloat f p)
  = Some {| url := [Lit "/scenarios/"; Str (scenarioSelect f)];
            body := SimulationsBody (parseInt (simCount f)) |}
  /\ runSimulation_send parseInt parseFloat f' p
     = runSimulation_send parseInt parseFloat f p.
Proof.
  intros Hs Hsel Hcount.
  unfold runSimulation_send, getParameters. rewrite Hsel, Hcount, Hs.
  split; reflexivity.
Qed.

Lemma preset_request_ignores_the_custom_fields_witness :
  snd (runSimulation_send parse_digits parse_digits
         {| scenarioSelect := "baseline"; simCount := "500";
            rushMin := "1"; rushMax := "2"; normalMin := "3"; normalMax := "4";
            greenCapacity := "5"; accidentProb := "6"; rushDuration := "7" |}
         loaded_page)
  = Some {| url := [Lit "/scenarios/"; Str "baseline"];
            body := SimulationsBody (parse_digits "500") |}.
Proof.
  apply (preset_request_ignores_the_custom_fields parse_digits parse_digits
           {| scenarioSelect := "baseline"; simCount := "500";
              rushMin := "1"; rushMax := "2"; normalMin := "3"; normalMax := "4";
              greenCapacity := "5"; accidentProb := "6"; rushDuration := "7" |}
           {| scenarioSelect := "baseline"; simCount := "500";
              rushMin := "9"; rushMax := "9"; normalMin := "9"; normalMax := "9";
              greenCapacity := "9"; accidentProb := "9"; rushDuration := "9" |}
           loaded_page); reflexivity.
Defined.

(** ** The comparison view, continued *)

Lemma displayComparison_outcome (data : mapping) (p : page) :
  snd (displayComparison data p) = if forallb tabulable data then Some tt else None.
Proof.
  pose proof (comparison_html_outcome data) as H.
  destruct p as [pr bd rl ch hc tc cc al co hb ma].
  destruct (comparison_html data) as [html|] eqn:E, cc as [id|];
    rewrite H; run_statements; rewrite E; reflexivity.
Qed.

Lemma displayComparison_frame (data : mapping) (p : page) :
  outside_comparison (fst (displayComparison data p)) = outside_comparison p.
Proof.
  destruct p as [pr bd rl ch hc tc cc al co hb ma].
  destruct (comparison_html data) as [html|] eqn:E, cc as [id|];
    unfold displayComparison, createComparisonTable, bind, modify, get,
      new_Chart, destroy_existing, destroy, ret;
    cbn [comparisonChart set_prop]; rewrite E; reflexivity.
Qed.

Lemma compareScenarios_settle_page (o : outcome mapping) (p : page) :
  fst (compareScenarios_settle o p)
  = set_prop (Display "loading") [Lit "none"]
      (match o with
       | Json data =>
           if forallb tabulable data then fst (displayComparison data p)
           else add_alert "Comparison failed. Please try again."
                  (add_console "Error:" (fst (displayComparison data p)))
       | _ => add_alert "Comparison failed. Please try again."
                (add_console "Error:" p)
       end).
Proof.
  unfold compareScenarios_settle, try_catch_finally.
  destruct o as [| |data]; try reflexivity.
  cbn [awaited]. rewrite bind_ret.
  pose proof (displayComparison_outcome data p) as H.
  destruct (displayComparison data p) as [p1 r]. cbn [fst snd] in *.
  destruct (forallb tabulable data); subst r; reflexivity.
Qed.

(** [displayComparison] returns normally exactly when every entry of the
    response has [avg_max_queue] and [avg_waiting_time]; whether it returns
    or throws, it writes nothing outside the comparison view. *)
Theorem displayComparison_returns_iff_tabulable (data : mapping) (p : page) :
  snd (displayComparison data p)
  = (if forallb tabulable data then Some tt else None)
  /\ outside_comparison (fst (displayComparison data p)) = outside_comparison p.
Proof.
  split; [apply displayComparison_outcome|apply displayComparison_frame].
Qed.

(** When [compareScenarios] is done the loading indicator is hidden; its
    failure alert was raised once if the request failed ([fetch] or
    [response.json()] rejected, or an entry lacks a tabulated metric) and
    not at all otherwise; and the button, its label and everything a single
    run has rendered are as they were when the response arrived. *)
Theorem compareScenarios_settles_beside_the_results (o : outcome mapping) (p : page) :
  props (fst (compareScenarios_settle o p)) (Display "loading") = [Lit "none"]
  /\ alerts (fst (compareScenarios_settle o p))
     = alerts p ++ (if comparison_succeeds o then []
                    else ["Comparison failed. Please try again."])
  /\ btn_disabled (fst (compareScenarios_settle o p)) = btn_disabled p
  /\ props (fst (compareScenarios_settle o p)) (InnerHTML "btnText")
     = props p (InnerHTML "btnText")
  /\ results_content (fst (compareScenarios_settle o p)) = results_content p.
Proof.
  rewrite compareScenarios_settle_page.
  split; [reflexivity|].
  destruct o as [| |data]; cbn [comparison_succeeds];
    try (repeat split; reflexivity).
  pose proof (displayComparison_frame data p) as Hframe.
  pose proof (f_equal (fun x => fst (fst (fst (fst (fst x))))) Hframe) as Hbtn.
  pose proof (f_equal (fun x => snd (fst (fst (fst (fst x))))) Hframe) as Halerts.
  pose proof (f_equal (fun x => snd (fst x)) Hframe) as Hlabel.
  pose proof (f_equal snd Hframe) as Hresults.
  cbn [outside_comparison fst snd] in Hbtn, Halerts, Hlabel, Hresults.
  destruct (forallb tabulable data);
    cbn [alerts btn_disabled set_prop add_alert add_console];
    rewrite ?app_nil_r; (split; [now rewrite Halerts|]);
    (split; [exact Hbtn|]); (split; [exact Hlabel|]); exact Hresults.
Qed.

Lemma lookup_entry (data : mapping) (k : string) (v : payload) :
  NoDup (map fst data) -> In (k, v) data -> lookup data k = Some v.
Proof.
  induction data as [|[k0 v0] data IH]; intros Hnd Hin; [contradiction|].
  cbn [map fst] in Hnd. inversion Hnd as [|? ? Hnotin Hnd']; subst.
  cbn [lookup]. destruct Hin as [[= -> ->]|Hin].
  - now rewrite String.eqb_refl.
  - destruct (String.eqb k0 k) eqn:E; [|now apply IH].
    apply String.eqb_eq in E. subst k0. exfalso. apply Hnotin.
    apply (in_map fst) in Hin. exact Hin.
Qed.

Lemma column_of_entries (full entries : mapping) (field : payload -> option float) :
  (forall k v, In (k, v) entries -> lookup full k = Some v) ->
  column full (map fst entries) field = map (fun e => field (snd e)) entries.
Proof.
  unfold column. induction entries as [|[k v] entries IH]; intros H;
    [reflexivity|].
  cbn [map fst snd]. rewrite (H k v (or_introl eq_refl)). f_equal.
  apply IH. intros k' v' Hin. apply H. now right.
Qed.

(** In the comparison chart each bar stands over its own scenario: for a
    response (an object, so with distinct keys) the chart that
    [displayComparison] leaves has the keys as labels and, position by
    position, the [avg_max_queue] and [avg_waiting_time] of the entries as
    its two datasets; it is drawn even when the table function then
    throws. *)
Theorem comparison_bars_stand_over_their_scenarios (data : mapping) (p : page) :
  NoDup (map fst data) ->
  exists id c,
    comparisonChart (fst (displayComparison data p)) = Some id
    /\ nth_error (charts (fst (displayComparison data p))) id = Some c
    /\ destroyed c = false
    /\ chart_labels c = map (fun e => [Str (fst e)]) data
    /\ map ds_data (datasets c)
       = [Values (map (fun e => avg_max_queue (snd e)) data);
          Values (map (fun e => avg_waiting_time (snd e)) data)].
Proof.
  intros Hnd.
  assert (Hq := column_of_entries data data avg_max_queue
                  (fun k v => lookup_entry data k v Hnd)).
  assert (Hw := column_of_entries data data avg_waiting_time
                  (fun k v => lookup_entry data k v Hnd)).
  unfold displayComparison. rewrite Hq, Hw, map_map.
  destruct p as [pr bd rl ch hc tc cc al co hb ma].
  destruct (comparison_html data) as [html|] eqn:E, cc as [old|];
    run_statements; rewrite E; cbv iota beta;
    eexists; eexists; (split; [reflexivity|]);
    rewrite nth_error_app2, Nat.sub_diag by lia; cbn [nth_error];
    repeat split.
Qed.

Lemma comparison_bars_stand_over_their_scenarios_witness :
  NoDup (map fst two_scenarios)
  /\ exists id c,
       comparisonChart (fst (displayComparison two_scenarios loaded_page)) = Some id
       /\ nth_error (charts (fst (displayComparison two_scenarios loaded_page))) id
          = Some c
       /\ destroyed c = false
       /\ chart_labels c = [[Str "baseline"]; [Str "optimized"]].
Proof.
  assert (Hnd : NoDup (map fst two_scenarios)).
  { repeat constructor; cbn [In map fst two_scenarios]; intuition discriminate. }
  split; [exact Hnd|].
  destruct (comparison_bars_stand_over_their_scenarios two_scenarios loaded_page Hnd)
    as (id & c & H1 & H2 & H3 & H4 & _).
  exists id, c. repeat split; assumption.
Defined.

(** ** Exactly one live chart *)

Lemma live_on_app (cv : string) (l1 l2 : list chart) :
  live_on cv (l1 ++ l2) = live_on cv l1 ++ live_on cv l2.
Proof. apply filter_app. Qed.

Lemma dead_on_tail (cv : string) (c : chart) (l : list chart) :
  dead_on cv (c :: l) -> dead_on cv l.
Proof. intros H i c' Hc'. exact (H (S i) c' Hc'). Qed.

Lemma dead_on_live_on (cv : string) (l : list chart) :
  dead_on cv l -> live_on cv l = [].
Proof.
  induction l as [|c l IH]; intros H; [reflexivity|].
  unfold live_on in *. cbn [filter].
  destruct (String.eqb (canvas c) cv) eqn:E; cbn [andb].
  - apply String.eqb_eq in E. rewrite (H 0%nat c eq_refl E). cbn [negb].
    apply IH. now apply dead_on_tail with (c := c).
  - apply IH. now apply dead_on_tail with (c := c).
Qed.

Lemma live_on_destroy_at_other (cv : string) (id : nat) (l : list chart) :
  (forall c, nth_error l id = Some c -> canvas c <> cv) ->
  live_on cv (destroy_at id l) = live_on cv l.
Proof.
  revert id. induction l as [|x l IH]; intros [|id] H; try reflexivity.
  - cbn [destroy_at]. unfold live_on. cbn [filter mark_destroyed canvas].
    assert (E : String.eqb (canvas x) cv = false)
      by (apply String.eqb_neq; now apply H).
    now rewrite E.
  - cbn [destroy_at]. unfold live_on in *. cbn [filter].
    rewrite (IH id); [reflexivity|]. intros c Hc. now apply (H c).
Qed.

Lemma live_on_destroyed_only_other (cv cv' : string) (h : option nat)
    (l : list chart) :
  slot_ok cv h l -> cv <> cv' ->
  live_on cv' (destroyed_only h l) = live_on cv' l.
Proof.
  intros [Href _] Hne. destruct h as [id|]; [|reflexivity].
  apply live_on_destroy_at_other. intros c Hc.
  destruct (Href id eq_refl) as (c0 & Hc0 & Hcv). congruence.
Qed.

Lemma live_on_replaced_other (cv cv' : string) (h : option nat) (c : chart)
    (l : list chart) :
  slot_ok cv h l -> canvas c = cv -> cv <> cv' ->
  live_on cv' (replaced h c l) = live_on cv' l.
Proof.
  intros Hok Hc Hne. unfold replaced. fold (destroyed_only h l).
  rewrite live_on_app, (live_on_destroyed_only_other cv cv' h l Hok Hne).
  unfold live_on at 2. cbn [filter].
  assert (E : String.eqb (canvas c) cv' = false)
    by (apply String.eqb_neq; congruence).
  rewrite E. apply app_nil_r.
Qed.

Lemma live_on_replaced_own (cv : string) (h : option nat) (c : chart)
    (l : list chart) :
  slot_ok cv h l -> canvas c = cv -> destroyed c = false ->
  live_on cv (replaced h c l) = [c].
Proof.
  intros Hok Hc Hd. unfold replaced. rewrite live_on_app.
  assert (Hdead : dead_on cv match h with Some id => destroy_at id l | None => l end)
    by (destruct h; [now apply dead_after_destroy|now apply dead_without_handle]).
  rewrite (dead_on_live_on _ _ Hdead). unfold live_on. cbn [filter app].
  rewrite <- Hc, String.eqb_refl, Hd. reflexivity.
Qed.

Lemma createHistogram_replaces (d : list float) (p : page) :
  (List.length d <=? max_arguments (host p))%nat = true ->
  charts (fst (createHistogram (Some d) p))
  = replaced (histogramChart p) (histogram_chart d) (charts p).
Proof.
  intros H. rewrite createHistogram_run, H.
  destruct p as [pr bd rl ch hc tc cc al co hb ma]. now destruct hc.
Qed.

Lemma createTimeSeries_replaces (d : list float) (p : page) :
  charts (fst (createTimeSeries (Some d) p))
  = replaced (timeSeriesChart p) (time_series_chart d) (charts p).
Proof.
  rewrite createTimeSeries_run.
  destruct p as [pr bd rl ch hc tc cc al co hb ma]. now destruct tc.
Qed.

Lemma displayComparison_replaces (data : mapping) (p : page) :
  charts (fst (displayComparison data p))
  = replaced (comparisonChart p) (comparison_chart data) (charts p).
Proof.
  rewrite displayComparison_run.
  destruct p as [pr bd rl ch hc tc cc al co hb ma].
  destruct (comparison_html data) as [html|], cc as [old|]; reflexivity.
Qed.

Lemma chart_state_generateRecommendations (d : payload) (p : page) :
  chart_state (fst (generateRecommendations d p)) = chart_state p.
Proof.
  unfold generateRecommendations, bind, modify.
  destruct (recommendations d); cbn [fst]; [reflexivity|].
  now rewrite chart_state_fold_appendChild.
Qed.

Lemma charts_ok_write_all (writes : list (key * tokens)) (p : page) :
  chart_state (write_all writes p) = chart_state p.
Proof.
  unfold write_all. revert p.
  induction writes as [|kv writes IH]; intros p; cbn [fold_left]; [reflexivity|].
  now rewrite IH.
Qed.

(** On a page whose slots are in order (every page the script reaches is),
    a run of [displayResults] that returns leaves exactly one live chart on
    the histogram canvas and exactly one on the time-series canvas, and
    does not change which charts are live on the comparison canvas. *)
Theorem displayResults_leaves_one_chart_per_result_slot (d : payload) (p : page) :
  charts_ok p -> renderable (host p) d = true ->
  one_live_chart HistogramSlot (fst (displayResults d p))
  /\ one_live_chart TimeSeriesSlot (fst (displayResults d p))
  /\ live_on "comparisonChart" (charts (fst (displayResults d p)))
     = live_on "comparisonChart" (charts p).
Proof.
  intros Hok Hd. rewrite (displayResults_page d p Hd).
  unfold renderable in Hd.
  destruct (avg_max_queue d), (avg_waiting_time d), (traffic_level d);
    try discriminate Hd.
  destruct (all_max_queues d) as [amq|]; [|discriminate Hd].
  destruct (sample_queue_history d) as [sqh|]; [|discriminate Hd].
  set (p0 := write_all (results_texts (host p) _) p).
  assert (Hstate0 : chart_state p0 = chart_state p) by apply charts_ok_write_all.
  assert (Hok0 : charts_ok p0) by now apply (charts_ok_chart_state p p0).
  set (p1 := fst (createHistogram (Some amq) p0)).
  assert (Hok1 : charts_ok p1) by now apply charts_ok_createHistogram.
  assert (Hfits : (List.length amq <=? max_arguments (host p0))%nat = true)
    by (unfold p0; now rewrite host_write_all).
  pose proof (createHistogram_replaces amq p0 Hfits) as Hcharts1.
  pose proof (createTimeSeries_replaces sqh p1) as Hcharts2.
  fold p1 in Hcharts1.
  set (c1 := histogram_chart amq) in *. set (c2 := time_series_chart sqh) in *.
  assert (Hc1 : canvas c1 = "histogramChart") by reflexivity.
  assert (Hd1 : destroyed c1 = false) by reflexivity.
  assert (Hc2 : canvas c2 = "timeSeriesChart") by reflexivity.
  assert (Hd2 : destroyed c2 = false) by reflexivity.
  set (p2 := fst (createTimeSeries (Some sqh) p1)) in *.
  assert (Hstate3 := chart_state_generateRecommendations d p2).
  assert (Hcharts3 : charts (fst (generateRecommendations d p2)) = charts p2)
    by exact (f_equal (fun x => fst (fst (fst x))) Hstate3).
  unfold one_live_chart. rewrite Hcharts3, Hcharts2. cbn [slot_canvas].
  assert (Hp0 : charts p0 = charts p)
    by exact (f_equal (fun x => fst (fst (fst x))) Hstate0).
  pose proof (Hok0 HistogramSlot) as Hh. pose proof (Hok1 TimeSeriesSlot) as Ht.
  cbn [slot_canvas slot_handle] in Hh, Ht.
  split; [|split].
  - rewrite (live_on_replaced_other "timeSeriesChart" "histogramChart" _ c2 _
               Ht Hc2 ltac:(discriminate)).
    rewrite Hcharts1.
    now rewrite (live_on_replaced_own "histogramChart" _ c1 _ Hh Hc1 Hd1).
  - now rewrite (live_on_replaced_own "timeSeriesChart" _ c2 _ Ht Hc2 Hd2).
  - rewrite (live_on_replaced_other "timeSeriesChart" "comparisonChart" _ c2 _
               Ht Hc2 ltac:(discriminate)).
    rewrite Hcharts1.
    rewrite (live_on_replaced_other "histogramChart" "comparisonChart" _ c1 _
               Hh Hc1 ltac:(discriminate)).
    now rewrite Hp0.
Qed.

Lemma displayResults_leaves_one_chart_per_result_slot_witness :
  charts_ok loaded_page /\ renderable (host loaded_page) complete_result = true
  /\ one_live_chart HistogramSlot (fst (displayResults complete_result loaded_page))
  /\ one_live_chart TimeSeriesSlot (fst (displayResults complete_result loaded_page)).
Proof.
  split; [exact charts_ok_initial|]. split; [reflexivity|].
  destruct (displayResults_leaves_one_chart_per_result_slot
              complete_result loaded_page charts_ok_initial eq_refl)
    as (H1 & H2 & _).
  split; assumption.
Defined.

(** A response with more samples in [all_max_queues] than the browser
    passes as arguments fails the request after the texts are written:
    [Math.min(...data)] throws when the histogram is already destroyed, so
    no histogram is live any more, the time-series chart and the
    recommendations are those of the run before, and the failure alert is
    raised. *)
Theorem too_many_samples_fail_the_request
    (d : payload) (queues : list float) (p : page) :
  charts_ok p ->
  avg_max_queue d <> None -> avg_waiting_time d <> None ->
  traffic_level d <> None ->
  all_max_queues d = Some queues ->
  (max_arguments (host p) < List.length queues)%nat ->
  alerts (fst (runSimulation_settle (Json d) p))
  = alerts p ++ ["Simulation failed. Please try again."]
  /\ Forall (fun kv => props (fst (runSimulation_settle (Json d) p)) (fst kv)
                       = snd kv)
            (results_texts (host p) d)
  /\ live_on "histogramChart" (charts (fst (runSimulation_settle (Json d) p))) = []
  /\ live_on "timeSeriesChart" (charts (fst (runSimulation_settle (Json d) p)))
     = live_on "timeSeriesChart" (charts p)
  /\ timeSeriesChart (fst (runSimulation_settle (Json d) p)) = timeSeriesChart p
  /\ recommendationsList (fst (runSimulation_settle (Json d) p))
     = recommendationsList p.
Proof.
  intros Hok Hq Hw Hl Hqueues Hlong.
  assert (Hfits : (List.length queues <=? max_arguments (host p))%nat = false)
    by (apply Nat.leb_gt; exact Hlong).
  assert (Hr : renderable (host p) d = false).
  { unfold renderable. rewrite Hqueues, Hfits.
    destruct (avg_max_queue d), (avg_waiting_time d), (traffic_level d),
      (sample_queue_history d); reflexivity. }
  pose proof (displayResults_frame d p) as Hframe.
  unfold outside_results in Hframe. injection Hframe as _ Halerts _ _ _ _ _ _.
  assert (Hpage : fst (displayResults d p)
                  = fst (createHistogram (Some queues)
                           (write_all (results_texts (host p) d) p))).
  { rewrite displayResults_run.
    destruct (avg_max_queue d); [|contradiction].
    destruct (avg_waiting_time d); [|contradiction].
    destruct (traffic_level d); [|contradiction].
    unfold charts_and_advice. rewrite Hqueues.
    rewrite bind_throws; [reflexivity|].
    now rewrite createHistogram_outcome, host_write_all, Hfits. }
  set (p0 := write_all (results_texts (host p) d) p) in *.
  assert (Hstate0 : chart_state p0 = chart_state p) by apply charts_ok_write_all.
  assert (Hok0 : charts_ok p0) by now apply (charts_ok_chart_state p p0).
  assert (Hfits0 : (List.length queues <=? max_arguments (host p0))%nat = false)
    by (unfold p0; now rewrite host_write_all).
  destruct (createHistogram_overflows queues p0 Hfits0) as (_ & _ & Hcharts).
  destruct (createHistogram_beside (Some queues) p0) as (Hbeside & Htime & _).
  unfold chart_state in Hstate0. injection Hstate0 as Hc0 Hh0 Ht0 _.
  rewrite runSimulation_settle_page, Hr.
  cbn [alerts charts timeSeriesChart recommendationsList props
       set_prop set_btn_disabled add_alert add_console].
  rewrite Halerts, Hpage, Hcharts, Htime, Hc0, Hh0, Ht0.
  split; [reflexivity|]. split; [|split; [|split; [|split; [reflexivity|]]]].
  - apply Forall_forall. intros kv Hin.
    assert (Hk : request_chrome (fst kv) = false).
    { revert Hin. unfold results_texts, probability_writes.
      destruct (avg_max_queue d); [|contradiction].
      destruct (avg_waiting_time d); [|contradiction].
      destruct (traffic_level d); [|contradiction].
      destruct (width_taken _ _); destruct (width_taken _ _);
        destruct (width_taken _ _); cbn [app In]; intros Hin;
        repeat (destruct Hin as [<-|Hin]; [reflexivity|]); contradiction. }
    unfold request_chrome in Hk. apply orb_false_elim in Hk.
    destruct Hk as [Hk1 Hk2]. rewrite Hk1, Hk2.
    rewrite props_createHistogram.
    exact (proj1 (Forall_forall _ _) (write_all_texts (host p) d p) kv Hin).
  - pose proof (Hok HistogramSlot) as Hslot. cbn [slot_canvas slot_handle] in Hslot.
    apply dead_on_live_on. unfold destroyed_only.
    destruct (histogramChart p) as [id|];
      [now apply dead_after_destroy|now apply dead_without_handle].
  - pose proof (Hok HistogramSlot) as Hslot. cbn [slot_canvas slot_handle] in Hslot.
    apply (live_on_destroyed_only_other "histogramChart" "timeSeriesChart" _ _ Hslot).
    discriminate.
  - apply (f_equal (fun t => snd (fst (fst (fst t))))) in Hbeside.
    cbn [beside_charts fst snd] in Hbeside. rewrite Hbeside.
    apply recommendationsList_write_all.
Qed.

Lemma too_many_samples_fail_the_request_witness :
  alerts (fst (runSimulation_settle (Json complete_result)
                 (initial_page a_small_browser)))
  = ["Simulation failed. Please try again."]
  /\ live_on "histogramChart"
       (charts (fst (runSimulation_settle (Json complete_result)
                       (initial_page a_small_browser)))) = [].
Proof.
  destruct (too_many_samples_fail_the_request complete_result [40; 45; 42.5]
              (initial_page a_small_browser))
    as (Halerts & _ & Hlive & _);
    [exact charts_ok_initial|discriminate|discriminate|discriminate|reflexivity
    |cbn; lia|].
  split; [exact Halerts|exact Hlive].
Defined.

(** On a page whose slots are in order, [displayComparison] leaves exactly
    one live chart on the comparison canvas, whether its table function
    then throws or not, and does not change which charts are live on the
    histogram and time-series canvases. *)
Theorem displayComparison_leaves_one_comparison_chart (data : mapping) (p : page) :
  charts_ok p ->
  one_live_chart ComparisonSlot (fst (displayComparison data p))
  /\ live_on "histogramChart" (charts (fst (displayComparison data p)))
     = live_on "histogramChart" (charts p)
  /\ live_on "timeSeriesChart" (charts (fst (displayComparison data p)))
     = live_on "timeSeriesChart" (charts p).
Proof.
  intros Hok.
  pose proof (displayComparison_replaces data p) as Hcharts.
  set (c := comparison_chart data) in *.
  assert (Hc : canvas c = "comparisonChart") by reflexivity.
  assert (Hd : destroyed c = false) by reflexivity.
  unfold one_live_chart. rewrite Hcharts. cbn [slot_canvas].
  pose proof (Hok ComparisonSlot) as Hm. cbn [slot_canvas slot_handle] in Hm.
  split; [|split].
  - now rewrite (live_on_replaced_own "comparisonChart" _ c _ Hm Hc Hd).
  - apply (live_on_replaced_other "comparisonChart" "histogramChart" _ c _ Hm Hc).
    discriminate.
  - apply (live_on_replaced_other "comparisonChart" "timeSeriesChart" _ c _ Hm Hc).
    discriminate.
Qed.

Lemma displayComparison_leaves_one_comparison_chart_witness :
  charts_ok loaded_page
  /\ one_live_chart ComparisonSlot (fst (displayComparison two_scenarios loaded_page)).
Proof.
  split; [exact charts_ok_initial|].
  apply (displayComparison_leaves_one_comparison_chart two_scenarios loaded_page
           charts_ok_initial).
Defined.

(** * The advanced features *)

(** ** The replaced [displayResults] and the export buttons *)

Lemma or_else_not_empty (a : option string) (b : string) :
  b <> "" -> or_else a b <> "".
Proof.
  intros Hb. unfold or_else. destruct a as [s|]; [|exact Hb].
  destruct (String.eqb s "") eqn:E; [exact Hb|].
  now apply String.eqb_neq.
Qed.

Lemma displayResults_with_export_result (data : response) (a : document) :
  displayResults_with_export data a
  = let a1 := set_dashboard (fst (displayResults (result data) (dashboard a)))
                (set_current (Some data)
                   (Some (or_else (scenario_name data) "simulation")) a) in
    if renderable (host (dashboard a)) (result data) then
      (match exportButtons a with
       | [] => set_exportButtons [export_buttons_html] a1
       | _ => a1
       end, Some tt)
    else (a1, None).
Proof.
  unfold displayResults_with_export, dbind, dmodify, on_page.
  cbn [dashboard set_current].
  pose proof (displayResults_outcome (result data) (dashboard a)) as H.
  destruct (displayResults (result data) (dashboard a)) as [p r].
  cbn [fst snd] in *. subst r.
  destruct (renderable (host (dashboard a)) (result data)); [|reflexivity].
  cbn [exportButtons set_dashboard set_current].
  destruct (exportButtons a); reflexivity.
Qed.

Lemma export_globals_after_display (data : response) (a : document) :
  currentResult (fst (displayResults_with_export data a)) = Some data
  /\ currentScenarioName (fst (displayResults_with_export data a))
     = Some (or_else (scenario_name data) "simulation")
  /\ or_else (scenario_name data) "simulation" <> ""
  /\ (or_else (scenario_name data) "simulation" = "simulation"
      \/ scenario_name data = Some (or_else (scenario_name data) "simulation")).
Proof.
  rewrite displayResults_with_export_result. cbv zeta.
  split; [|split; [|split]].
  - destruct (renderable (host (dashboard a)) (result data));
      [destruct (exportButtons a)|]; reflexivity.
  - destruct (renderable (host (dashboard a)) (result data));
      [destruct (exportButtons a)|]; reflexivity.
  - apply or_else_not_empty. discriminate.
  - unfold or_else. destruct (scenario_name data) as [s|]; [|now left].
    destruct (String.eqb s ""); [now left|now right].
Qed.

(** The block of export buttons is added by the first display that
    returns normally and by no other: a display adds it when it returns
    normally and no block exists yet, and leaves the blocks as they are
    otherwise. *)
Lemma export_buttons_after_display (data : response) (a : document) :
  exportButtons (fst (displayResults_with_export data a))
  = match exportButtons a with
    | [] => if renderable (host (dashboard a)) (result data)
            then [export_buttons_html] else []
    | blocks => blocks
    end.
Proof.
  rewrite displayResults_with_export_result. cbv zeta.
  destruct (renderable (host (dashboard a)) (result data));
    destruct (exportButtons a) eqn:E;
    cbn [fst exportButtons set_exportButtons set_dashboard set_current];
    rewrite ?E; reflexivity.
Qed.

(** *** Statements that keep a property of the application *)

Lemma dpreserves_bind {A B : Type} (P : document -> Prop) (c : D A) (k : A -> D B) :
  dpreserves P c -> (forall x, dpreserves P (k x)) -> dpreserves P (dbind c k).
Proof.
  intros Hc Hk a Ha. unfold dbind.
  specialize (Hc a Ha). destruct (c a) as [a' [x|]]; cbn [fst] in *.
  - now apply Hk.
  - exact Hc.
Qed.

Lemma dpreserves_ret {A : Type} (P : document -> Prop) (x : A) :
  dpreserves P (dret x).
Proof. intros a Ha. exact Ha. Qed.

Lemma dpreserves_throw {A : Type} (P : document -> Prop) :
  dpreserves P (@dthrow A).
Proof. intros a Ha. exact Ha. Qed.

Lemma dpreserves_defined {A : Type} (P : document -> Prop) (v : option A) :
  dpreserves P (ddefined v).
Proof. intros a Ha. destruct v; exact Ha. Qed.

Lemma dpreserves_awaited {A : Type} (P : document -> Prop) (o : outcome A) :
  dpreserves P (dawaited o).
Proof. intros a Ha. destruct o; exact Ha. Qed.

Lemma dpreserves_modify (P : document -> Prop) (f : document -> document) :
  (forall a, P a -> P (f a)) -> dpreserves P (dmodify f).
Proof. intros H a Ha. now apply H. Qed.

Lemma dpreserves_try_catch (P : document -> Prop) (body handler : D unit) :
  dpreserves P body -> dpreserves P handler ->
  dpreserves P (try_catch body handler).
Proof.
  intros Hb Hh a Ha. unfold try_catch.
  specialize (Hb a Ha). destruct (body a) as [a' [[]|]]; cbn [fst] in *.
  - exact Hb.
  - now apply Hh.
Qed.

Lemma dpreserves_try_catch_finally (P : document -> Prop)
    (body handler finalizer : D unit) :
  dpreserves P body -> dpreserves P handler -> dpreserves P finalizer ->
  dpreserves P (dtry_catch_finally body handler finalizer).
Proof.
  intros Hb Hh Hf a Ha. unfold dtry_catch_finally.
  pose proof (dpreserves_try_catch P body handler Hb Hh a Ha) as H.
  destruct (try_catch body handler a) as [a1 r1]. cbn [fst] in H.
  specialize (Hf a1 H). destruct (finalizer a1) as [a2 r2]. exact Hf.
Qed.

Lemma beside_page_on_page {A : Type} (c : M A) (a : document) :
  beside_page (fst (on_page c a)) = beside_page a.
Proof.
  unfold on_page. destruct (c (dashboard a)) as [p r]. reflexivity.
Qed.

(** A property that only reads what lies beside the page is kept by every
    statement on the page. *)
Lemma dpreserves_on_page {A : Type} (P : document -> Prop) (c : M A) :
  (forall a a', beside_page a' = beside_page a -> P a -> P a') ->
  dpreserves P (on_page c).
Proof.
  intros H a Ha. apply (H a); [apply beside_page_on_page|exact Ha].
Qed.

Lemma dpreserves_report (P : document -> Prop) (label msg : string) :
  (forall a a', beside_page a' = beside_page a -> P a -> P a') ->
  dpreserves P (report label msg).
Proof.
  intros H. unfold report.
  apply dpreserves_bind; [|intros _]; now apply dpreserves_on_page.
Qed.

Lemma export_ready_ext (a a' : document) :
  exportButtons a' = exportButtons a ->
  currentScenarioName a' = currentScenarioName a ->
  downloads a' = downloads a ->
  export_ready a -> export_ready a'.
Proof.
  unfold export_ready. intros Hb Hn Hd. now rewrite Hb, Hn, Hd.
Qed.

Lemma export_ready_beside_page (a a' : document) :
  beside_page a' = beside_page a -> export_ready a -> export_ready a'.
Proof.
  unfold beside_page. intros [= _ Hb _ Hn Hd].
  now apply export_ready_ext.
Qed.

Lemma export_ready_display (data : response) :
  dpreserves export_ready (displayResults_with_export data).
Proof.
  intros a (Hname & Hlen & Hdl).
  pose proof (export_buttons_after_display data a) as Hb.
  pose proof (export_globals_after_display data a) as (_ & Hn & Hne & _).
  assert (Hd : downloads (fst (displayResults_with_export data a)) = downloads a).
  { rewrite displayResults_with_export_result. cbv zeta.
    destruct (renderable (host (dashboard a)) (result data));
      [destruct (exportButtons a)|];
      reflexivity. }
  unfold export_ready. rewrite Hb, Hn, Hd. split; [|split; [|exact Hdl]].
  - right. eexists. split; [reflexivity|exact Hne].
  - destruct (exportButtons a); [|exact Hlen].
    destruct (renderable (host (dashboard a)) (result data)); cbn [List.length]; lia.
Qed.

(** Whatever is displayed, and whether [displayResults] returns or throws
    while rendering it, the export globals afterwards hold that very
    response and a scenario name that is not empty: the response's own
    [scenario_name] when it has one that is not empty, and 'simulation'
    otherwise. *)
Theorem export_globals_follow_every_display (data : response) (a : document) :
  currentResult (fst (displayResults_with_export data a)) = Some data
  /\ currentScenarioName (fst (displayResults_with_export data a))
     = Some (or_else (scenario_name data) "simulation")
  /\ or_else (scenario_name data) "simulation" <> ""
  /\ (or_else (scenario_name data) "simulation" = "simulation"
      \/ scenario_name data = Some (or_else (scenario_name data) "simulation")).
Proof. apply export_globals_after_display. Qed.

Lemma beside_page_exportToExcel (n : option string) (o : outcome unit)
    (now : float) (a : document) :
  beside_page (fst (exportToExcel n o now a))
  = (body_end a, exportButtons a, currentResult a, currentScenarioName a,
     downloads a ++ (if export_succeeds o
                     then [[OptStr n; Lit "_"; NumStr now; Lit ".xlsx"]]
                     else [])).
Proof.
  destruct o as [| |[]]; cbn [export_succeeds];
    unfold exportToExcel, try_catch, report, dbind, dawaited, dmodify, on_page,
      dret, dthrow, modify;
    cbn [dashboard add_download fst snd set_dashboard beside_page body_end
         exportButtons currentResult currentScenarioName downloads];
    rewrite ?app_nil_r; reflexivity.
Qed.

Lemma beside_page_exportToPDF (n : option string) (o : outcome unit)
    (now : float) (a : document) :
  beside_page (fst (exportToPDF n o now a))
  = (body_end a, exportButtons a, currentResult a, currentScenarioName a,
     downloads a ++ (if export_succeeds o
                     then [[OptStr n; Lit "_report_"; NumStr now; Lit ".pdf"]]
                     else [])).
Proof.
  destruct o as [| |[]]; cbn [export_succeeds];
    unfold exportToPDF, try_catch, report, dbind, dawaited, dmodify, on_page,
      dret, dthrow, modify;
    cbn [dashboard add_download fst snd set_dashboard beside_page body_end
         exportButtons currentResult currentScenarioName downloads];
    rewrite ?app_nil_r; reflexivity.
Qed.

Lemma export_ready_download (a a' : document) (n : option string) (rest : tokens)
    (sent : bool) :
  beside_page a'
  = (body_end a, exportButtons a, currentResult a, currentScenarioName a,
     downloads a ++ (if sent then [OptStr n :: rest] else [])) ->
  n = currentScenarioName a -> exportButtons a <> [] ->
  export_ready a -> export_ready a'.
Proof.
  unfold beside_page, export_ready.
  intros [= _ Hb _ Hn Hd] -> Hne (Hname & Hlen & Hdl).
  rewrite Hb, Hn, Hd. split; [exact Hname|]. split; [exact Hlen|].
  apply Forall_app. split; [exact Hdl|].
  destruct sent; [|constructor].
  destruct Hname as [Hnil|(s & Hs & Hnes)]; [contradiction|].
  constructor; [|constructor]. exists s, rest. now rewrite Hs.
Qed.

Lemma export_ready_settle (o : outcome response) (handler finalizer : D unit) :
  dpreserves export_ready handler -> dpreserves export_ready finalizer ->
  dpreserves export_ready
    (dtry_catch_finally (data <~ dawaited o ;; displayResults_with_export data)
       handler finalizer).
Proof.
  intros Hh Hf. apply dpreserves_try_catch_finally; [|exact Hh|exact Hf].
  apply dpreserves_bind; [apply dpreserves_awaited|].
  intros data. apply export_ready_display.
Qed.

Lemma export_ready_on_page {A : Type} (c : M A) :
  dpreserves export_ready (on_page c).
Proof. apply dpreserves_on_page. exact export_ready_beside_page. Qed.

Lemma export_ready_body_end (f : list modal -> list modal) :
  dpreserves export_ready (dmodify (fun a => set_body_end (f (body_end a)) a)).
Proof.
  apply dpreserves_modify. intros a Ha.
  now apply (export_ready_ext a).
Qed.

Lemma export_ready_insert_modal (kind : modal_class) (html : tokens) :
  dpreserves export_ready (insert_modal kind html).
Proof.
  apply dpreserves_modify. intros a Ha. now apply (export_ready_ext a).
Qed.

Lemma export_ready_report (label msg : string) :
  dpreserves export_ready (report label msg).
Proof. apply dpreserves_report. exact export_ready_beside_page. Qed.

Lemma export_ready_send {A : Type} (answer : option string) (req : string -> A) :
  dpreserves export_ready
    match answer with
    | Some s =>
        if String.eqb s "" then dret None
        else on_page (modify (set_prop (Display "loading") [Lit "block"])) ;;;
             dret (Some (req s))
    | None => dret None
    end.
Proof.
  destruct answer as [s|]; [|apply dpreserves_ret].
  destruct (String.eqb s ""); [apply dpreserves_ret|].
  apply dpreserves_bind; [apply export_ready_on_page|].
  intros _. apply dpreserves_ret.
Qed.

Lemma export_ready_simulation_settle (o : outcome response) :
  dpreserves export_ready (runSimulation_settle_with_export o).
Proof.
  apply export_ready_settle; [apply export_ready_report|].
  repeat (apply dpreserves_bind; [apply export_ready_on_page|intros _]).
  apply export_ready_on_page.
Qed.

Lemma export_ready_advanced_settle (o : outcome response) :
  dpreserves export_ready (simulateAdvancedPattern_settle o).
Proof.
  apply export_ready_settle;
    [apply export_ready_report|apply export_ready_on_page].
Qed.

Lemma export_ready_network_settle (o : outcome network_response) :
  dpreserves export_ready (simulateNetwork_settle o).
Proof.
  apply dpreserves_try_catch_finally;
    [|apply export_ready_report|apply export_ready_on_page].
  apply dpreserves_bind; [apply dpreserves_awaited|]. intros data.
  apply dpreserves_bind; [apply dpreserves_defined|]. intros html.
  apply export_ready_insert_modal.
Qed.

Lemma export_ready_viewHistory (toLocaleString : option string -> string)
    (o : outcome (option (list history_record))) :
  dpreserves export_ready (viewHistory toLocaleString o).
Proof.
  apply dpreserves_try_catch; [|apply export_ready_report].
  apply dpreserves_bind; [apply dpreserves_awaited|]. intros body.
  apply dpreserves_bind; [apply dpreserves_defined|]. intros history.
  apply dpreserves_bind; [apply dpreserves_defined|]. intros html.
  apply export_ready_insert_modal.
Qed.

Lemma export_ready_act (toLocaleString : option string -> string)
    (a : document) (x : action) :
  export_ready a -> export_ready (act toLocaleString a x).
Proof.
  intros Ha. destruct x as [o|answer|o|answer|o| |o| |o now|o now]; cbn [act].
  - now apply export_ready_simulation_settle.
  - now apply (export_ready_send answer
                 (fun s => {| advanced_url := [Lit "/advanced/simulate/"; Str s];
                              advanced_simulations := 1000;
                              advanced_simulation_minutes := 240 |})).
  - now apply export_ready_advanced_settle.
  - now apply (export_ready_send answer
                 (fun s => {| url := [Lit "/network/simulate/"; Str s];
                              body := SimulationsBody 100 |})).
  - now apply export_ready_network_settle.
  - now apply (export_ready_ext a).
  - now apply export_ready_viewHistory.
  - now apply (export_ready_ext a).
  - destruct (exportButtons a) as [|b l] eqn:E; [exact Ha|].
    apply (export_ready_download a _ (currentScenarioName a)
             [Lit "_"; NumStr now; Lit ".xlsx"] (export_succeeds o));
      [|reflexivity|congruence|exact Ha].
    rewrite beside_page_exportToExcel. destruct (export_succeeds o); reflexivity.
  - destruct (exportButtons a) as [|b l] eqn:E; [exact Ha|].
    apply (export_ready_download a _ (currentScenarioName a)
             [Lit "_report_"; NumStr now; Lit ".pdf"] (export_succeeds o));
      [|reflexivity|congruence|exact Ha].
    rewrite beside_page_exportToPDF. destruct (export_succeeds o); reflexivity.
Qed.

Lemma export_ready_initial {b : browser} : export_ready (initial_document b).
Proof.
  split; [now left|]. split; [cbn [List.length exportButtons initial_document]; lia|].
  constructor.
Qed.

(** Whatever the user does and however the requests settle, the block of
    export buttons is on the page at most once, and every file that was
    downloaded has a name that starts with a scenario name that is not
    empty: no export runs before a result was displayed. *)
Theorem export_buttons_once_and_downloads_named {b : browser}
    (toLocaleString : option string -> string) (xs : list action) :
  (List.length (exportButtons (fold_left (act toLocaleString) xs (initial_document b)))
   <= 1)%nat
  /\ Forall well_named
       (downloads (fold_left (act toLocaleString) xs (initial_document b))).
Proof.
  assert (H : forall a, export_ready a ->
                        export_ready (fold_left (act toLocaleString) xs a)).
  { induction xs as [|x xs IH]; intros a Ha; [exact Ha|].
    cbn [fold_left]. apply IH. now apply export_ready_act. }
  destruct (H (initial_document b) export_ready_initial) as (_ & Hlen & Hdl).
  split; assumption.
Qed.

(** A display adds the block of export buttons when it returns normally
    and no block exists yet, and otherwise leaves the blocks as they are:
    a display that throws (on a missing property, or on more samples than
    the browser passes as arguments) adds none. *)
Theorem export_buttons_come_with_the_first_result (data : response) (a : document) :
  exportButtons (fst (displayResults_with_export data a))
  = match exportButtons a with
    | [] => if renderable (host (dashboard a)) (result data)
            then [export_buttons_html] else []
    | blocks => blocks
    end
  /\ snd (displayResults_with_export data a)
     = if renderable (host (dashboard a)) (result data) then Some tt else None.
Proof.
  split; [apply export_buttons_after_display|].
  rewrite displayResults_with_export_result. cbv zeta.
  destruct (renderable (host (dashboard a)) (result data)); reflexivity.
Qed.

(** ** History and network modals *)






Lemma count_kind_remove_first (kind : modal_class) (l : list modal) :
  count_kind kind (remove_first kind l) = Nat.pred (count_kind kind l).
Proof.
  unfold count_kind. induction l as [|m l IH]; [reflexivity|].
  cbn [remove_first filter].
  destruct (modal_class_eqb (modal_kind m) kind) eqn:E; [reflexivity|].
  cbn [filter]. rewrite E. exact IH.
Qed.

Lemma of_kind_remove_first (kind kind' : modal_class) (l : list modal) :
  modal_class_eqb kind kind' = false ->
  of_kind kind' (remove_first kind l) = of_kind kind' l.
Proof.
  intros Hne. unfold of_kind. induction l as [|m l IH]; [reflexivity|].
  cbn [remove_first filter].
  destruct (modal_class_eqb (modal_kind m) kind) eqn:E.
  - assert (E' : modal_class_eqb (modal_kind m) kind' = false)
      by (destruct (modal_kind m), kind, kind'; (discriminate || reflexivity)).
    now rewrite E'.
  - cbn [filter]. now rewrite IH.
Qed.

(** Each close button removes one modal of its own kind when there is one
    and nothing when there is none; modals of the other kind, the page and
    the export state stay as they are. *)
Theorem close_buttons_remove_one_of_their_kind (a : document) :
  (count_kind HistoryModal (body_end (fst (closeHistory a)))
   = Nat.pred (count_kind HistoryModal (body_end a))
   /\ of_kind NetworkResults (body_end (fst (closeHistory a)))
      = of_kind NetworkResults (body_end a)
   /\ fst (closeHistory a)
      = set_body_end (body_end (fst (closeHistory a))) a)
  /\ (count_kind NetworkResults (body_end (fst (closeNetworkResults a)))
      = Nat.pred (count_kind NetworkResults (body_end a))
      /\ of_kind HistoryModal (body_end (fst (closeNetworkResults a)))
         = of_kind HistoryModal (body_end a)
      /\ fst (closeNetworkResults a)
         = set_body_end (body_end (fst (closeNetworkResults a))) a).
Proof.
  unfold closeHistory, closeNetworkResults, dmodify. cbn [fst body_end set_body_end].
  repeat split.
  - apply count_kind_remove_first.
  - now apply of_kind_remove_first.
  - apply count_kind_remove_first.
  - now apply of_kind_remove_first.
Qed.










(** A prompt that is cancelled or answered with nothing starts nothing:
    no request is made and nothing on the page changes, the loading
    indicator included. *)
Theorem declined_prompt_changes_nothing (answer : option string) (a : document) :
  declined answer = true ->
  simulateNetwork_send answer a = (a, Some None)
  /\ simulateAdvancedPattern_send answer a = (a, Some None).
Proof.
  unfold declined, simulateNetwork_send, simulateAdvancedPattern_send.
  destruct answer as [s|]; [|split; reflexivity].
  intros ->. split; reflexivity.
Qed.

Lemma declined_prompt_changes_nothing_witness :
  simulateNetwork_send None loaded_document = (loaded_document, Some None)
  /\ simulateNetwork_send (Some "") loaded_document = (loaded_document, Some None).
Proof.
  split.
  - apply (declined_prompt_changes_nothing None loaded_document). reflexivity.
  - apply (declined_prompt_changes_nothing (Some "") loaded_document). reflexivity.
Defined.

(** ** [simulateAdvancedPattern] *)

Lemma simulateAdvancedPattern_settle_result (o : outcome response) (a : document) :
  fst (simulateAdvancedPattern_settle o a)
  = match o with
    | Json data =>
        let a1 := fst (displayResults_with_export data a) in
        set_dashboard
          (set_prop (Display "loading") [Lit "none"]
             (if renderable (host (dashboard a)) (result data) then dashboard a1
              else add_alert "Advanced simulation failed."
                     (add_console "Error:" (dashboard a1)))) a1
    | _ =>
        set_dashboard
          (set_prop (Display "loading") [Lit "none"]
             (add_alert "Advanced simulation failed."
                (add_console "Error:" (dashboard a)))) a
    end.
Proof.
  destruct o as [| |data]; try reflexivity.
  unfold simulateAdvancedPattern_settle, dtry_catch_finally, try_catch.
  unfold dbind at 1. cbn [dawaited dret].
  rewrite displayResults_with_export_result. cbv zeta.
  destruct (renderable (host (dashboard a)) (result data));
    [destruct (exportButtons a)|]; reflexivity.
Qed.

Lemma dashboard_after_display (data : response) (a : document) :
  dashboard (fst (displayResults_with_export data a))
  = fst (displayResults (result data) (dashboard a)).
Proof.
  rewrite displayResults_with_export_result. cbv zeta.
  destruct (renderable (host (dashboard a)) (result data));
    [destruct (exportButtons a)|]; reflexivity.
Qed.

(** [simulateAdvancedPattern], unlike [runSimulation], never touches the
    button: when it is done the loading indicator is hidden, the button is
    as it was, and its alert was raised once if the request failed
    (rejected, or a body [displayResults] cannot render: one of its five
    properties missing, or more samples than the browser passes as
    arguments) and not at all otherwise. *)
Theorem simulateAdvancedPattern_settles_without_the_button
    (o : outcome response) (a : document) :
  props (dashboard (fst (simulateAdvancedPattern_settle o a))) (Display "loading")
  = [Lit "none"]
  /\ btn_disabled (dashboard (fst (simulateAdvancedPattern_settle o a)))
     = btn_disabled (dashboard a)
  /\ props (dashboard (fst (simulateAdvancedPattern_settle o a))) (InnerHTML "btnText")
     = props (dashboard a) (InnerHTML "btnText")
  /\ alerts (dashboard (fst (simulateAdvancedPattern_settle o a)))
     = alerts (dashboard a)
       ++ (if response_succeeds (host (dashboard a)) o then []
           else ["Advanced simulation failed."]).
Proof.
  rewrite simulateAdvancedPattern_settle_result.
  destruct o as [| |data]; cbn [response_succeeds];
    try (repeat split; reflexivity).
  cbv zeta. cbn [dashboard set_dashboard].
  pose proof (displayResults_frame (result data) (dashboard a)) as Hframe.
  rewrite <- dashboard_after_display in Hframe.
  pose proof (f_equal (fun x => fst (fst (fst (fst (fst (fst (fst x))))))) Hframe) as Hbtn.
  pose proof (f_equal (fun x => snd (fst (fst (fst (fst (fst (fst x))))))) Hframe)
    as Halerts.
  pose proof (f_equal snd Hframe) as Hlabel.
  cbn [outside_results fst snd] in Hbtn, Halerts, Hlabel.
  split; [reflexivity|].
  destruct (renderable (host (dashboard a)) (result data));
    cbn [btn_disabled alerts props set_prop add_alert add_console];
    rewrite ?app_nil_r; repeat split; assumption || (now rewrite Halerts) || idtac.
  all: cbn [key_eqb String.eqb Ascii.eqb Bool.eqb]; exact Hlabel.
Qed.

(** ** [loadScenario] *)

(** The custom-parameter panel is shown exactly when [getParameters]
    builds the full custom request, and hidden exactly when it builds the
    request of a preset; and for each scenario of the description table the
    description shown is the one of the table, whatever the runtime's
    [Object.prototype] holds. *)
Theorem custom_panel_follows_the_request
    (parseInt parseFloat : string -> float)
    (Object_prototype : string -> option string) (f : form) (p : page) :
  ((props (fst (loadScenario Object_prototype f p)) (Display "customParams")
    = [Lit "block"]
    /\ exists c, getParameters parseInt parseFloat f = Custom c)
   \/ (props (fst (loadScenario Object_prototype f p)) (Display "customParams")
       = [Lit "none"]
       /\ getParameters parseInt parseFloat f = Preset (parseInt (simCount f))))
  /\ (forall name description,
        In (name, description) scenarioDescriptions ->
        scenarioSelect f = name ->
        props (fst (loadScenario Object_prototype f p)) (TextContent "descText")
        = [Lit description]).
Proof.
  unfold loadScenario, getParameters. rewrite bind_modify. split.
  - destruct (String.eqb (scenarioSelect f) "custom").
    + left. split; [reflexivity|]. eexists. reflexivity.
    + right. split; reflexivity.
  - intros name description Hin Hsel. rewrite Hsel.
    unfold scenarioDescriptions in Hin. cbn [In] in Hin.
    repeat (destruct Hin as [[= <- <-]|Hin]; [reflexivity|]). contradiction.
Qed.

(** ** The page under user events, continued *)

Lemma chart_state_runSimulation_send
    (parseInt parseFloat : string -> float) (f : form) (p : page) :
  chart_state (fst (runSimulation_send parseInt parseFloat f p)) = chart_state p.
Proof.
  unfold runSimulation_send.
  destruct (String.eqb (scenarioSelect f) "custom"); reflexivity.
Qed.

Lemma charts_ok_awaited {A : Type} (o : outcome A) :
  preserves charts_ok (awaited o).
Proof. intros p Hp. destruct o; exact Hp. Qed.

Lemma charts_ok_modify (f : page -> page) :
  (forall p, chart_state (f p) = chart_state p) ->
  preserves charts_ok (modify f).
Proof.
  intros H. apply preserves_modify. intros p. apply charts_ok_chart_state, H.
Qed.

Lemma charts_ok_runSimulation_settle (o : outcome payload) :
  preserves charts_ok (runSimulation_settle o).
Proof.
  apply preserves_try_catch_finally.
  - apply preserves_bind; [apply charts_ok_awaited|].
    intros d. apply charts_ok_displayResults.
  - apply preserves_bind; [|intros _]; now apply charts_ok_modify.
  - repeat (apply preserves_bind; [now apply charts_ok_modify|intros _]).
    now apply charts_ok_modify.
Qed.

Lemma charts_ok_compareScenarios_settle (o : outcome mapping) :
  preserves charts_ok (compareScenarios_settle o).
Proof.
  apply preserves_try_catch_finally.
  - apply preserves_bind; [apply charts_ok_awaited|].
    intros d. apply charts_ok_displayComparison.
  - apply preserves_bind; [|intros _]; now apply charts_ok_modify.
  - now apply charts_ok_modify.
Qed.

Lemma charts_ok_step (parseInt parseFloat : string -> float)
    (w w' : world) (e : event) :
  charts_ok (view w) -> step parseInt parseFloat w e = Some w' ->
  charts_ok (view w').
Proof.
  intros Hw Hstep. destruct e as [f|f|i o|i o]; cbn [step] in Hstep.
  - destruct (btn_disabled (view w)); [discriminate Hstep|].
    pose proof (chart_state_runSimulation_send parseInt parseFloat f (view w)) as H.
    destruct (runSimulation_send parseInt parseFloat f (view w)) as [p [req|]];
      injection Hstep as <-; cbn [view fst] in *;
      now apply (charts_ok_chart_state (view w)).
  - injection Hstep as <-. cbn [view].
    now apply (charts_ok_chart_state (view w)).
  - destruct (nth_error (in_flight w) i) as [[[] req]|]; try discriminate Hstep.
    injection Hstep as <-. cbn [view]. now apply charts_ok_runSimulation_settle.
  - destruct (nth_error (in_flight w) i) as [[[] req]|]; try discriminate Hstep.
    injection Hstep as <-. cbn [view]. now apply charts_ok_compareScenarios_settle.
Qed.

(** Along every series of clicks and settled requests on the page as
    loaded, each of the three view slots has at most one live chart: the
    slots stay in order, so the results above about exactly one live chart
    apply to every page the script reaches. *)
Theorem reachable_pages_keep_one_chart_per_slot {b : browser}
    (parseInt parseFloat : string -> float) (es : list event) (w : world) :
  run parseInt parseFloat (initial_world b) es = Some w ->
  charts_ok (view w)
  /\ forall s, (List.length (live_on (slot_canvas s) (charts (view w))) <= 1)%nat.
Proof.
  assert (Hall : forall es w0 w,
             charts_ok (view w0) ->
             run parseInt parseFloat w0 es = Some w -> charts_ok (view w)).
  { clear es w. induction es as [|e es IH]; intros w0 w H0 Hrun; cbn [run] in Hrun.
    - now injection Hrun as <-.
    - destruct (step parseInt parseFloat w0 e) as [w1|] eqn:E; [|discriminate].
      apply (IH w1 w); [|exact Hrun].
      now apply (charts_ok_step parseInt parseFloat w0 w1 e). }
  intros Hrun.
  assert (Hok : charts_ok (view w))
    by exact (Hall es (initial_world b) w charts_ok_initial Hrun).
  split; [exact Hok|]. intros s.
  destruct (slot_ok_live _ _ _ (Hok s)) as [->|(id & c & _ & _ & ->)];
    cbn [List.length]; lia.
Qed.

Lemma reachable_pages_keep_one_chart_per_slot_witness :
  exists w,
    run parse_digits parse_digits loaded_world
      [ClickRun custom_form; SettleSimulation 0 (Json complete_result);
       ClickCompare custom_form; SettleComparison 0 (Json two_scenarios)] = Some w
    /\ charts_ok (view w).
Proof.
  eexists. split; [vm_compute; reflexivity|].
  apply (reachable_pages_keep_one_chart_per_slot (b := a_browser) parse_digits parse_digits
           [ClickRun custom_form; SettleSimulation 0 (Json complete_result);
            ClickCompare custom_form; SettleComparison 0 (Json two_scenarios)]).
  vm_compute. reflexivity.
Defined.

Lemma remove_nth_length {A : Type} (i : nat) (l : list A) (x : A) :
  nth_error l i = Some x ->
  (List.length (remove_nth i l) + 1)%nat = List.length l.
Proof.
  revert i. induction l as [|y l IH]; intros [|i] H; try discriminate H;
    cbn [remove_nth List.length].
  - lia.
  - cbn [nth_error] in H. specialize (IH i H). lia.
Qed.

(** The loading indicator does not follow the requests in flight: it is
    hidden as soon as any request settles, however many others are still
    in flight. *)
Theorem loading_hides_when_any_request_settles
    (parseInt parseFloat : string -> float) (w w' : world) (e : event) :
  is_settle e = true ->
  step parseInt parseFloat w e = Some w' ->
  props (view w') (Display "loading") = [Lit "none"]
  /\ (List.length (in_flight w') + 1)%nat = List.length (in_flight w).
Proof.
  intros He Hstep. destruct e as [f|f|i o|i o]; try discriminate He;
    cbn [step] in Hstep;
    destruct (nth_error (in_flight w) i) as [[[] req]|] eqn:E;
    try discriminate Hstep; injection Hstep as <-; cbn [view in_flight];
    (split; [|now apply (remove_nth_length i _ _ E)]).
  - apply runSimulation_settle_finally.
  - rewrite compareScenarios_settle_page. reflexivity.
Qed.

Lemma loading_hides_when_any_request_settles_witness :
  List.length (in_flight two_comparisons_pending) = 2%nat
  /\ exists w',
       step parse_digits parse_digits two_comparisons_pending
         (SettleComparison 0 (Json two_scenarios)) = Some w'
       /\ props (view w') (Display "loading") = [Lit "none"]
       /\ List.length (in_flight w') = 1%nat.
Proof.
  split; [vm_compute; reflexivity|].
  eexists. split; [vm_compute; reflexivity|].
  split.
  - apply (loading_hides_when_any_request_settles parse_digits parse_digits
             two_comparisons_pending _ (SettleComparison 0 (Json two_scenarios)));
      [reflexivity|vm_compute; reflexivity].
  - vm_compute. reflexivity.
Defined.

(** ** [createTimeSeries] *)

(** [createTimeSeries] returns normally for every array, the empty one
    included, and leaves its handle on a live chart of the time-series
    canvas that plots every sample once, in order, under the labels 1, 2,
    ... up to the number of samples. *)
Theorem createTimeSeries_plots_every_sample (d : list float) (p : page) :
  snd (createTimeSeries (Some d) p) = Some tt
  /\ exists id c,
       timeSeriesChart (fst (createTimeSeries (Some d) p)) = Some id
       /\ nth_error (charts (fst (createTimeSeries (Some d) p))) id = Some c
       /\ canvas c = "timeSeriesChart"
       /\ destroyed c = false
       /\ map ds_data (datasets c) = [Values (map Some d)]
       /\ chart_labels c
          = map (fun i => [NumStr (JS.counter i + 1)]) (seq 0 (List.length d)).
Proof.
  destruct p as [pr bd rl ch hc tc cc al co hb ma].
  destruct tc as [old|]; run_statements; (split; [reflexivity|]);
    eexists; eexists; (split; [reflexivity|]);
    rewrite nth_error_app2, Nat.sub_diag by lia; cbn [nth_error];
    repeat split.
Qed.

